(** * Package Control repository providers

    A shallow embedding of

      - [package_control/providers/package_provider.py]
        (class [PackageProvider]) and
      - [package_control/providers/github_user_provider.py]
        (class [GitHubUserProvider]),

    together with the fragment of the Python runtime the two files rely on:
    JSON-shaped values, the exceptions raised by the builtin operations the
    code applies to them, IEEE binary64 numbers, [re] patterns and
    [posixpath].  Collaborators whose code lives elsewhere (the download
    manager, the hosting clients, the release selector, [json.loads],
    [urlparse], the string grammar of [float]) are fields of the class
    [Collaborators]. *)

From Stdlib Require Import ZArith String Ascii List Bool Lia.
From Stdlib Require Import SpecFloat.
Import ListNotations.

Set Warnings "-register-all".
Local Open Scope string_scope.
Local Open Scope list_scope.

(** ** Exceptions and results *)

Module Py.

(** The builtin exception classes that the modelled operations raise. *)
Inductive exn : Type :=
| TypeError
| KeyError
| AttributeError
| IndexError
| ValueError
| OverflowError.

(** An expression either evaluates to a value or raises. *)
Inductive result (A : Type) : Type :=
| Ret (a : A)
| Raise (e : exn).

Arguments Ret {A} a.
Arguments Raise {A} e.

Definition result_bind {A B : Type} (r : result A) (k : A -> result B)
  : result B :=
  match r with
  | Ret a => k a
  | Raise e => Raise e
  end.

(** ** Values

    What [json.loads] produces, and what the dictionaries built by the
    providers hold.  A dictionary is an association list in insertion order
    whose keys are compared with [key_eqb]; strings are sequences of
    one-byte characters. *)
Inductive pyval : Type :=
| PyNone
| PyBool (b : bool)
| PyInt (z : Z)
| PyFloat (f : spec_float)
| PyStr (s : string)
| PyList (l : list pyval)
| PyDict (d : list (pyval * pyval)).

Definition dict : Type := list (pyval * pyval).

(** *** binary64 *)

Definition prec : Z := 53.
Definition emax : Z := 1024.

(** [float(n)] for an [int]: round to nearest even, [OverflowError] when the
    result does not fit. *)
Definition float_of_Z (z : Z) : result spec_float :=
  match binary_normalize prec emax z 0 false with
  | S754_infinity _ => Raise OverflowError
  | f => Ret f
  end.

Definition float_lit (num den : Z) : spec_float :=
  SFdiv prec emax (binary_normalize prec emax num 0 false)
                  (binary_normalize prec emax den 0 false).

(** The literals [0.0], [1.0], [1.1], [1.2] and [2.0]. *)
Definition f0_0 : spec_float := S754_zero false.
Definition f1_0 : spec_float := Eval vm_compute in float_lit 1 1.
Definition f1_1 : spec_float := Eval vm_compute in float_lit 11 10.
Definition f1_2 : spec_float := Eval vm_compute in float_lit 12 10.
Definition f2_0 : spec_float := Eval vm_compute in float_lit 2 1.

Definition float_eqb (a b : spec_float) : bool := SFeqb a b.
(** [a >= b] *)
Definition float_geb (a b : spec_float) : bool := SFleb b a.
(** [a < b] *)
Definition float_ltb (a b : spec_float) : bool := SFltb a b.

(** [x in [f1, ..., fn]] for floats. *)
Definition float_in (x : spec_float) (l : list spec_float) : bool :=
  existsb (float_eqb x) l.

(** *** Truth value and hashing *)

Definition truthy (v : pyval) : bool :=
  match v with
  | PyNone => false
  | PyBool b => b
  | PyInt z => negb (z =? 0)%Z
  | PyFloat (S754_zero _) => false
  | PyFloat _ => true
  | PyStr s => negb (s =? "")
  | PyList l => match l with [] => false | _ => true end
  | PyDict d => match d with [] => false | _ => true end
  end.

Definition hashable (v : pyval) : bool :=
  match v with
  | PyList _ | PyDict _ => false
  | _ => true
  end.

(** [x == None] and [x == False] *)
Definition is_None (v : pyval) : bool :=
  match v with PyNone => true | _ => false end.

Definition eq_False (v : pyval) : bool :=
  match v with
  | PyBool b => negb b
  | PyInt z => (z =? 0)%Z
  | PyFloat (S754_zero _) => true
  | _ => false
  end.

(** Exact comparison of a float with an integer. *)
Definition float_eq_Z (f : spec_float) (z : Z) : bool :=
  match f with
  | S754_zero _ => (z =? 0)%Z
  | S754_finite s m e =>
      let sm := if s then Z.neg m else Z.pos m in
      if (0 <=? e)%Z then (z =? sm * 2 ^ e)%Z else (z * 2 ^ (- e) =? sm)%Z
  | _ => false
  end.

Definition num_view (v : pyval) : option (Z + spec_float) :=
  match v with
  | PyBool b => Some (inl (if b then 1%Z else 0%Z))
  | PyInt z => Some (inl z)
  | PyFloat f => Some (inr f)
  | _ => None
  end.

(** Equality of dictionary keys: numbers of the three numeric types are the
    same key when they are equal as numbers; the decoder's NaN is one shared
    object, found again by identity. *)
Definition key_eqb (a b : pyval) : bool :=
  match a, b with
  | PyNone, PyNone => true
  | PyStr x, PyStr y => (x =? y)
  | _, _ =>
      match num_view a, num_view b with
      | Some (inl x), Some (inl y) => (x =? y)%Z
      | Some (inl x), Some (inr f) => float_eq_Z f x
      | Some (inr f), Some (inl x) => float_eq_Z f x
      | Some (inr S754_nan), Some (inr S754_nan) => true
      | Some (inr f), Some (inr g) => float_eqb f g
      | _, _ => false
      end
  end.

(** *** Dictionaries *)

Fixpoint dict_lookup (k : pyval) (d : dict) : option pyval :=
  match d with
  | [] => None
  | (k', v) :: t => if key_eqb k' k then Some v else dict_lookup k t
  end.

Definition dict_mem (k : pyval) (d : dict) : bool :=
  match dict_lookup k d with Some _ => true | None => false end.

(** [d[k] = v]: an existing key keeps its place (and its key object). *)
Fixpoint dict_set (k v : pyval) (d : dict) : dict :=
  match d with
  | [] => [(k, v)]
  | (k', v') :: t =>
      if key_eqb k' k then (k', v) :: t else (k', v') :: dict_set k v t
  end.

Fixpoint dict_del (k : pyval) (d : dict) : dict :=
  match d with
  | [] => []
  | (k', v') :: t => if key_eqb k' k then t else (k', v') :: dict_del k t
  end.

Definition dict_keys (d : dict) : list pyval := map fst d.

(** *** Strings *)

Fixpoint is_substring (needle hay : string) : bool :=
  prefix needle hay ||
  match hay with
  | EmptyString => false
  | String _ t => is_substring needle t
  end.

Fixpoint chars (s : string) : list pyval :=
  match s with
  | EmptyString => []
  | String c t => PyStr (String c EmptyString) :: chars t
  end.

(** *** Operators and methods, with the exceptions of the wrong types *)

(** ['k' in v] for a string literal ['k']. *)
Definition contains_str (k : string) (v : pyval) : result bool :=
  match v with
  | PyDict d => Ret (dict_mem (PyStr k) d)
  | PyList l =>
      Ret (existsb (fun x => match x with PyStr s => (s =? k) | _ => false end) l)
  | PyStr s => Ret (is_substring k s)
  | _ => Raise TypeError
  end.

(** [v.get('k', default)]: only dictionaries have the method. *)
Definition get_str (v : pyval) (k : string) (default : pyval) : result pyval :=
  match v with
  | PyDict d =>
      Ret (match dict_lookup (PyStr k) d with Some x => x | None => default end)
  | _ => Raise AttributeError
  end.

(** [v['k']] for a string literal ['k']. *)
Definition getitem_str (v : pyval) (k : string) : result pyval :=
  match v with
  | PyDict d =>
      match dict_lookup (PyStr k) d with
      | Some x => Ret x
      | None => Raise KeyError
      end
  | _ => Raise TypeError
  end.

(** [v[0]] *)
Definition getitem_0 (v : pyval) : result pyval :=
  match v with
  | PyList l => match l with x :: _ => Ret x | [] => Raise IndexError end
  | PyStr s =>
      match s with
      | String c _ => Ret (PyStr (String c EmptyString))
      | EmptyString => Raise IndexError
      end
  | PyDict d =>
      match dict_lookup (PyInt 0) d with
      | Some x => Ret x
      | None => Raise KeyError
      end
  | _ => Raise TypeError
  end.

(** [v['k'] = x] *)
Definition setitem_str (v : pyval) (k : string) (x : pyval) : result pyval :=
  match v with
  | PyDict d => Ret (PyDict (dict_set (PyStr k) x d))
  | _ => Raise TypeError
  end.

(** [d[k] = x] on a dictionary, for any key. *)
Definition dict_setitem (d : dict) (k x : pyval) : result dict :=
  if hashable k then Ret (dict_set k x d) else Raise TypeError.

(** [del v['k']] *)
Definition delitem_str (v : pyval) (k : string) : result pyval :=
  match v with
  | PyDict d =>
      if dict_mem (PyStr k) d then Ret (PyDict (dict_del (PyStr k) d))
      else Raise KeyError
  | _ => Raise TypeError
  end.

(** The values a [for] loop over [v] visits. *)
Definition iterate (v : pyval) : result (list pyval) :=
  match v with
  | PyList l => Ret l
  | PyDict d => Ret (dict_keys d)
  | PyStr s => Ret (chars s)
  | _ => Raise TypeError
  end.

(** [v.items()] *)
Definition items (v : pyval) : result dict :=
  match v with
  | PyDict d => Ret d
  | _ => Raise AttributeError
  end.

(** The constructor [dict], applied to its positional arguments: it takes at
    most one. *)
Definition py_dict (args : list dict) : result pyval :=
  match args with
  | [] => Ret (PyDict [])
  | [pairs] =>
      Ret (PyDict (fold_left (fun acc kv => dict_set (fst kv) (snd kv) acc) pairs []))
  | _ => Raise TypeError
  end.

(** [v.append(x)] and [v.extend(w)] *)
Definition list_append (v x : pyval) : result pyval :=
  match v with
  | PyList l => Ret (PyList (l ++ [x]))
  | _ => Raise AttributeError
  end.

Definition list_extend (v w : pyval) : result pyval :=
  match v with
  | PyList l => result_bind (iterate w) (fun xs => Ret (PyList (l ++ xs)))
  | _ => Raise AttributeError
  end.

(** [isinstance(v, list)] *)
Definition is_list (v : pyval) : bool :=
  match v with PyList _ => true | _ => false end.

End Py.

(** ** Regular expressions

    The patterns of the two files use literals, [.], [[^/]], concatenation,
    alternation, [?], [+] and [*], anchored by [^] and [$].  Matching is by
    Brzozowski derivatives over the characters of the subject. *)

Module Re.

Inductive regex : Type :=
| Void
| Eps
| Chr (c : ascii)
| Dot
| NotChr (c : ascii)
| Cat (a b : regex)
| Alt (a b : regex)
| Star (a : regex).

Definition newline : ascii := "010"%char.

(** A literal run of characters. *)
Fixpoint lit (s : string) : regex :=
  match s with
  | EmptyString => Eps
  | String c t => Cat (Chr c) (lit t)
  end.

(** [r+], [r?] and a character class matching every character. *)
Definition plus (r : regex) : regex := Cat r (Star r).
Definition opt (r : regex) : regex := Alt r Eps.
Definition any : regex := Alt Dot (Chr newline).

(** Concatenation of a list of pieces. *)
Fixpoint seq (rs : list regex) : regex :=
  match rs with
  | [] => Eps
  | [r] => r
  | r :: t => Cat r (seq t)
  end.

Fixpoint nullable (r : regex) : bool :=
  match r with
  | Void => false
  | Eps => true
  | Chr _ => false
  | Dot => false
  | NotChr _ => false
  | Cat a b => nullable a && nullable b
  | Alt a b => nullable a || nullable b
  | Star _ => true
  end.

Fixpoint deriv (x : ascii) (r : regex) : regex :=
  match r with
  | Void => Void
  | Eps => Void
  | Chr c => if Ascii.eqb x c then Eps else Void
  | Dot => if Ascii.eqb x newline then Void else Eps
  | NotChr c => if Ascii.eqb x c then Void else Eps
  | Cat a b =>
      if nullable a then Alt (Cat (deriv x a) b) (deriv x b)
      else Cat (deriv x a) b
  | Alt a b => Alt (deriv x a) (deriv x b)
  | Star a => Cat (deriv x a) (Star a)
  end.

(** The whole of [s] is a word of [r]. *)
Fixpoint matches (r : regex) (s : list ascii) : bool :=
  match s with
  | [] => nullable r
  | x :: t => matches (deriv x r) t
  end.

(** [re.match(r, s) != None]: some prefix of [s] is a word of [r]. *)
Definition match_start (r : regex) (s : string) : bool :=
  matches (Cat r (Star any)) (list_ascii_of_string s).

(** [re.search('^' r '$', s) != None] without flags: [^] holds at the start
    of the subject only, [$] at its end or before a newline that ends it. *)
Definition search_bol_eol (r : regex) (s : string) : bool :=
  matches (Cat r (opt (Chr newline))) (list_ascii_of_string s).

(** The words of a pattern. *)
Inductive star (P : list ascii -> Prop) : list ascii -> Prop :=
| star_nil : star P []
| star_app (s1 s2 : list ascii) : P s1 -> star P s2 -> star P (s1 ++ s2).

Fixpoint lang (r : regex) (s : list ascii) : Prop :=
  match r with
  | Void => False
  | Eps => s = []
  | Chr c => s = [c]
  | Dot => exists x, s = [x] /\ x <> newline
  | NotChr c => exists x, s = [x] /\ x <> c
  | Cat a b => exists s1 s2, s = s1 ++ s2 /\ lang a s1 /\ lang b s2
  | Alt a b => lang a s \/ lang b s
  | Star a => star (lang a) s
  end.

End Re.

(** ** [posixpath] *)

Module PosixPath.

Definition slash : ascii := "/"%char.

Fixpoint has_slash (s : string) : bool :=
  match s with
  | EmptyString => false
  | String c t => Ascii.eqb c slash || has_slash t
  end.

(** [p[:p.rfind('/') + 1]] *)
Fixpoint upto_last_slash (p : string) : string :=
  match p with
  | EmptyString => EmptyString
  | String c t => if has_slash p then String c (upto_last_slash t) else EmptyString
  end.

(** [s.rstrip('/')] *)
Fixpoint rstrip_slash (s : string) : string :=
  match s with
  | EmptyString => EmptyString
  | String c t =>
      match rstrip_slash t with
      | EmptyString => if Ascii.eqb c slash then EmptyString else String c EmptyString
      | r => String c r
      end
  end.

(** [s == '/' * len(s)] *)
Fixpoint all_slashes (s : string) : bool :=
  match s with
  | EmptyString => true
  | String c t => Ascii.eqb c slash && all_slashes t
  end.

(** [os.path.dirname(p)] *)
Definition dirname (p : string) : string :=
  let head := upto_last_slash p in
  if negb (head =? "") && negb (all_slashes head) then rstrip_slash head else head.

(** [s.split('/')] *)
Fixpoint split_slash (s : string) : list string :=
  match s with
  | EmptyString => [EmptyString]
  | String c t =>
      if Ascii.eqb c slash then EmptyString :: split_slash t
      else match split_slash t with
           | h :: r => String c h :: r
           | [] => [String c EmptyString]
           end
  end.

(** ['/'.join(comps)] *)
Fixpoint join_slash (comps : list string) : string :=
  match comps with
  | [] => EmptyString
  | [c] => c
  | c :: t => (c ++ "/" ++ join_slash t)%string
  end.

(** The loop of [normpath] over the components, [new_comps] kept reversed. *)
Fixpoint norm_comps (initial_slashes : nat) (comps new_comps_rev : list string)
  : list string :=
  match comps with
  | [] => rev new_comps_rev
  | comp :: rest =>
      if (comp =? "") || (comp =? ".") then
        norm_comps initial_slashes rest new_comps_rev
      else if negb (comp =? "..")
              || (Nat.eqb initial_slashes 0 &&
                  match new_comps_rev with [] => true | _ => false end)
              || match new_comps_rev with last :: _ => (last =? "..") | [] => false end
      then norm_comps initial_slashes rest (comp :: new_comps_rev)
      else match new_comps_rev with
           | _ :: popped => norm_comps initial_slashes rest popped
           | [] => norm_comps initial_slashes rest new_comps_rev
           end
  end.

Fixpoint repeat_slash (n : nat) : string :=
  match n with
  | O => EmptyString
  | S k => String slash (repeat_slash k)
  end.

(** [os.path.normpath(path)] *)
Definition normpath (path : string) : string :=
  if path =? "" then "."
  else
    let initial_slashes :=
      if prefix "/" path then
        if prefix "//" path && negb (prefix "///" path) then 2%nat else 1%nat
      else 0%nat in
    let comps := norm_comps initial_slashes (split_slash path) [] in
    let joined := join_slash comps in
    let path' := (repeat_slash initial_slashes ++ joined)%string in
    if path' =? "" then "." else path'.

(** [p[-1]] of a string, [IndexError] on the empty one. *)
Fixpoint last_char (p : string) : Py.result ascii :=
  match p with
  | EmptyString => Py.Raise Py.IndexError
  | String c EmptyString => Py.Ret c
  | String _ t => last_char t
  end.

End PosixPath.

(** ** Monads for the effects of the code

    [Py.result] carries exceptions; [W] adds the trace of events an expression
    leaves behind (console lines, downloads, client lookups); [M] adds the
    provider object whose attributes the methods assign. *)

Class Monad (m : Type -> Type) : Type := {
  ret : forall {A : Type}, A -> m A;
  bind : forall {A B : Type}, m A -> (A -> m B) -> m B
}.

Declare Scope py_scope.
Delimit Scope py_scope with py.
Notation "x <- c ;; k" := (bind c (fun x => k))
  (at level 61, c at next level, right associativity) : py_scope.
Notation "c ;;; k" := (bind c (fun _ => k))
  (at level 61, right associativity) : py_scope.

#[export] Instance Monad_result : Monad Py.result := {
  ret := @Py.Ret;
  bind := @Py.result_bind
}.

Module Trace.

Import Py.

(** The two hosting clients. *)
Inductive host : Type := GitHub | BitBucket.

(** The lines handed to [console_write], by the place that writes them; the
    arguments are the values formatted into the text. *)
Inductive message : Type :=
| MsgJsonError (url : string)
| MsgSchemaMissing (repo : string)
| MsgSchemaNotNumber (repo : string)
| MsgSchemaUnknown (repo : string)
| MsgPackagesMissing (repo : string)
| MsgInvalidDetails (repo : string)
| MsgInvalidReleaseDetails (name : pyval) (repo : string)
| MsgNoReleases (name : pyval) (repo : string).

Inductive event : Type :=
| Download (url : string)
| Console (m : message)
| RepoInfoLookup (client : host) (details : pyval)
| DownloadInfoLookup (client : host) (details : pyval).

Definition W (A : Type) : Type := (list event * result A)%type.

Definition wbind {A B : Type} (c : W A) (k : A -> W B) : W B :=
  match c with
  | (ev, Ret a) => let (ev', r) := k a in (ev ++ ev', r)
  | (ev, Raise e) => (ev, Raise e)
  end.

#[export] Instance Monad_W : Monad W := {
  ret := fun A a => ([], Ret a);
  bind := @wbind
}.

(** An expression without events, and a single event. *)
Definition pure {A : Type} (r : result A) : W A := ([], r).
Definition emit (e : event) : W unit := ([e], Ret tt).
Definition console_write (m : message) : W unit := emit (Console m).

End Trace.

(** ** Collaborators *)

(** The named tuple returned by [urlparse]. *)
Record ParseResult : Type := {
  scheme : string;
  netloc : string;
  path : string;
  params : string;
  query : string;
  fragment : string
}.

(** [t[k]]: a tuple is indexed by integers, from either end. *)
Definition tuple_getitem (t : ParseResult) (k : Py.pyval) : Py.result string :=
  let fields := [scheme t; netloc t; path t; params t; query t; fragment t] in
  let at_index (z : Z) :=
    let i := if (z <? 0)%Z then (z + 6)%Z else z in
    if (i <? 0)%Z then Py.Raise Py.IndexError
    else match nth_error fields (Z.to_nat i) with
         | Some x => Py.Ret x
         | None => Py.Raise Py.IndexError
         end in
  match k with
  | Py.PyInt z => at_index z
  | Py.PyBool b => at_index (if b then 1%Z else 0%Z)
  | _ => Py.Raise Py.TypeError
  end.

(** Code that is called but lives outside the two files.

    - [download_url url]: [DownloadManager(settings).download_url(url, ...)],
      the bytes of the document or [None] for the [False] of a failure;
    - [json_loads]: [json.loads(s.decode('utf-8'))], [None] for [ValueError];
    - [float_of_str]: [float(s)] on a string, [None] for [ValueError];
    - [urlparse];
    - [client_repo_info c details] and [client_download_info c details]: the
      methods [repo_info] and [download_info] of [GitHubClient] and
      [BitBucketClient];
    - [select_release] and [select_platform]: the methods inherited from
      [ReleaseSelector].

    Each is a function of its argument: asked twice, a collaborator answers
    twice the same, and it answers rather than raises. *)
Class Collaborators : Type := {
  download_url : string -> option string;
  json_loads : string -> option Py.pyval;
  float_of_str : string -> option spec_float;
  urlparse : string -> Py.result ParseResult;
  client_repo_info : Trace.host -> Py.pyval -> Py.pyval;
  client_download_info : Trace.host -> Py.pyval -> Py.pyval;
  select_release : Py.pyval -> Py.pyval;
  select_platform : Py.pyval -> Py.pyval
}.

(** ** [package_provider.py] *)

Module PackageProvider.

Import Py Trace Re PosixPath.
Local Open Scope py_scope.

(** The attributes assigned by [__init__]. *)
Record t : Type := mk {
  repo_info : pyval;
  schema_version : spec_float;
  repo : string;
  settings : pyval;
  unavailable_packages : list pyval
}.

(** [PackageProvider(repo, settings)] *)
Definition init (repo : string) (settings : pyval) : t :=
  {| repo_info := PyNone;
     schema_version := f0_0;
     repo := repo;
     settings := settings;
     unavailable_packages := [] |}.

(** A method body: from the object before to the object after, the events of
    the call, and its value or exception. *)
Definition M (A : Type) : Type := t -> t * list event * result A.

Definition mbind {A B : Type} (c : M A) (k : A -> M B) : M B :=
  fun self =>
    match c self with
    | (self1, ev, Ret a) =>
        match k a self1 with
        | (self2, ev', r) => (self2, ev ++ ev', r)
        end
    | (self1, ev, Raise e) => (self1, ev, Raise e)
    end.

#[export] Instance Monad_M : Monad M := {
  ret := fun A a self => (self, [], Ret a);
  bind := @mbind
}.

Definition liftR {A : Type} (r : result A) : M A := fun self => (self, [], r).
Definition liftW {A : Type} (w : W A) : M A := fun self => (self, fst w, snd w).
Definition get_self : M t := fun self => (self, [], Ret self).

(** The object with one attribute assigned. *)
Definition with_repo_info (v : pyval) (self : t) : t :=
  mk v (schema_version self) (repo self) (settings self)
     (unavailable_packages self).

Definition with_schema_version (f : spec_float) (self : t) : t :=
  mk (repo_info self) f (repo self) (settings self)
     (unavailable_packages self).

Definition with_unavailable (names : list pyval) (self : t) : t :=
  mk (repo_info self) (schema_version self) (repo self) (settings self) names.

Definition set_repo_info (v : pyval) : M unit :=
  fun self => (with_repo_info v self, [], Ret tt).

Definition set_schema_version (f : spec_float) : M unit :=
  fun self => (with_schema_version f self, [], Ret tt).

(** [self.unavailable_packages.append(name)] *)
Definition append_unavailable (name : pyval) : M unit :=
  fun self =>
    (with_unavailable (unavailable_packages self ++ [name]) self, [], Ret tt).

(** What one pass of the loop over the packages does to [output] and to
    [self.unavailable_packages]. *)
Inductive action : Type :=
| Continue
| MarkUnavailable (name : pyval)
| Store (name info : pyval).

(** The pattern "^\./|\.\./" handed to [re.match]. *)
Definition include_re : regex := Alt (lit "./") (lit "../").

(** The pattern of line 232, "^(G1)zipball(G2)$" with
    G1 = "https://nodeload.github.com/[^/]+/[^/]+/" and G2 = "/.*":
    group 1, the literal between the groups, group 2. *)
Definition zipball_group1 : regex :=
  seq [lit "https://nodeload"; Dot; lit "github"; Dot; lit "com/";
       plus (NotChr "/"); Chr "/"; plus (NotChr "/"); Chr "/"].
Definition zipball_literal : string := "zipball".
Definition zipball_group2 : regex := Cat (Chr "/") (Star Dot).

(** The whole pattern, for [re.search]. *)
Definition zipball_re : regex :=
  seq [zipball_group1; lit zipball_literal; zipball_group2].

(** A split [s = p ++ q] accepted by [ok], the shortest [p] first. *)
Fixpoint find_split (ok : list ascii -> list ascii -> bool)
    (p_rev s : list ascii) : option (list ascii * list ascii) :=
  if ok (rev p_rev) s then Some (rev p_rev, s)
  else match s with
       | [] => None
       | x :: t => find_split ok (x :: p_rev) t
       end.

Fixpoint strip_prefix (p s : list ascii) : option (list ascii) :=
  match p, s with
  | [], _ => Some s
  | x :: p', y :: s' => if Ascii.eqb x y then strip_prefix p' s' else None
  | _ :: _, [] => None
  end.

(** The subject is group 1, then the literal, then group 2 up to the end or
    up to a newline that ends the subject. *)
Definition zipball_split_ok (p q : list ascii) : bool :=
  matches zipball_group1 p &&
  match strip_prefix (list_ascii_of_string zipball_literal) q with
  | Some q' => matches (Cat zipball_group2 (opt (Chr newline))) q'
  | None => false
  end.

(** [re.sub(pattern, repl, url)] with the replacement "\1zip\2": the
    pattern is anchored at the start, so at most one match is replaced; what
    follows the match is kept.  Neither character class of group 1 admits a
    slash, so a subject has at most one accepted split and the order in which
    splits are tried does not matter. *)
Definition rewrite_zipball (url : string) : string :=
  match find_split zipball_split_ok [] (list_ascii_of_string url) with
  | Some (p, q) =>
      string_of_list_ascii
        (p ++ list_ascii_of_string "zip"
           ++ skipn (String.length zipball_literal) q)
  | None => url
  end.

Definition re_sub_zipball (v : pyval) : result pyval :=
  match v with
  | PyStr url => Ret (PyStr (rewrite_zipball url))
  | _ => Raise TypeError
  end.

Section Methods.

Context {C : Collaborators}.

(** [float(v)] *)
Definition py_float (v : pyval) : result spec_float :=
  match v with
  | PyBool b => Ret (if b then f1_0 else f0_0)
  | PyInt z => float_of_Z z
  | PyFloat f => Ret f
  | PyStr s =>
      match float_of_str s with
      | Some f => Ret f
      | None => Raise ValueError
      end
  | _ => Raise TypeError
  end.

(** [match_url]: "Indicates if this provider can handle the provided repo". *)
Definition match_url (self : t) : bool := true.

(** [fetch_url], lines 89-100. *)
Definition fetch_url (url : string) : W pyval :=
  emit (Download url) ;;;
  match download_url url with
  | None => ret (PyBool false)
  | Some json_string =>
      match json_loads json_string with
      | Some v => ret v
      | None => console_write (MsgJsonError url) ;;; ret (PyBool false)
      end
  end.

(** Lines 72-76, from the three pieces read off [url_pieces]. *)
Definition relative_base_of (scheme netloc path : string) : result string :=
  let domain := (scheme ++ "://" ++ netloc)%string in
  let path := if path =? "" then "/" else path in
  c <- last_char path ;;
  let path := if negb (Ascii.eqb c "/") then dirname path else path in
  ret (domain ++ path)%string.

(** Lines 81-82: the URL an include is fetched from. *)
Definition resolve_include (relative_base : string) (include : pyval)
  : result string :=
  match include with
  | PyStr s =>
      if match_start include_re s then Ret (normpath (relative_base ++ s)%string)
      else Ret s
  | _ => Raise TypeError
  end.

(** Lines 80-87; [extend] grows the list held by [self.repo_info]. *)
Fixpoint include_loop (relative_base : string) (includes : list pyval)
  : M unit :=
  match includes with
  | [] => ret tt
  | include :: rest =>
      url <- liftR (resolve_include relative_base include) ;;
      include_info <- liftW (fetch_url url) ;;
      if eq_False include_info then include_loop relative_base rest
      else
        included_packages <- liftR (get_str include_info "packages" (PyList [])) ;;
        self <- get_self ;;
        packages <- liftR (getitem_str (repo_info self) "packages") ;;
        packages' <- liftR (list_extend packages included_packages) ;;
        info' <- liftR (setitem_str (repo_info self) "packages" packages') ;;
        set_repo_info info' ;;;
        include_loop relative_base rest
  end.

(** [fetch_repo], lines 57-87. *)
Definition fetch_repo : M pyval :=
  self <- get_self ;;
  if negb (is_None (repo_info self)) then ret PyNone
  else
    info <- liftW (fetch_url (repo self)) ;;
    set_repo_info info ;;;
    if eq_False info then ret (PyBool false)
    else
      has_includes <- liftR (contains_str "includes" info) ;;
      if negb has_includes then ret PyNone
      else
        url_pieces <- liftR (urlparse (repo self)) ;;
        scheme <- liftR (tuple_getitem url_pieces (PyStr "scheme")) ;;
        netloc <- liftR (tuple_getitem url_pieces (PyStr "netloc")) ;;
        path <- liftR (tuple_getitem url_pieces (PyStr "path")) ;;
        path <- (if path =? "" then ret path
                 else liftR (tuple_getitem url_pieces (PyStr "path"))) ;;
        relative_base <- liftR (relative_base_of scheme netloc path) ;;
        includes <- liftR (get_str info "includes" (PyList [])) ;;
        info' <- liftR (delitem_str info "includes") ;;
        set_repo_info info' ;;;
        includes <- liftR (iterate includes) ;;
        include_loop relative_base includes ;;;
        ret PyNone.

(** Lines 149-154: a field of the package is copied when its value is true. *)
Definition copy_truthy (package : pyval) (field target : string)
    (info : pyval) : result pyval :=
  v <- get_str package field PyNone ;;
  if truthy v then setitem_str info target v else ret info.

Fixpoint copy_fields (fields : list string) (package info : pyval)
  : result pyval :=
  match fields with
  | [] => ret info
  | field :: rest =>
      info <- copy_truthy package field field info ;;
      copy_fields rest package info
  end.

Definition explicit_info (package : pyval) : result pyval :=
  info <- copy_fields ["name"; "description"; "author"; "last_modified"]
            package (PyDict []) ;;
  copy_truthy package "homepage" "url" info.

(** [dict(provided.items(), explicit.items())], lines 171, 173, 202, 204. *)
Definition merge_over (provided explicit : pyval) : result pyval :=
  a <- items provided ;;
  b <- items explicit ;;
  py_dict [a; b].

(** Lines 164-176; [None] stands for the [continue] of line 176. *)
Definition enrich_repo (repo : string) (details info : pyval)
  : W (option pyval) :=
  if truthy details then
    emit (RepoInfoLookup GitHub details) ;;;
    emit (RepoInfoLookup BitBucket details) ;;;
    let github_repo_info := client_repo_info GitHub details in
    let bitbucket_repo_info := client_repo_info BitBucket details in
    if truthy github_repo_info then
      info <- pure (merge_over github_repo_info info) ;;
      ret (Some info)
    else if truthy bitbucket_repo_info then
      info <- pure (merge_over bitbucket_repo_info info) ;;
      ret (Some info)
    else
      console_write (MsgInvalidDetails repo) ;;;
      ret None
  else ret (Some info).

(** Lines 191-193. *)
Fixpoint copy_release_fields (fields : list string)
    (releases download_info : pyval) : result pyval :=
  match fields with
  | [] => ret download_info
  | field :: rest =>
      first <- getitem_0 releases ;;
      present <- contains_str field first ;;
      if (present : bool) then
        first <- getitem_0 releases ;;
        v <- getitem_str first field ;;
        download_info <- setitem_str download_info field v ;;
        copy_release_fields rest releases download_info
      else copy_release_fields rest releases download_info
  end.

Definition release_fields : list string :=
  ["platforms"; "sublime_text"; "version"; "url"; "date"].

(** Lines 190-209, one pass of [for release in releases] on the pair
    ([info], [download_info]).  The dictionary appended on line 209 is the
    one object [download_info] names; later passes assign it the fields of
    line 193 again, with the values it already holds. *)
Definition release_body (repo : string) (releases release : pyval)
    (st : pyval * pyval) : W (pyval * pyval) :=
  let (info, download_info) := st in
  download_info <- pure (copy_release_fields release_fields releases download_info) ;;
  download_details <- pure (first <- getitem_0 releases ;;
                            getitem_str first "details") ;;
  overlaid <-
    (if truthy download_details then
       emit (DownloadInfoLookup GitHub download_details) ;;;
       emit (DownloadInfoLookup BitBucket download_details) ;;;
       let github_download := client_download_info GitHub download_details in
       let bitbucket_download := client_download_info BitBucket download_details in
       if truthy github_download then
         d <- pure (merge_over github_download download_info) ;;
         ret (Some d)
       else if truthy bitbucket_download then
         d <- pure (merge_over bitbucket_download download_info) ;;
         ret (Some d)
       else
         name <- pure (getitem_str info "name") ;;
         console_write (MsgInvalidReleaseDetails name repo) ;;;
         ret None
     else ret (Some download_info)) ;;
  match overlaid with
  | None => ret (info, download_info)
  | Some download_info =>
      collected <- pure (getitem_str info "releases") ;;
      collected <- pure (list_append collected download_info) ;;
      info <- pure (setitem_str info "releases" collected) ;;
      ret (info, download_info)
  end.

Fixpoint release_loop (repo : string) (releases : pyval)
    (pending : list pyval) (st : pyval * pyval) : W (pyval * pyval) :=
  match pending with
  | [] => ret st
  | release :: rest =>
      st <- release_body repo releases release st ;;
      release_loop repo releases rest st
  end.

(** Lines 160-211; [None] stands for the [continue] of line 176. *)
Definition build_releases (repo : string) (package info : pyval)
  : W (option pyval) :=
  details <- pure (get_str package "details" PyNone) ;;
  releases <- pure (get_str package "releases" PyNone) ;;
  enriched <- enrich_repo repo details info ;;
  match enriched with
  | None => ret None
  | Some info =>
      let download_info := PyDict [] in
      let releases :=
        if negb (truthy releases) && truthy details
        then PyList [PyDict [(PyStr "details", details)]]
        else releases in
      info <- pure (setitem_str info "releases" (PyList [])) ;;
      pending <- pure (iterate releases) ;;
      st <- release_loop repo releases pending (info, download_info) ;;
      ret (Some (select_release (fst st)))
  end.

(** Lines 216-217. *)
Definition build_platforms (package info : pyval) : W (option pyval) :=
  platforms <- pure (get_str package "platforms" PyNone) ;;
  info <- pure (setitem_str info "platforms" platforms) ;;
  ret (Some (select_platform info)).

(** Lines 219-235, on the value the selector returned. *)
Definition finish (repo : string) (package info : pyval) : W action :=
  if negb (truthy info) then
    name <- pure (getitem_str package "name") ;;
    ret (MarkUnavailable name)
  else
    has_download <- pure (contains_str "download" info) ;;
    if negb has_download then
      name <- pure (getitem_str info "name") ;;
      console_write (MsgNoReleases name repo) ;;;
      ret Continue
    else
      has_url <- pure (contains_str "url" info) ;;
      info <- (if negb has_url then pure (setitem_str info "url" (PyStr repo))
               else ret info) ;;
      download <- pure (getitem_str info "download") ;;
      url <- pure (getitem_str download "url") ;;
      url <- pure (re_sub_zipball url) ;;
      download <- pure (getitem_str info "download") ;;
      download <- pure (setitem_str download "url" url) ;;
      info <- pure (setitem_str info "download" download) ;;
      name <- pure (getitem_str info "name") ;;
      ret (Store name info).

(** Lines 147-217: the value of [info] after the selector has run, [None] for
    the [continue] of line 176, as a function of the two attributes read. *)
Definition selected_info (schema_version : spec_float) (repo : string)
    (package : pyval) : W (option pyval) :=
  info <- pure (explicit_info package) ;;
  if float_geb schema_version f2_0 then build_releases repo package info
  else build_platforms package info.

(** The body of [for package in self.repo_info['packages']], lines 147-235. *)
Definition process_package (schema_version : spec_float) (repo : string)
    (package : pyval) : W action :=
  selected <- selected_info schema_version repo package ;;
  match selected with
  | None => ret Continue
  | Some info => finish repo package info
  end.

Fixpoint package_loop (packages : list pyval) (output : dict) : M dict :=
  match packages with
  | [] => ret output
  | package :: rest =>
      self <- get_self ;;
      a <- liftW (process_package (schema_version self) (repo self) package) ;;
      match a with
      | Continue => package_loop rest output
      | MarkUnavailable name =>
          append_unavailable name ;;;
          package_loop rest output
      | Store name info =>
          output <- liftR (dict_setitem output name info) ;;
          package_loop rest output
      end
  end.

Definition supported_versions : list spec_float := [f1_0; f1_1; f1_2; f2_0].

(** Lines 125-237, once [self.repo_info] is known not to be [False]. *)
Definition validate_and_resolve : M pyval :=
  self <- get_self ;;
  has_version <- liftR (contains_str "schema_version" (repo_info self)) ;;
  if negb has_version then
    liftW (console_write (MsgSchemaMissing (repo self))) ;;;
    ret (PyBool false)
  else
    version <- liftR (get_str (repo_info self) "schema_version" PyNone) ;;
    match py_float version with
    | Raise ValueError =>
        liftW (console_write (MsgSchemaNotNumber (repo self))) ;;;
        ret (PyBool false)
    | Raise e => liftR (Raise e)
    | Ret f =>
        set_schema_version f ;;;
        if negb (float_in f supported_versions) then
          liftW (console_write (MsgSchemaUnknown (repo self))) ;;;
          ret (PyBool false)
        else
          has_packages <- liftR (contains_str "packages" (repo_info self)) ;;
          if negb has_packages then
            liftW (console_write (MsgPackagesMissing (repo self))) ;;;
            ret (PyBool false)
          else
            packages <- liftR (getitem_str (repo_info self) "packages") ;;
            packages <- liftR (iterate packages) ;;
            output <- package_loop packages [] ;;
            ret (PyDict output)
    end.

(** [get_packages], lines 102-237. *)
Definition get_packages : M pyval :=
  fetch_repo ;;;
  self <- get_self ;;
  if eq_False (repo_info self) then ret (PyBool false)
  else validate_and_resolve.

(** Lines 250-255 for one package. *)
Fixpoint rename_each (previous_names : list pyval) (name : pyval)
    (output : dict) : result dict :=
  match previous_names with
  | [] => ret output
  | previous_name :: rest =>
      output <- dict_setitem output previous_name name ;;
      rename_each rest name output
  end.

Fixpoint renamed_loop (packages : list pyval) (output : dict) : result dict :=
  match packages with
  | [] => ret output
  | package :: rest =>
      declared <- contains_str "previous_names" package ;;
      if negb declared then renamed_loop rest output
      else
        previous_names <- getitem_str package "previous_names" ;;
        let previous_names :=
          if negb (is_list previous_names) then PyList [previous_names]
          else previous_names in
        previous_names <- iterate previous_names ;;
        output <-
          (match previous_names with
           | [] => ret output
           | _ => name <- getitem_str package "name" ;;
                  rename_each previous_names name output
           end) ;;
        renamed_loop rest output
  end.

(** [get_renamed_packages], lines 239-257. *)
Definition get_renamed_packages (self : t) : result pyval :=
  if float_ltb (schema_version self) f2_0 then
    get_str (repo_info self) "renamed_packages" (PyDict [])
  else
    packages <- getitem_str (repo_info self) "packages" ;;
    packages <- iterate packages ;;
    output <- renamed_loop packages [] ;;
    ret (PyDict output).

(** [get_unavailable_packages], lines 259-269. *)
Definition get_unavailable_packages (self : t) : list pyval :=
  unavailable_packages self.

End Methods.

End PackageProvider.

(** ** [github_user_provider.py] *)

Module GitHubUserProvider.

Import Py Re.

Record t : Type := mk {
  repo : string;
  settings : pyval
}.

(** [GitHubUserProvider(repo, settings)] *)
Definition init (repo : string) (settings : pyval) : t := mk repo settings.

(** The pattern "^https?://github.com/[^/]+/?$" of line 34, between its
    anchors. *)
Definition user_url_re : regex :=
  seq [lit "http"; opt (Chr "s"); lit "://github"; Dot; lit "com/";
       plus (NotChr "/"); opt (Chr "/")].

(** [match_url], lines 31-34. *)
Definition match_url (self : t) : bool :=
  search_bol_eol user_url_re (repo self).

(** [get_renamed_packages] and [get_unavailable_packages], lines 60-73. *)
Definition get_renamed_packages (self : t) : pyval := PyDict [].
Definition get_unavailable_packages (self : t) : list pyval := [].

End GitHubUserProvider.

(** ** The pattern of the rewrite rule as the specification writes it

    "^https://nodeload\.github\.com/([^/]+)/([^/]+)/zipball(G3)$" there, with
    G3 = "/.*": the two dots of the host name are escaped. *)

Module SpecRule.

Import Re.

Definition legacy_url_re : regex :=
  seq [lit "https://nodeload.github.com/"; plus (NotChr "/"); Chr "/";
       plus (NotChr "/"); lit "/zipball"; Chr "/"; Star Dot].

End SpecRule.

(** ** Scripted collaborators

    Stand-ins for the code outside the two files, for running the providers
    on concrete repositories. *)

Module Script.

Import Py Trace.

(** A document on the network: its URL, its text, and the value the text
    decodes to. *)
Record document : Type := {
  doc_url : string;
  doc_text : string;
  doc_value : option pyval
}.

Definition served (docs : list document) (url : string) : option string :=
  option_map doc_text (find (fun d => doc_url d =? url) docs).

Definition decoded (docs : list document) (text : string) : option pyval :=
  match find (fun d => doc_text d =? text) docs with
  | Some d => doc_value d
  | None => None
  end.

(** The version strings the scripts use. *)
Definition float_of_version (s : string) : option spec_float :=
  if s =? "1.0" then Some f1_0
  else if s =? "1.1" then Some f1_1
  else if s =? "1.2" then Some f1_2
  else if s =? "2.0" then Some f2_0
  else if s =? "3.0" then Some (float_lit 3 1)
  else None.

(** [scheme://netloc/path] without query or fragment. *)
Fixpoint until_slash (s : string) : string * string :=
  match s with
  | EmptyString => (EmptyString, EmptyString)
  | String c t =>
      if Ascii.eqb c "/" then (EmptyString, s)
      else let (a, b) := until_slash t in (String c a, b)
  end.

Fixpoint split_scheme (s : string) : option (string * string) :=
  match s with
  | EmptyString => None
  | String c t =>
      if prefix "://" s then Some (EmptyString, substring 3 (String.length s - 3) s)
      else match split_scheme t with
           | Some (a, b) => Some (String c a, b)
           | None => None
           end
  end.

Definition simple_urlparse (url : string) : result ParseResult :=
  match split_scheme url with
  | Some (sch, rest) =>
      let (host, p) := until_slash rest in
      Ret {| scheme := sch; netloc := host; path := p;
             params := ""; query := ""; fragment := "" |}
  | None =>
      Ret {| scheme := ""; netloc := ""; path := url;
             params := ""; query := ""; fragment := "" |}
  end.

(** A client that knows the given URLs and answers [False] elsewhere. *)
Definition answers (known : list (string * pyval)) (details : pyval) : pyval :=
  match details with
  | PyStr url =>
      match find (fun kv => fst kv =? url) known with
      | Some kv => snd kv
      | None => PyBool false
      end
  | _ => PyBool false
  end.

(** Modelled from the spec: [ReleaseSelector.select_platform] of
    [release_selector.py], which is not among the sources.  Sections 3 and
    4.4: a schema 1.x entry carries a map from platform to URL; an entry is
    eligible when its key is "*", the target platform or a prefix of it; the
    first eligible entry in declared order wins; without one the package is
    unavailable. *)
Fixpoint first_eligible (target : string) (platforms : dict) : option pyval :=
  match platforms with
  | [] => None
  | (PyStr k, url) :: rest =>
      if (k =? "*") || prefix k target then Some url
      else first_eligible target rest
  | _ :: rest => first_eligible target rest
  end.

Definition select_platform_for (target : string) (info : pyval) : pyval :=
  match info with
  | PyDict d =>
      match dict_lookup (PyStr "platforms") d with
      | Some (PyDict platforms) =>
          match first_eligible target platforms with
          | Some url =>
              PyDict (dict_set (PyStr "download") (PyDict [(PyStr "url", url)])
                        (dict_del (PyStr "platforms") d))
          | None => PyBool false
          end
      | _ => PyBool false
      end
  | _ => PyBool false
  end.

(** A selector that hands the package back as it is: nothing is chosen, so
    the result carries no download. *)
Definition select_nothing (info : pyval) : pyval := info.

Definition collaborators (docs : list document)
    (github_repos bitbucket_repos github_downloads bitbucket_downloads
       : list (string * pyval))
    (release_selector platform_selector : pyval -> pyval) : Collaborators :=
  {| download_url := served docs;
     json_loads := decoded docs;
     float_of_str := float_of_version;
     urlparse := simple_urlparse;
     client_repo_info := fun h =>
       match h with
       | GitHub => answers github_repos
       | BitBucket => answers bitbucket_repos
       end;
     client_download_info := fun h =>
       match h with
       | GitHub => answers github_downloads
       | BitBucket => answers bitbucket_downloads
       end;
     select_release := release_selector;
     select_platform := platform_selector |}.

End Script.

(** ** Concrete repositories *)

Module Cases.

Import Py Trace Script.

(** JSON text written with apostrophes for its quotation marks. *)
Fixpoint json_text (s : string) : string :=
  match s with
  | EmptyString => EmptyString
  | String c t =>
      String (if Ascii.eqb c "'" then ascii_of_nat 34 else c) (json_text t)
  end.

Definition obj (fields : list (string * pyval)) : pyval :=
  PyDict (map (fun kv => (PyStr (fst kv), snd kv)) fields).

Definition manifest (url text : string) (value : pyval) : document :=
  {| doc_url := url; doc_text := json_text text; doc_value := Some value |}.

Definition root_url : string := "https://example.com/repo.json".

(** The target platform of the scripted platform selector. *)
Definition linux : pyval -> pyval := select_platform_for "linux-x64".

(** *** A schema 2.0 package with an explicit author and a details URL *)

Definition merge_package : pyval :=
  obj [("name", PyStr "P"); ("author", PyStr "Y");
       ("details", PyStr "https://github.com/u/p")].

Definition merge_docs : list document :=
  [manifest root_url
     "{'schema_version': '2.0', 'packages': [{'name': 'P', 'author': 'Y', 'details': 'https://github.com/u/p'}]}"
     (obj [("schema_version", PyStr "2.0");
           ("packages", PyList [merge_package])])].

Definition merge_github : list (string * pyval) :=
  [("https://github.com/u/p",
    obj [("name", PyStr "p"); ("description", PyStr "D");
         ("author", PyStr "X"); ("homepage", PyStr "https://github.com/u/p")])].

Definition merge_world : Collaborators :=
  collaborators merge_docs merge_github [] [] [] select_nothing linux.

(** *** A schema 2.0 package with two explicit releases *)

Definition release_1 : pyval :=
  obj [("version", PyStr "1.0"); ("url", PyStr "https://example.com/p-1.0.zip");
       ("details", PyNone)].
Definition release_2 : pyval :=
  obj [("version", PyStr "2.0"); ("url", PyStr "https://example.com/p-2.0.zip");
       ("details", PyNone)].

Definition two_releases_package : pyval :=
  obj [("name", PyStr "P"); ("releases", PyList [release_1; release_2])].

(** The same with a details URL per release, answered by neither client. *)
Definition two_details_package : pyval :=
  obj [("name", PyStr "P");
       ("releases",
        PyList [obj [("details", PyStr "https://github.com/u/p/tree/a")];
                obj [("details", PyStr "https://github.com/u/p/tree/b")]])].

(** A release that leaves [details] out. *)
Definition no_details_package : pyval :=
  obj [("name", PyStr "P");
       ("details", PyNone);
       ("releases",
        PyList [obj [("version", PyStr "1.0");
                     ("url", PyStr "https://example.com/p-1.0.zip")]])].

Definition releases_world : Collaborators :=
  collaborators [] [] [] [] [] select_nothing linux.

(** *** Manifests that must be rejected *)

Definition null_version_docs : list document :=
  [manifest root_url "{'schema_version': null, 'packages': []}"
     (obj [("schema_version", PyNone); ("packages", PyList [])])].

Definition no_version_includes_docs : list document :=
  [manifest root_url "{'packages': [], 'includes': []}"
     (obj [("packages", PyList []); ("includes", PyList [])])].

Definition plain_world (docs : list document) : Collaborators :=
  collaborators docs [] [] [] [] select_nothing linux.

(** *** A relative include *)

Definition nested_root_url : string := "https://example.com/a/repo.json".

Definition package_b : pyval :=
  obj [("name", PyStr "B");
       ("platforms", obj [("*", PyStr "https://example.com/b.zip")])].

Definition relative_include_docs : list document :=
  [manifest nested_root_url
     "{'schema_version': '1.2', 'packages': [], 'includes': ['../b.json']}"
     (obj [("schema_version", PyStr "1.2"); ("packages", PyList []);
           ("includes", PyList [PyStr "../b.json"])]);
   manifest "https://example.com/b.json"
     "{'schema_version': '1.2', 'packages': [{'name': 'B', 'platforms': {'*': 'https://example.com/b.zip'}}]}"
     (obj [("schema_version", PyStr "1.2"); ("packages", PyList [package_b])])].

(** *** Two absolute includes, the first of which cannot be fetched *)

Definition two_includes_docs : list document :=
  [manifest root_url
     "{'schema_version': '1.2', 'packages': [], 'includes': ['https://example.com/gone.json', 'https://example.com/b.json']}"
     (obj [("schema_version", PyStr "1.2"); ("packages", PyList []);
           ("includes", PyList [PyStr "https://example.com/gone.json";
                                PyStr "https://example.com/b.json"])]);
   manifest "https://example.com/b.json"
     "{'schema_version': '1.2', 'packages': [{'name': 'B', 'platforms': {'*': 'https://example.com/b.zip'}}]}"
     (obj [("schema_version", PyStr "1.2"); ("packages", PyList [package_b])])].

(** *** A download URL on another host *)

Definition lookalike_url : string := "https://nodeload-github.com/u/r/zipball/v1".

Definition lookalike_docs : list document :=
  [manifest root_url
     "{'schema_version': '1.2', 'packages': [{'name': 'P', 'platforms': {'*': 'https://nodeload-github.com/u/r/zipball/v1'}}]}"
     (obj [("schema_version", PyStr "1.2");
           ("packages",
            PyList [obj [("name", PyStr "P");
                         ("platforms", obj [("*", PyStr lookalike_url)])]])])].

(** *** One name, listed twice *)

Definition a_everywhere : pyval :=
  obj [("name", PyStr "A");
       ("platforms", obj [("*", PyStr "https://example.com/a.zip")])].
Definition a_windows_only : pyval :=
  obj [("name", PyStr "A");
       ("platforms", obj [("windows", PyStr "https://example.com/a-win.zip")])].

Definition twice_docs : list document :=
  [manifest root_url
     "{'schema_version': '1.2', 'packages': [{'name': 'A', 'platforms': {'*': 'https://example.com/a.zip'}}, {'name': 'A', 'platforms': {'windows': 'https://example.com/a-win.zip'}}]}"
     (obj [("schema_version", PyStr "1.2");
           ("packages", PyList [a_everywhere; a_windows_only])])].

(** *** One package for another platform *)

Definition windows_only_docs : list document :=
  [manifest root_url
     "{'schema_version': '1.2', 'packages': [{'name': 'A', 'platforms': {'windows': 'https://example.com/a-win.zip'}}]}"
     (obj [("schema_version", PyStr "1.2");
           ("packages", PyList [a_windows_only])])].

(** Two calls of [get_packages] on one provider. *)
Definition twice {C : Collaborators} (self : PackageProvider.t)
  : PackageProvider.t * PackageProvider.t :=
  let first := fst (fst (PackageProvider.get_packages self)) in
  (first, fst (fst (PackageProvider.get_packages first))).

End Cases.

(** ** Shapes of strings, stated without patterns *)

Module Shapes.

Import Re.

Definition chars_of : string -> list ascii := list_ascii_of_string.

Definition no_slash (w : list ascii) : Prop := Forall (fun x => x <> "/"%char) w.
Definition no_newline (w : list ascii) : Prop := Forall (fun x => x <> newline) w.

(** [http], an optional [s], [://github], one character that is not a
    newline, [com/], a non-empty name without a slash, an optional slash and
    an optional final newline. *)
Definition github_user_url (w : list ascii) : Prop :=
  exists (tls : bool) (dot : ascii) (user : list ascii) (slash nl : bool),
    dot <> newline /\ user <> [] /\ no_slash user /\
    w = chars_of "http" ++ (if tls then ["s"%char] else [])
        ++ chars_of "://github" ++ [dot] ++ chars_of "com/" ++ user
        ++ (if slash then ["/"%char] else [])
        ++ (if nl then [newline] else []).

End Shapes.

(** * Properties *)

(** ** Derivatives decide the words of a pattern *)

Module ReFacts.

Import Re.

Lemma nullable_lang (r : regex) : nullable r = true <-> lang r [].
Proof.
  induction r; simpl.
  - split; [discriminate | tauto].
  - tauto.
  - split; discriminate.
  - split; [discriminate | intros (x & H & _); discriminate].
  - split; [discriminate | intros (x & H & _); discriminate].
  - rewrite andb_true_iff, IHr1, IHr2. split.
    + intros [H1 H2]. exists [], []. auto.
    + intros (s1 & s2 & E & H1 & H2).
      symmetry in E. apply app_eq_nil in E as [-> ->]. auto.
  - rewrite orb_true_iff, IHr1, IHr2. tauto.
  - split; [intros _; constructor | reflexivity].
Qed.

Lemma star_cons_inv (P : list ascii -> Prop) (x : ascii) (s : list ascii) :
  star P (x :: s) ->
  exists s1 s2, s = s1 ++ s2 /\ P (x :: s1) /\ star P s2.
Proof.
  intros H. remember (x :: s) as w eqn:E. revert x s E.
  induction H as [| s1 s2 H1 H2 IH]; intros x s E.
  - discriminate.
  - destruct s1 as [| y s1]; simpl in E.
    + eauto.
    + injection E as -> <-. exists s1, s2. auto.
Qed.

Lemma deriv_lang (x : ascii) (r : regex) :
  forall s, lang (deriv x r) s <-> lang r (x :: s).
Proof.
  induction r; intros s; simpl.
  - tauto.
  - split; [tauto | discriminate].
  - destruct (Ascii.eqb_spec x c) as [-> | N]; simpl.
    + split; [intros -> | intros [= ->]]; reflexivity.
    + split; [tauto | intros [= E _]; contradiction].
  - destruct (Ascii.eqb_spec x newline) as [-> | N]; simpl.
    + split; [tauto | intros (y & [= -> ->] & N); contradiction].
    + split; [intros -> | intros (y & [= <- ->] & _); reflexivity].
      exists x; auto.
  - destruct (Ascii.eqb_spec x c) as [-> | N]; simpl.
    + split; [tauto | intros (y & [= -> ->] & N); contradiction].
    + split; [intros -> | intros (y & [= <- ->] & _); reflexivity].
      exists x; auto.
  - destruct (nullable r1) eqn:Hn; simpl.
    + split.
      * intros [(s1 & s2 & -> & H1 & H2) | H].
        -- exists (x :: s1), s2. rewrite <- IHr1. auto.
        -- exists [], (x :: s). rewrite <- IHr2.
           repeat split; auto. now apply nullable_lang.
      * intros (s1 & s2 & E & H1 & H2). destruct s1 as [| y s1]; simpl in E.
        -- right. subst s2. now apply IHr2.
        -- injection E as <- ->. left. exists s1, s2. rewrite IHr1. auto.
    + split.
      * intros (s1 & s2 & -> & H1 & H2).
        exists (x :: s1), s2. rewrite <- IHr1. auto.
      * intros (s1 & s2 & E & H1 & H2). destruct s1 as [| y s1]; simpl in E.
        -- apply nullable_lang in H1. congruence.
        -- injection E as <- ->. exists s1, s2. rewrite IHr1. auto.
  - rewrite IHr1, IHr2. tauto.
  - split.
    + intros (s1 & s2 & -> & H1 & H2).
      apply (star_app _ (x :: s1) s2); [now apply IHr | assumption].
    + intros H. apply star_cons_inv in H as (s1 & s2 & -> & H1 & H2).
      exists s1, s2. rewrite IHr. auto.
Qed.

Lemma matches_lang (s : list ascii) :
  forall r, matches r s = true <-> lang r s.
Proof.
  induction s as [| x s IH]; intros r; simpl.
  - apply nullable_lang.
  - rewrite IH. apply deriv_lang.
Qed.

(** The words of the derived forms. *)

Lemma lang_lit (s : string) (w : list ascii) :
  lang (lit s) w <-> w = list_ascii_of_string s.
Proof.
  revert w. induction s as [| c s IH]; intros w; simpl.
  - tauto.
  - split.
    + intros (s1 & s2 & -> & -> & H). apply IH in H. now subst.
    + intros ->. exists [c], (list_ascii_of_string s).
      repeat split. now apply IH.
Qed.

Lemma star_single (P : ascii -> Prop) (w : list ascii) :
  star (fun s => exists x, s = [x] /\ P x) w <-> Forall P w.
Proof.
  split.
  - induction 1 as [| s1 s2 (x & -> & Hx) _ IH]; simpl; auto.
  - induction 1 as [| x w Hx _ IH]; [constructor |].
    apply (star_app _ [x] w); eauto.
Qed.

Lemma lang_plus_single (P : ascii -> Prop) (r : regex) (w : list ascii) :
  (forall s, lang r s <-> exists x, s = [x] /\ P x) ->
  lang (plus r) w <-> w <> [] /\ Forall P w.
Proof.
  intros Hr. unfold plus. simpl. split.
  - intros (s1 & s2 & -> & H1 & H2). apply Hr in H1 as (x & -> & Hx).
    split; [discriminate |]. constructor; [assumption |].
    apply star_single. clear - H2 Hr.
    induction H2 as [| a b Ha _ IH]; [constructor |].
    apply star_app; [now apply Hr | assumption].
  - intros [N H]. destruct H as [| x w Hx Hw]; [contradiction |].
    exists [x], w. repeat split.
    + apply Hr. eauto.
    + apply star_single in Hw. clear - Hw Hr.
      induction Hw as [| a b Ha _ IH]; [constructor |].
      apply star_app; [now apply Hr | assumption].
Qed.

Lemma lang_plus_notchr (c : ascii) (w : list ascii) :
  lang (plus (NotChr c)) w <-> w <> [] /\ Forall (fun x => x <> c) w.
Proof. apply lang_plus_single. intros s. reflexivity. Qed.

Lemma lang_star_dot (w : list ascii) :
  lang (Star Dot) w <-> Forall (fun x => x <> newline) w.
Proof. simpl. apply star_single. Qed.

Lemma lang_opt_chr (c : ascii) (w : list ascii) :
  lang (opt (Chr c)) w <-> exists b : bool, w = if b then [c] else [].
Proof.
  simpl. split.
  - intros [-> | ->]; [exists true | exists false]; reflexivity.
  - intros ([] & ->); auto.
Qed.

End ReFacts.

(** ** Which provider claims a repository URL *)

Module MatchUrl.

Import Py Re ReFacts Shapes.

Lemma user_url_words (w : list ascii) :
  lang (Cat GitHubUserProvider.user_url_re (opt (Chr newline))) w
  <-> github_user_url w.
Proof.
  unfold GitHubUserProvider.user_url_re, github_user_url. split.
  - intros (body & tail & -> & H & Ht). apply lang_opt_chr in Ht as (nl & ->).
    cbn [seq] in H.
    destruct H as (a1 & r1 & -> & H1 & H). apply lang_lit in H1 as ->.
    destruct H as (a2 & r2 & -> & H2 & H). apply lang_opt_chr in H2 as (tls & ->).
    destruct H as (a3 & r3 & -> & H3 & H). apply lang_lit in H3 as ->.
    destruct H as (a4 & r4 & -> & (dot & -> & Hdot) & H).
    destruct H as (a5 & r5 & -> & H5 & H). apply lang_lit in H5 as ->.
    destruct H as (user & r6 & -> & H6 & H). apply lang_plus_notchr in H6 as [Hne Hns].
    apply lang_opt_chr in H as (slash & ->).
    exists tls, dot, user, slash, nl. repeat split; auto.
    unfold chars_of. repeat rewrite <- app_assoc. reflexivity.
  - intros (tls & dot & user & slash & nl & Hdot & Hne & Hns & ->).
    exists (chars_of "http" ++ (if tls then ["s"%char] else [])
              ++ chars_of "://github" ++ [dot] ++ chars_of "com/" ++ user
              ++ (if slash then ["/"%char] else [])),
           (if nl then [newline] else []).
    split; [repeat rewrite <- app_assoc; reflexivity |].
    split; [| apply lang_opt_chr; exists nl; reflexivity].
    cbn [seq].
    eexists _, _. split; [reflexivity |]. split; [now apply lang_lit |].
    eexists _, _. split; [reflexivity |].
    split; [apply lang_opt_chr; exists tls; reflexivity |].
    eexists _, _. split; [reflexivity |]. split; [now apply lang_lit |].
    eexists _, _. split; [reflexivity |]. split; [exists dot; auto |].
    eexists _, _. split; [reflexivity |]. split; [now apply lang_lit |].
    eexists _, _. split; [reflexivity |].
    split; [apply lang_plus_notchr; auto |].
    apply lang_opt_chr. exists slash. reflexivity.
Qed.

(** C10. Whatever the repository URL and the settings, the generic provider
    answers [True] to [match_url], and the GitHub user provider answers
    [True] exactly for the URLs its pattern describes: [http] or [https],
    [://github], any one character but a newline, [com/], a non-empty user or
    organisation name without a slash, an optional closing slash (and the
    newline that [$] tolerates at the very end). *)
Theorem match_url_generic_and_github_user (repo : string) (settings : pyval) :
  PackageProvider.match_url (PackageProvider.init repo settings) = true /\
  (GitHubUserProvider.match_url (GitHubUserProvider.init repo settings) = true
   <-> github_user_url (chars_of repo)).
Proof.
  split; [reflexivity |].
  unfold GitHubUserProvider.match_url, search_bol_eol. simpl.
  rewrite matches_lang. apply user_url_words.
Qed.

End MatchUrl.

(** ** The loop over the packages *)

Module LoopFacts.

Import Py Trace PackageProvider.

Section Loop.

Context {C : Collaborators}.

(** One pass of the loop, by the outcome of its body. *)
Lemma package_loop_cons (package : pyval) (rest : list pyval) (output : dict)
    (self : t) :
  package_loop (package :: rest) output self =
  match process_package (schema_version self) (repo self) package with
  | (ev, Raise e) => (self, ev, Raise e)
  | (ev, Ret Continue) =>
      let '(self', ev', r) := package_loop rest output self in
      (self', ev ++ ev', r)
  | (ev, Ret (MarkUnavailable name)) =>
      let '(self', ev', r) :=
        package_loop rest output
          (with_unavailable (unavailable_packages self ++ [name]) self) in
      (self', ev ++ ev', r)
  | (ev, Ret (Store name info)) =>
      match dict_setitem output name info with
      | Ret output' =>
          let '(self', ev', r) := package_loop rest output' self in
          (self', ev ++ ev', r)
      | Raise e => (self, ev, Raise e)
      end
  end.
Proof.
  simpl package_loop.
  unfold mbind, get_self, liftW, liftR, append_unavailable. cbn [fst snd app].
  destruct (process_package (schema_version self) (repo self) package)
    as [ev [a | e]]; cbn [fst snd]; [| reflexivity].
  destruct a as [| name | name info].
  - destruct (package_loop rest output self) as [[self' ev'] r]. reflexivity.
  - destruct (package_loop rest output _) as [[self' ev'] r]. reflexivity.
  - destruct (dict_setitem output name info) as [output' | e]; cbn [app].
    + destruct (package_loop rest output' self) as [[self' ev'] r]. reflexivity.
    + now rewrite app_nil_r.
Qed.

(** The body, by what the selector returned. *)
Lemma process_package_selected (sv : spec_float) (rp : string)
    (package info : pyval) (ev : list event) :
  selected_info sv rp package = (ev, Ret (Some info)) ->
  process_package sv rp package =
  let (ev', r) := finish rp package info in (ev ++ ev', r).
Proof.
  intros H. unfold process_package. cbn [bind Monad_W]. unfold wbind.
  rewrite H. reflexivity.
Qed.

Lemma finish_unavailable (rp : string) (package info name : pyval) :
  truthy info = false ->
  getitem_str package "name" = Ret name ->
  finish rp package info = ([], Ret (MarkUnavailable name)).
Proof.
  intros Hf Hn. unfold finish. rewrite Hf. cbn. unfold pure. now rewrite Hn.
Qed.





(** The pass over a package for which nothing was selected. *)
Lemma unavailable_step (self : t) (package : pyval)
    (rest : list pyval) (output : dict) (ev : list event) (info name : pyval) :
  selected_info (schema_version self) (repo self) package
    = (ev, Ret (Some info)) ->
  truthy info = false ->
  getitem_str package "name" = Ret name ->
  package_loop (package :: rest) output self =
  let '(self', ev', r) :=
    package_loop rest output
      (with_unavailable (unavailable_packages self ++ [name]) self) in
  (self', ev ++ ev', r).
Proof.
  intros Hs Hf Hn. rewrite package_loop_cons.
  rewrite (process_package_selected _ _ _ _ _ Hs).
  rewrite (finish_unavailable _ _ _ _ Hf Hn). cbn [app].
  now rewrite app_nil_r.
Qed.

Lemma dict_mem_set (k n v : pyval) (d : dict) :
  dict_mem k (dict_set n v d) = true ->
  dict_mem k d = true \/ key_eqb n k = true.
Proof.
  unfold dict_mem. induction d as [| [k' v'] d IH]; simpl.
  - destruct (key_eqb n k); auto.
  - destruct (key_eqb k' n); simpl; destruct (key_eqb k' k); auto.
Qed.

(** What the body does for a package, without its events. *)
Definition outcome (self : t) (package : pyval) : result action :=
  snd (process_package (schema_version self) (repo self) package).

(** Where the names appended and the keys stored by a loop come from. *)
Lemma package_loop_names (packages : list pyval) :
  forall (output : dict) (self self' : t) (ev : list event) (output' : dict),
    package_loop packages output self = (self', ev, Ret output') ->
    exists delta : list pyval,
      unavailable_packages self' = unavailable_packages self ++ delta /\
      (forall name, In name delta ->
         exists p, In p packages /\ outcome self p = Ret (MarkUnavailable name)) /\
      (forall key, dict_mem key output' = true ->
         dict_mem key output = true \/
         exists p name info,
           In p packages /\ outcome self p = Ret (Store name info) /\
           key_eqb name key = true).
Proof.
  induction packages as [| package rest IH]; intros output self self' ev output' H.
  - injection H as <- _ <-. exists []. rewrite app_nil_r.
    repeat split; [intros ? [] | auto].
  - rewrite package_loop_cons in H.
    destruct (process_package (schema_version self) (repo self) package)
      as [evp [a | e]] eqn:E; [| discriminate].
    assert (O : outcome self package = Ret a) by (unfold outcome; now rewrite E).
    destruct a as [| name | name info].
    + destruct (package_loop rest output self) as [[s e'] r] eqn:L.
      injection H as <- _ ->.
      destruct (IH _ _ _ _ _ L) as (delta & Hu & Hd & Hk).
      exists delta. split; [assumption |]. split.
      * intros n Hn. destruct (Hd n Hn) as (p & Hp & Ho). exists p. simpl; auto.
      * intros k Hm. destruct (Hk k Hm) as [? | (p & n & i & Hp & Ho & He)]; auto.
        right. exists p, n, i. simpl; auto.
    + destruct (package_loop rest output _) as [[s e'] r] eqn:L.
      injection H as <- _ ->.
      destruct (IH _ _ _ _ _ L) as (delta & Hu & Hd & Hk).
      exists (name :: delta). split; [rewrite Hu; simpl; now rewrite <- app_assoc |].
      split.
      * intros n [<- | Hn]; [exists package; simpl; auto |].
        destruct (Hd n Hn) as (p & Hp & Ho). exists p. simpl; auto.
      * intros k Hm. destruct (Hk k Hm) as [? | (p & n & i & Hp & Ho & He)]; auto.
        right. exists p, n, i. simpl; auto.
    + unfold dict_setitem in H. destruct (hashable name); [| discriminate].
      destruct (package_loop rest _ self) as [[s e'] r] eqn:L.
      injection H as <- _ ->.
      destruct (IH _ _ _ _ _ L) as (delta & Hu & Hd & Hk).
      exists delta. split; [assumption |]. split.
      * intros n Hn. destruct (Hd n Hn) as (p & Hp & Ho). exists p. simpl; auto.
      * intros k Hm. destruct (Hk k Hm) as [Hs | (p & n & i & Hp & Ho & He)].
        -- apply dict_mem_set in Hs as [? | ?]; auto.
           right. exists package, name, info. simpl; auto.
        -- right. exists p, n, i. simpl; auto.
Qed.

(** C5, as amended.  A package that has a name and for which the selector
    returns a false value has its name appended to
    [self.unavailable_packages] and stores nothing: the loop goes on to the
    remaining packages with [output] unchanged.  And when the loop returns,
    a name it appended is a key of the map it returns only if the list holds
    two entries, one that was marked unavailable under that name and one that
    was stored under it. *)
Theorem unavailable_when_nothing_selected :
  (forall (self : t) (package : pyval) (rest : list pyval) (output : dict)
          (ev : list event) (info name : pyval),
     selected_info (schema_version self) (repo self) package
       = (ev, Ret (Some info)) ->
     truthy info = false ->
     getitem_str package "name" = Ret name ->
     package_loop (package :: rest) output self =
     let '(self', ev', r) :=
       package_loop rest output
         (with_unavailable (unavailable_packages self ++ [name]) self) in
     (self', ev ++ ev', r))
  /\
  (forall (self self' : t) (packages : list pyval) (ev : list event)
          (output' : dict),
     package_loop packages [] self = (self', ev, Ret output') ->
     exists delta : list pyval,
       unavailable_packages self' = unavailable_packages self ++ delta /\
       forall name,
         In name delta -> dict_mem name output' = true ->
         exists p1 p2 name' info,
           In p1 packages /\ In p2 packages /\
           outcome self p1 = Ret (MarkUnavailable name) /\
           outcome self p2 = Ret (Store name' info) /\
           key_eqb name' name = true).
Proof.
  split; [exact unavailable_step |].
  intros self self' packages ev output' H.
  destruct (package_loop_names _ _ _ _ _ _ H) as (delta & Hu & Hd & Hk).
  exists delta. split; [assumption |].
  intros name Hn Hm.
  destruct (Hd name Hn) as (p1 & Hp1 & Ho1).
  destruct (Hk name Hm) as [F | (p2 & n & i & Hp2 & Ho2 & He)]; [discriminate |].
  exists p1, p2, n, i. auto.
Qed.


End Loop.

End LoopFacts.

(** ** What a call leaves on the provider *)

Module CallFacts.

Import Py Trace PackageProvider LoopFacts.

(** The version a call assigns to [self.schema_version], if it gets there. *)
Definition bump (assigned : option spec_float) (self : t) : t :=
  match assigned with
  | Some f => with_schema_version f self
  | None => self
  end.

(** No document is requested in a list of events. *)
Definition no_download (ev : list event) : Prop :=
  Forall (fun e => match e with Download _ => False | _ => True end) ev.

Section Calls.

Context {C : Collaborators}.

Lemma with_unavailable_same (self : t) :
  with_unavailable (unavailable_packages self ++ []) self = self.
Proof. destruct self. unfold with_unavailable. simpl. now rewrite app_nil_r. Qed.

(** The loop reads [self.schema_version] and [self.repo] and appends to
    [self.unavailable_packages]; what it appends, writes and returns is the
    same whatever the list held before. *)
Lemma package_loop_frame (packages : list pyval) :
  forall (output : dict) (sv : spec_float) (rp : string),
  exists (delta : list pyval) (ev : list event) (r : result dict),
  forall self : t,
    schema_version self = sv -> repo self = rp ->
    package_loop packages output self =
    (with_unavailable (unavailable_packages self ++ delta) self, ev, r).
Proof.
  induction packages as [| package rest IH]; intros output sv rp.
  - exists [], [], (Ret output). intros self _ _. simpl.
    now rewrite with_unavailable_same.
  - destruct (process_package sv rp package) as [ev [a | e]] eqn:E.
    + destruct a as [| name | name info].
      * destruct (IH output sv rp) as (delta & ev' & r & H).
        exists delta, (ev ++ ev'), r. intros self Hsv Hrp.
        rewrite package_loop_cons, Hsv, Hrp, E, (H self Hsv Hrp). reflexivity.
      * destruct (IH output sv rp) as (delta & ev' & r & H).
        exists (name :: delta), (ev ++ ev'), r. intros self Hsv Hrp.
        rewrite package_loop_cons, Hsv, Hrp, E.
        rewrite H by assumption. unfold with_unavailable. simpl.
        now rewrite <- app_assoc.
      * destruct (dict_setitem output name info) as [output' | e] eqn:Es.
        -- destruct (IH output' sv rp) as (delta & ev' & r & H).
           exists delta, (ev ++ ev'), r. intros self Hsv Hrp.
           rewrite package_loop_cons, Hsv, Hrp, E, Es, (H self Hsv Hrp).
           reflexivity.
        -- exists [], ev, (Raise e). intros self Hsv Hrp.
           rewrite package_loop_cons, Hsv, Hrp, E, Es.
           now rewrite with_unavailable_same.
    + exists [], ev, (Raise e). intros self Hsv Hrp.
      rewrite package_loop_cons, Hsv, Hrp, E.
      now rewrite with_unavailable_same.
Qed.

Ltac run_method :=
  cbv beta iota delta [bind ret Monad_M mbind get_self liftR liftW
                       set_repo_info set_schema_version console_write emit
                       fst snd].

Ltac run_validate self Hinfo Hrp :=
  intros self Hinfo Hrp; unfold validate_and_resolve; run_method;
  rewrite ?Hinfo, ?Hrp.

Ltac step_with E := rewrite E; cbn [negb app].

Ltac close_frame :=
  cbn [bump];
  first [ now rewrite with_unavailable_same
        | match goal with
          | |- (?s, _, _) = _ =>
              now rewrite <- (with_unavailable_same s) at 1
          end ].

(** Validation and the loop read [self.repo_info] and [self.repo]; they may
    assign [self.schema_version] and append to
    [self.unavailable_packages], always the same way. *)
Lemma validate_frame (info : pyval) (rp : string) :
  exists (assigned : option spec_float) (delta : list pyval)
         (ev : list event) (r : result pyval),
  forall self : t,
    repo_info self = info -> repo self = rp ->
    validate_and_resolve self =
    (with_unavailable (unavailable_packages self ++ delta) (bump assigned self),
     ev, r).
Proof.
  destruct (contains_str "schema_version" info) as [[|] | e] eqn:E1.
  3:{ exists None, [], [], (Raise e). run_validate self Hinfo Hrp.
      step_with E1. close_frame. }
  2:{ exists None, [], [Console (MsgSchemaMissing rp)], (Ret (PyBool false)).
      run_validate self Hinfo Hrp. step_with E1. close_frame. }
  destruct (get_str info "schema_version" PyNone) as [version | e] eqn:E2.
  2:{ exists None, [], [], (Raise e). run_validate self Hinfo Hrp.
      step_with E1. step_with E2. close_frame. }
  destruct (py_float version) as [f | e] eqn:E3.
  2:{ destruct e;
      [ exists None, [], [], (Raise TypeError)
      | exists None, [], [], (Raise KeyError)
      | exists None, [], [], (Raise AttributeError)
      | exists None, [], [], (Raise IndexError)
      | exists None, [], [Console (MsgSchemaNotNumber rp)], (Ret (PyBool false))
      | exists None, [], [], (Raise OverflowError) ];
      run_validate self Hinfo Hrp; step_with E1; step_with E2; step_with E3;
      close_frame. }
  destruct (float_in f supported_versions) eqn:E4.
  2:{ exists (Some f), [], [Console (MsgSchemaUnknown rp)], (Ret (PyBool false)).
      run_validate self Hinfo Hrp. step_with E1. step_with E2. step_with E3.
      step_with E4. close_frame. }
  destruct (contains_str "packages" info) as [[|] | e] eqn:E5.
  3:{ exists (Some f), [], [], (Raise e).
      run_validate self Hinfo Hrp. step_with E1. step_with E2. step_with E3.
      step_with E4. step_with E5. close_frame. }
  2:{ exists (Some f), [], [Console (MsgPackagesMissing rp)], (Ret (PyBool false)).
      run_validate self Hinfo Hrp. step_with E1. step_with E2. step_with E3.
      step_with E4. step_with E5. close_frame. }
  destruct (getitem_str info "packages") as [packages | e] eqn:E6.
  2:{ exists (Some f), [], [], (Raise e).
      run_validate self Hinfo Hrp. step_with E1. step_with E2. step_with E3.
      step_with E4. step_with E5. step_with E6. close_frame. }
  destruct (iterate packages) as [pending | e] eqn:E7.
  2:{ exists (Some f), [], [], (Raise e).
      run_validate self Hinfo Hrp. step_with E1. step_with E2. step_with E3.
      step_with E4. step_with E5. step_with E6. step_with E7. close_frame. }
  destruct (package_loop_frame pending [] f rp) as (delta & ev & r & H).
  exists (Some f), delta, ev,
    (match r with Ret output => Ret (PyDict output) | Raise e => Raise e end).
  run_validate self Hinfo Hrp. step_with E1. step_with E2. step_with E3.
  step_with E4. step_with E5. step_with E6. step_with E7. cbn [bump].
  rewrite (H (with_schema_version f self)); [| reflexivity | exact Hrp].
  destruct r; [now rewrite app_nil_r | reflexivity].
Qed.

Lemma fetch_url_returns (url : string) :
  exists (ev : list event) (v : pyval), fetch_url url = (ev, Ret v).
Proof.
  unfold fetch_url. cbn [bind ret Monad_W wbind emit console_write].
  destruct (download_url url) as [text |]; cbn; [| eauto].
  destruct (json_loads text); cbn; eauto.
Qed.

Lemma eq_False_not_None (v : pyval) : eq_False v = true -> is_None v = false.
Proof. destruct v; simpl; congruence. Qed.

Lemma contains_not_None (k : string) (v : pyval) (b : bool) :
  contains_str k v = Ret b -> is_None v = false.
Proof. destruct v; simpl; congruence. Qed.

(** A named tuple has no string subscripts. *)
Lemma tuple_getitem_str (pieces : ParseResult) (k : string) :
  tuple_getitem pieces (PyStr k) = Raise TypeError.
Proof. reflexivity. Qed.

Lemma with_repo_info_same (self : t) :
  with_repo_info (repo_info self) self = self.
Proof. now destruct self. Qed.

(** A call of [fetch_repo] that returns leaves a manifest on the provider and
    touches no other attribute. *)
Lemma fetch_repo_returns (self self' : t) (ev : list event) (x : pyval) :
  fetch_repo self = (self', ev, Ret x) ->
  is_None (repo_info self') = false /\
  self' = with_repo_info (repo_info self') self.
Proof.
  unfold fetch_repo. run_method.
  destruct (is_None (repo_info self)) eqn:En; cbn [negb].
  - destruct (fetch_url_returns (repo self)) as (evf & info & ->).
    cbn [fst snd app].
    destruct (eq_False info) eqn:Ef.
    + intros [= <- _ _]. cbn. split; [now apply eq_False_not_None | reflexivity].
    + destruct (contains_str "includes" info) as [[|] | e] eqn:Ec; cbn [negb].
      * destruct (urlparse (repo self)) as [pieces | e]; [| discriminate].
        discriminate.
      * intros [= <- _ _]. cbn.
        split; [now apply (contains_not_None _ _ _ Ec) | reflexivity].
      * discriminate.
  - intros [= <- _ _]. split; [assumption | now rewrite with_repo_info_same].
Qed.

(** Once [self.repo_info] is set, [fetch_repo] returns at line 61. *)
Lemma fetch_repo_known (self : t) :
  is_None (repo_info self) = false ->
  fetch_repo self = (self, [], Ret PyNone).
Proof.
  intros H. unfold fetch_repo. run_method. now rewrite H.
Qed.

Lemma get_packages_known (self : t) :
  is_None (repo_info self) = false ->
  get_packages self =
  if eq_False (repo_info self) then (self, [], Ret (PyBool false))
  else validate_and_resolve self.
Proof.
  intros H. unfold get_packages. run_method. rewrite (fetch_repo_known _ H).
  cbn [app]. destruct (eq_False (repo_info self)); [reflexivity |].
  destruct (validate_and_resolve self) as [[s ev] r]. reflexivity.
Qed.

(** C6, as amended. When a call of [get_packages] returns [v], a second call
    on the same provider returns the same [v], and [get_renamed_packages]
    gives the same result after either call; the unavailable list is not
    rebuilt: the second call appends to it the very names the first call
    appended. *)
Theorem second_call_repeats (self s1 : t) (ev1 : list event) (v : pyval) :
  get_packages self = (s1, ev1, Ret v) ->
  exists (delta : list pyval) (ev2 : list event) (s2 : t),
    get_unavailable_packages s1 = get_unavailable_packages self ++ delta /\
    get_packages s1 = (s2, ev2, Ret v) /\
    get_unavailable_packages s2 = get_unavailable_packages s1 ++ delta /\
    get_renamed_packages s2 = get_renamed_packages s1.
Proof.
  unfold get_unavailable_packages.
  unfold get_packages at 1. run_method.
  destruct (fetch_repo self) as [[sm evm] [x | e]] eqn:F; [| discriminate].
  destruct (fetch_repo_returns _ _ _ _ F) as [Hn Hsm].
  assert (Hu : unavailable_packages sm = unavailable_packages self)
    by (rewrite Hsm; reflexivity).
  cbn [app].
  destruct (eq_False (repo_info sm)) eqn:Ef.
  - intros [= <- _ <-]. exists [], [], sm.
    rewrite !app_nil_r, (get_packages_known _ Hn), Ef. auto.
  - destruct (validate_frame (repo_info sm) (repo sm))
      as (assigned & delta & ev & r & H).
    rewrite (H sm eq_refl eq_refl).
    intros [= <- _ ->].
    set (s1 := with_unavailable (unavailable_packages sm ++ delta)
                 (bump assigned sm)).
    assert (Hi : repo_info s1 = repo_info sm) by (destruct assigned; reflexivity).
    assert (Hr : repo s1 = repo sm) by (destruct assigned; reflexivity).
    exists delta, ev,
      (with_unavailable (unavailable_packages s1 ++ delta) (bump assigned s1)).
    split; [subst s1; destruct assigned; cbn; now rewrite Hu |].
    split.
    + rewrite get_packages_known by now rewrite Hi.
      rewrite Hi, Ef. apply H; assumption.
    + split; [destruct assigned; reflexivity |].
      unfold get_renamed_packages. subst s1. destruct assigned; reflexivity.
Qed.

End Calls.

End CallFacts.

(** ** Overlaying explicit fields on the fields of a client *)

Module MergeFacts.

Import Py Trace PackageProvider Script Cases.

Section Merge.

Context {C : Collaborators}.

(** [dict] called with two positional arguments raises, whatever they are:
    no dictionary comes out of lines 171, 173, 202 and 204. *)
Lemma merge_over_raises (provided explicit : pyval) :
  exists e, merge_over provided explicit = Raise e.
Proof.
  unfold merge_over. destruct provided; simpl; eauto.
  destruct explicit; simpl; eauto.
Qed.

Lemma enrich_repo_raises (rp : string) (details info : pyval) :
  truthy details = true ->
  truthy (client_repo_info GitHub details) = true \/
  truthy (client_repo_info BitBucket details) = true ->
  exists ev e, enrich_repo rp details info = (ev, Raise e).
Proof.
  intros Hd Ha. unfold enrich_repo. rewrite Hd.
  cbn [bind ret Monad_W wbind emit pure app].
  destruct (truthy (client_repo_info GitHub details)) eqn:Eg.
  - destruct (merge_over_raises (client_repo_info GitHub details) info) as [e ->].
    eauto.
  - destruct Ha as [Ha | Ha]; [discriminate |]. rewrite Ha.
    destruct (merge_over_raises (client_repo_info BitBucket details) info)
      as [e ->].
    eauto.
Qed.

Lemma copy_fields_dict (fields : list string) (d : dict) :
  forall i, exists i', copy_fields fields (PyDict d) (PyDict i) = Ret (PyDict i').
Proof.
  induction fields as [| field rest IH]; intros i; simpl; [eauto |].
  unfold copy_truthy. simpl.
  destruct (truthy _); simpl; apply IH.
Qed.

Lemma explicit_info_dict (d : dict) :
  exists i, explicit_info (PyDict d) = Ret (PyDict i).
Proof.
  unfold explicit_info.
  destruct (copy_fields_dict ["name"; "description"; "author"; "last_modified"]
              d []) as [i ->].
  simpl. unfold copy_truthy. simpl. destruct (truthy _); simpl; eauto.
Qed.

(** Under schema 2.0, a package with a details URL that a client answers
    never gets its merged fields: the pass over it raises. *)
Lemma details_merge_raises (sv : spec_float) (rp : string) (d : dict)
    (details : pyval) :
  float_geb sv f2_0 = true ->
  dict_lookup (PyStr "details") d = Some details ->
  truthy details = true ->
  truthy (client_repo_info GitHub details) = true \/
  truthy (client_repo_info BitBucket details) = true ->
  exists ev e, process_package sv rp (PyDict d) = (ev, Raise e).
Proof.
  intros Hv Hl Hd Ha. unfold process_package, selected_info.
  destruct (explicit_info_dict d) as [i ->]. rewrite Hv.
  unfold build_releases. cbn [pure get_str]. rewrite Hl.
  destruct (enrich_repo_raises rp details (PyDict i) Hd Ha) as (ev & e & E).
  cbv beta iota delta [bind ret Monad_W wbind pure]. rewrite E. eauto.
Qed.

End Merge.

(** C1, on a repository: the package gives [author] as "Y" and a details URL
    for which the GitHub client returns, among others, [author] "X".  The
    call does not return a map in which [author] is "Y": it raises
    [TypeError] once both clients have been asked. *)
Theorem explicit_author_never_merged :
  @get_packages merge_world (init root_url PyNone) =
  (with_schema_version f2_0
     (with_repo_info
        (obj [("schema_version", PyStr "2.0");
              ("packages", PyList [merge_package])])
        (init root_url PyNone)),
   [Download root_url;
    RepoInfoLookup GitHub (PyStr "https://github.com/u/p");
    RepoInfoLookup BitBucket (PyStr "https://github.com/u/p")],
   Raise TypeError).
Proof. vm_compute. reflexivity. Qed.

End MergeFacts.

(** ** The loop over the releases *)

Module ReleaseFacts.

Import Py Trace PackageProvider Script Cases.

Section Releases.

Context {C : Collaborators}.

(** The pass for a release never looks at that release: fields and details
    come from [releases[0]]. *)
Lemma release_body_ignores_release (rp : string) (releases : pyval)
    (release release' : pyval) (st : pyval * pyval) :
  release_body rp releases release st = release_body rp releases release' st.
Proof. reflexivity. Qed.

(** Hence the loop depends on the list it walks only through its length. *)
Lemma release_loop_by_length (rp : string) (releases : pyval)
    (pending : list pyval) :
  forall (pending' : list pyval) (st : pyval * pyval),
    length pending = length pending' ->
    release_loop rp releases pending st = release_loop rp releases pending' st.
Proof.
  induction pending as [| r rest IH]; intros [| r' rest'] st E;
    try discriminate; [reflexivity |].
  injection E as E. cbn [release_loop bind Monad_W]. unfold wbind.
  rewrite (release_body_ignores_release rp releases r' r).
  destruct (release_body rp releases r st) as [ev [st' | e]]; [| reflexivity].
  now rewrite (IH rest' st' E).
Qed.

End Releases.

(** C2, on packages with two releases.  With explicit fields in both
    entries, the two descriptors handed to the selector both carry version
    "1.0" and the URL of the first entry; with a details URL in both
    entries, the clients are asked about the first entry's URL twice and
    never about the second's; and an entry without [details] makes the pass
    raise [KeyError] instead of falling back on the package. *)
Theorem every_release_read_from_first_entry :
  @selected_info releases_world f2_0 root_url two_releases_package =
    ([],
     Ret (Some (obj [("name", PyStr "P");
                     ("releases",
                      PyList [obj [("version", PyStr "1.0");
                                   ("url", PyStr "https://example.com/p-1.0.zip")];
                              obj [("version", PyStr "1.0");
                                   ("url", PyStr "https://example.com/p-1.0.zip")]])])))
  /\
  fst (@selected_info releases_world f2_0 root_url two_details_package) =
    [DownloadInfoLookup GitHub (PyStr "https://github.com/u/p/tree/a");
     DownloadInfoLookup BitBucket (PyStr "https://github.com/u/p/tree/a");
     Console (MsgInvalidReleaseDetails (PyStr "P") root_url);
     DownloadInfoLookup GitHub (PyStr "https://github.com/u/p/tree/a");
     DownloadInfoLookup BitBucket (PyStr "https://github.com/u/p/tree/a");
     Console (MsgInvalidReleaseDetails (PyStr "P") root_url)]
  /\
  @selected_info releases_world f2_0 root_url no_details_package =
    ([], Raise KeyError).
Proof. repeat split; vm_compute; reflexivity. Qed.

End ReleaseFacts.

(** ** Validation of the manifest *)

Module SchemaFacts.

Import Py Trace PackageProvider Script Cases CallFacts.

Section Schema.

Context {C : Collaborators}.

Ltac run_method :=
  cbv beta iota delta [bind ret Monad_M mbind get_self liftR liftW
                       set_repo_info set_schema_version console_write emit
                       fst snd].

(** A manifest without the key is rejected. *)
Lemma version_missing (self : t) (d : dict) :
  repo_info self = PyDict d ->
  dict_lookup (PyStr "schema_version") d = None ->
  validate_and_resolve self =
  (self, [Console (MsgSchemaMissing (repo self))], Ret (PyBool false)).
Proof.
  intros Hi Hl. unfold validate_and_resolve. run_method. rewrite Hi.
  cbn [contains_str]. unfold dict_mem. now rewrite Hl.
Qed.

(** A string that [float] does not read is rejected. *)
Lemma version_not_a_number (self : t) (d : dict) (s : string) :
  repo_info self = PyDict d ->
  dict_lookup (PyStr "schema_version") d = Some (PyStr s) ->
  float_of_str s = None ->
  validate_and_resolve self =
  (self, [Console (MsgSchemaNotNumber (repo self))], Ret (PyBool false)).
Proof.
  intros Hi Hl Hf. unfold validate_and_resolve. run_method. rewrite Hi.
  cbn [contains_str get_str]. unfold dict_mem. rewrite Hl.
  cbn [negb py_float]. now rewrite Hf.
Qed.

(** A number outside the four supported ones is rejected. *)
Lemma version_not_supported (self : t) (d : dict) (v : pyval) (f : spec_float) :
  repo_info self = PyDict d ->
  dict_lookup (PyStr "schema_version") d = Some v ->
  py_float v = Ret f ->
  float_in f supported_versions = false ->
  validate_and_resolve self =
  (with_schema_version f self, [Console (MsgSchemaUnknown (repo self))],
   Ret (PyBool false)).
Proof.
  intros Hi Hl Hf Hs. unfold validate_and_resolve. run_method. rewrite Hi.
  cbn [contains_str get_str]. unfold dict_mem. rewrite Hl.
  cbn [negb]. now rewrite Hf, Hs.
Qed.

(** A manifest without packages is rejected. *)
Lemma packages_missing (self : t) (d : dict) (v : pyval) (f : spec_float) :
  repo_info self = PyDict d ->
  dict_lookup (PyStr "schema_version") d = Some v ->
  py_float v = Ret f ->
  float_in f supported_versions = true ->
  dict_lookup (PyStr "packages") d = None ->
  validate_and_resolve self =
  (with_schema_version f self, [Console (MsgPackagesMissing (repo self))],
   Ret (PyBool false)).
Proof.
  intros Hi Hl Hf Hs Hp. unfold validate_and_resolve. run_method. rewrite Hi.
  cbn [contains_str get_str]. unfold dict_mem. rewrite Hl.
  cbn [negb]. rewrite Hf, Hs. cbn [negb]. now rewrite Hp.
Qed.

(** The conversion of line 130 raises [TypeError] on [None], lists and
    dictionaries, and line 131 catches [ValueError] only. *)
Lemma version_of_wrong_type (self : t) (d : dict) (v : pyval) :
  repo_info self = PyDict d ->
  dict_lookup (PyStr "schema_version") d = Some v ->
  py_float v = Raise TypeError ->
  validate_and_resolve self = (self, [], Raise TypeError).
Proof.
  intros Hi Hl Hf. unfold validate_and_resolve. run_method. rewrite Hi.
  cbn [contains_str get_str]. unfold dict_mem. rewrite Hl.
  cbn [negb]. now rewrite Hf.
Qed.



(** Without an [includes] key, [get_packages] on a fresh provider is the
    download of the manifest followed by validation. *)
Lemma get_packages_without_includes (self : t) (ev : list event) (d : dict) :
  is_None (repo_info self) = true ->
  fetch_url (repo self) = (ev, Ret (PyDict d)) ->
  dict_lookup (PyStr "includes") d = None ->
  get_packages self =
  let '(self', ev', r) :=
    validate_and_resolve (with_repo_info (PyDict d) self) in
  (self', ev ++ ev', r).
Proof.
  intros Hn Hf Hi. unfold get_packages, fetch_repo. run_method.
  rewrite Hn, Hf. cbn [negb fst snd app eq_False contains_str].
  unfold dict_mem. rewrite Hi. cbn [negb app with_repo_info repo_info eq_False].
  rewrite app_nil_r.
  destruct (validate_and_resolve _) as [[s e] r]. reflexivity.
Qed.

(** The four rejections, on a fresh provider whose manifest is an object
    without includes: the call returns [False]. *)
Lemma rejected_manifest_returns_False (self : t) (ev : list event) (d : dict) :
  is_None (repo_info self) = true ->
  fetch_url (repo self) = (ev, Ret (PyDict d)) ->
  dict_lookup (PyStr "includes") d = None ->
  dict_lookup (PyStr "schema_version") d = None \/
  (exists s, dict_lookup (PyStr "schema_version") d = Some (PyStr s) /\
             float_of_str s = None) \/
  (exists v f, dict_lookup (PyStr "schema_version") d = Some v /\
               py_float v = Ret f /\
               (float_in f supported_versions = false \/
                dict_lookup (PyStr "packages") d = None)) ->
  snd (get_packages self) = Ret (PyBool false).
Proof.
  intros Hn Hf Hi H. rewrite (get_packages_without_includes _ _ _ Hn Hf Hi).
  set (self1 := with_repo_info (PyDict d) self).
  assert (R : repo_info self1 = PyDict d) by reflexivity.
  destruct H as [H | [(s & H & Hs) | (v & f & H & Hv & [Hu | Hp])]].
  - now rewrite (version_missing _ _ R H).
  - now rewrite (version_not_a_number _ _ _ R H Hs).
  - now rewrite (version_not_supported _ _ _ _ R H Hv Hu).
  - destruct (float_in f supported_versions) eqn:Es.
    + now rewrite (packages_missing _ _ _ _ R H Hv Es Hp).
    + now rewrite (version_not_supported _ _ _ _ R H Hv Es).
Qed.

End Schema.

(** C3, on two manifests.  With [schema_version] set to [null], and with no
    [schema_version] but an (empty) [includes] list, [get_packages] does not
    return [False]: it raises [TypeError]. *)
Theorem invalid_manifests_raise :
  snd (@get_packages (plain_world null_version_docs) (init root_url PyNone))
    = Raise TypeError /\
  snd (@get_packages (plain_world no_version_includes_docs)
         (init root_url PyNone))
    = Raise TypeError.
Proof. split; vm_compute; reflexivity. Qed.

End SchemaFacts.

(** ** Includes *)

Module IncludeFacts.

Import Py Trace PackageProvider Script Cases CallFacts.

Section Includes.

Context {C : Collaborators}.

Ltac run_method :=
  cbv beta iota delta [bind ret Monad_M mbind get_self liftR liftW
                       set_repo_info set_schema_version console_write emit
                       fst snd].

(** A manifest with an [includes] key stops [fetch_repo] on line 72, and
    [get_packages] with it: after the manifest itself no document is
    requested. *)
Lemma includes_raise (self : t) (ev : list event) (info : pyval) :
  is_None (repo_info self) = true ->
  fetch_url (repo self) = (ev, Ret info) ->
  eq_False info = false ->
  contains_str "includes" info = Ret true ->
  exists e,
    fetch_repo self = (with_repo_info info self, ev, Raise e) /\
    get_packages self = (with_repo_info info self, ev, Raise e).
Proof.
  intros Hn Hf He Hc.
  assert (F : exists e,
             fetch_repo self = (with_repo_info info self, ev, Raise e)).
  { unfold fetch_repo. run_method. rewrite Hn, Hf. cbn [negb fst snd app].
    rewrite He, Hc. cbn [negb].
    destruct (urlparse (repo self)) as [pieces | e].
    - exists TypeError. cbn. now rewrite app_nil_r.
    - exists e. now rewrite app_nil_r. }
  destruct F as [e F]. exists e. split; [assumption |].
  unfold get_packages. run_method. now rewrite F.
Qed.



Lemma dict_lookup_set (k : string) (v : pyval) (d : dict) :
  dict_lookup (PyStr k) (dict_set (PyStr k) v d) = Some v.
Proof.
  induction d as [| [k' v'] d IH]; simpl.
  - now rewrite String.eqb_refl.
  - destruct (key_eqb k' (PyStr k)) eqn:E; simpl; now rewrite E.
Qed.

Lemma dict_set_twice (k : string) (v1 v2 : pyval) (d : dict) :
  dict_set (PyStr k) v2 (dict_set (PyStr k) v1 d) = dict_set (PyStr k) v2 d.
Proof.
  induction d as [| [k' v'] d IH]; simpl.
  - now rewrite String.eqb_refl.
  - destruct (key_eqb k' (PyStr k)) eqn:E; simpl; rewrite E; [reflexivity |].
    now rewrite IH.
Qed.

Lemma dict_set_same (k v : pyval) (d : dict) :
  dict_lookup k d = Some v -> dict_set k v d = d.
Proof.
  induction d as [| [k' v'] d IH]; simpl; [discriminate |].
  destruct (key_eqb k' k).
  - now intros [= ->].
  - intros H. now rewrite IH.
Qed.

(** The packages one include contributes: none when its fetch fails, the
    list under its [packages] key otherwise. *)
Definition packages_of_include (relative_base : string) (include : pyval)
  : option (list pyval) :=
  match resolve_include relative_base include with
  | Ret url =>
      match snd (fetch_url url) with
      | Ret v =>
          if eq_False v then Some []
          else match get_str v "packages" (PyList []) with
               | Ret (PyList l) => Some l
               | _ => None
               end
      | Raise _ => None
      end
  | Raise _ => None
  end.

Definition contribution (relative_base : string) (include : pyval) : list pyval :=
  match packages_of_include relative_base include with
  | Some l => l
  | None => []
  end.

(** Lines 80-87 taken alone: each include is fetched on its own, one whose
    fetch fails is passed over, and the packages of the others are appended
    to the manifest's own in the order of the list. *)
Lemma include_loop_appends (relative_base : string) (includes : list pyval) :
  forall (self : t) (d : dict) (own : list pyval),
    repo_info self = PyDict d ->
    dict_lookup (PyStr "packages") d = Some (PyList own) ->
    (forall i, In i includes -> packages_of_include relative_base i <> None) ->
    exists ev,
      include_loop relative_base includes self =
      (with_repo_info
         (PyDict (dict_set (PyStr "packages")
                    (PyList (own ++ flat_map (contribution relative_base) includes))
                    d))
         self,
       ev, Ret tt).
Proof.
  induction includes as [| include rest IH]; intros self d own Hi Hp Hall.
  - exists []. simpl. rewrite app_nil_r, (dict_set_same _ _ _ Hp), <- Hi.
    now rewrite with_repo_info_same.
  - assert (Hthis := Hall include (or_introl eq_refl)).
    assert (Hrest : forall i, In i rest -> packages_of_include relative_base i <> None)
      by (intros i Hin; apply Hall; now right).
    unfold contribution at 1. cbn [flat_map].
    unfold packages_of_include in Hthis |- *.
    cbn [include_loop]. run_method.
    destruct (resolve_include relative_base include) as [url | e]; [| congruence].
    destruct (fetch_url url) as [evf [v | e]]; cbn [fst snd] in *; [| congruence].
    destruct (eq_False v) eqn:Ef.
    + destruct (IH self d own Hi Hp Hrest) as [ev E]. exists (evf ++ ev).
      rewrite E. reflexivity.
    + destruct (get_str v "packages" (PyList [])) as [[| | | | | l |] | e];
        try congruence.
      rewrite Hi. cbn [getitem_str]. rewrite Hp.
      cbn [list_extend iterate result_bind setitem_str app].
      set (self1 := with_repo_info _ self).
      destruct (IH self1 (dict_set (PyStr "packages") (PyList (own ++ l)) d)
                  (own ++ l) eq_refl (dict_lookup_set _ _ _) Hrest) as [ev E].
      exists (evf ++ ev). rewrite E. rewrite dict_set_twice, <- app_assoc.
      reflexivity.
Qed.

End Includes.

(** C4, on the repository of the example: the manifest at
    [https://example.com/a/repo.json] includes [../b.json].  The call raises
    [TypeError] after the manifest has been downloaded and
    [https://example.com/b.json] is never requested; and lines 73-82, fed
    the three pieces of the manifest URL, name the include
    [https:/example.com/a../b.json]. *)
Theorem relative_include_not_resolved :
  (let '(_, ev, r) :=
     @get_packages (plain_world relative_include_docs)
       (init nested_root_url PyNone) in
   ev = [Download nested_root_url] /\ r = Raise TypeError) /\
  relative_base_of "https" "example.com" "/a/repo.json"
    = Ret "https://example.com/a" /\
  resolve_include "https://example.com/a" (PyStr "../b.json")
    = Ret "https:/example.com/a../b.json".
Proof. repeat split; vm_compute; reflexivity. Qed.

(** C8, on a repository whose manifest includes two absolute URLs, the first
    of which cannot be fetched: neither include is requested and the call
    raises [TypeError], so the packages of the second are not appended. *)
Theorem includes_never_fetched :
  let '(_, ev, r) :=
    @get_packages (plain_world two_includes_docs) (init root_url PyNone) in
  ev = [Download root_url] /\ r = Raise TypeError.
Proof. vm_compute. split; reflexivity. Qed.

End IncludeFacts.

(** ** The rewrite of legacy download URLs *)

Module RewriteFacts.

Import Py Trace Re PackageProvider Script Cases.
Import ReFacts Shapes.

Lemma find_split_sound (ok : list ascii -> list ascii -> bool) (s : list ascii) :
  forall prev p q,
    find_split ok prev s = Some (p, q) ->
    ok p q = true /\ p ++ q = rev prev ++ s.
Proof.
  induction s as [| x s IH]; intros prev p q; simpl.
  - destruct (ok (rev prev) []) eqn:E; [| discriminate].
    intros [= <- <-]. auto.
  - destruct (ok (rev prev) (x :: s)) eqn:E.
    + intros [= <- <-]. auto.
    + intros H. apply IH in H as [H1 H2]. split; [assumption |].
      rewrite H2. simpl. now rewrite <- app_assoc.
Qed.

Lemma find_split_none (ok : list ascii -> list ascii -> bool) (s : list ascii) :
  forall prev,
    find_split ok prev s = None ->
    forall a b, s = a ++ b -> ok (rev prev ++ a) b = false.
Proof.
  induction s as [| x s IH]; intros prev; simpl.
  - destruct (ok (rev prev) []) eqn:E; [discriminate |].
    intros _ a b H. symmetry in H. apply app_eq_nil in H as [-> ->].
    now rewrite app_nil_r.
  - destruct (ok (rev prev) (x :: s)) eqn:E; [discriminate |].
    intros H a b Hs. destruct a as [| y a]; simpl in Hs.
    + subst b. now rewrite app_nil_r.
    + injection Hs as <- ->. specialize (IH _ H a b eq_refl).
      simpl in IH. now rewrite <- app_assoc in IH.
Qed.

Lemma strip_prefix_app (a : list ascii) :
  forall s s', strip_prefix a s = Some s' <-> s = a ++ s'.
Proof.
  induction a as [| x a IH]; intros s s'; simpl.
  - split; [intros [= ->] | intros ->]; reflexivity.
  - destruct s as [| y s]; [split; discriminate |].
    destruct (Ascii.eqb_spec x y) as [-> | N].
    + rewrite IH. split; [intros -> | intros [= ->]]; reflexivity.
    + split; [discriminate | intros [= E _]; now symmetry in E].
Qed.

(** The words of group 1. *)
Definition group1_word (p : list ascii) : Prop :=
  exists (d1 d2 : ascii) (u r : list ascii),
    d1 <> newline /\ d2 <> newline /\
    u <> [] /\ no_slash u /\ r <> [] /\ no_slash r /\
    p = chars_of "https://nodeload" ++ [d1] ++ chars_of "github" ++ [d2]
        ++ chars_of "com/" ++ u ++ ["/"%char] ++ r ++ ["/"%char].

Lemma group1_words (p : list ascii) : lang zipball_group1 p <-> group1_word p.
Proof.
  unfold zipball_group1, group1_word. cbn [seq]. split.
  - intros (a1 & r1 & -> & H1 & H). apply lang_lit in H1 as ->.
    destruct H as (a2 & r2 & -> & (d1 & -> & Hd1) & H).
    destruct H as (a3 & r3 & -> & H3 & H). apply lang_lit in H3 as ->.
    destruct H as (a4 & r4 & -> & (d2 & -> & Hd2) & H).
    destruct H as (a5 & r5 & -> & H5 & H). apply lang_lit in H5 as ->.
    destruct H as (u & r6 & -> & Hu & H). apply lang_plus_notchr in Hu as [Hu1 Hu2].
    destruct H as (a7 & r7 & -> & -> & H).
    destruct H as (r & r8 & -> & Hr & ->). apply lang_plus_notchr in Hr as [Hr1 Hr2].
    exists d1, d2, u, r. repeat split; auto.
  - intros (d1 & d2 & u & r & Hd1 & Hd2 & Hu1 & Hu2 & Hr1 & Hr2 & ->).
    eexists _, _. split; [reflexivity |]. split; [now apply lang_lit |].
    eexists _, _. split; [reflexivity |]. split; [exists d1; auto |].
    eexists _, _. split; [reflexivity |]. split; [now apply lang_lit |].
    eexists _, _. split; [reflexivity |]. split; [exists d2; auto |].
    eexists _, _. split; [reflexivity |]. split; [now apply lang_lit |].
    eexists _, _. split; [reflexivity |]. split; [apply lang_plus_notchr; auto |].
    eexists _, _. split; [reflexivity |]. split; [reflexivity |].
    eexists _, _. split; [reflexivity |]. split; [apply lang_plus_notchr; auto |].
    reflexivity.
Qed.

Lemma first_slash_unique (u : list ascii) :
  forall u' a b,
    no_slash u -> no_slash u' ->
    u ++ "/"%char :: a = u' ++ "/"%char :: b -> u = u' /\ a = b.
Proof.
  induction u as [| x u IH]; intros [| y u'] a b Hu Hu' E; simpl in E.
  - injection E as ->. auto.
  - injection E as <- _. inversion Hu' as [| ? ? N _]. now elim N.
  - injection E as -> _. inversion Hu as [| ? ? N _]. now elim N.
  - injection E as -> E. inversion Hu; inversion Hu'; subst.
    destruct (IH u' a b) as [-> ->]; auto.
Qed.

(** A subject has at most one prefix that is a word of group 1. *)
Lemma group1_unique (p p' q q' : list ascii) :
  group1_word p -> group1_word p' -> p ++ q = p' ++ q' -> p = p'.
Proof.
  intros (d1 & d2 & u & r & _ & _ & _ & Hu & _ & Hr & ->)
         (e1 & e2 & u' & r' & _ & _ & _ & Hu' & _ & Hr' & ->) E.
  unfold chars_of in *. repeat rewrite <- app_assoc in E. simpl in E.
  injection E as -> -> E.
  apply first_slash_unique in E as [-> E]; auto.
  apply first_slash_unique in E as [-> E]; auto.
Qed.

(** The splits the rewrite accepts. *)
Lemma split_ok_words (p q : list ascii) :
  zipball_split_ok p q = true <->
  group1_word p /\
  exists w (nl : bool),
    no_newline w /\
    q = chars_of zipball_literal ++ "/"%char :: w ++ (if nl then [newline] else []).
Proof.
  unfold zipball_split_ok. rewrite andb_true_iff, matches_lang, group1_words.
  split.
  - intros [Hp H]. split; [assumption |].
    destruct (strip_prefix _ q) as [q' |] eqn:E; [| discriminate].
    apply strip_prefix_app in E as ->. apply matches_lang in H.
    destruct H as (g2 & tail & -> & (a & w & -> & -> & Hw) & Ht).
    apply lang_star_dot in Hw. apply lang_opt_chr in Ht as (nl & ->).
    exists w, nl. split; [assumption | reflexivity].
  - intros [Hp (w & nl & Hw & ->)]. split; [assumption |].
    destruct (strip_prefix _ _) as [q' |] eqn:E.
    + apply strip_prefix_app in E. apply app_inv_head in E as <-.
      apply matches_lang.
      exists ("/"%char :: w), (if nl then [newline] else []).
      split; [reflexivity |]. split.
      * exists ["/"%char], w. repeat split. now apply lang_star_dot.
      * apply lang_opt_chr. now exists nl.
    + assert (F : strip_prefix (list_ascii_of_string zipball_literal)
                    (chars_of zipball_literal ++ "/"%char :: w
                       ++ (if nl then [newline] else []))
                  = Some ("/"%char :: w ++ (if nl then [newline] else [])))
        by now apply strip_prefix_app.
      congruence.
Qed.

(** The rewrite on a subject that has an accepted split. *)
Lemma rewrite_zipball_split (p w : list ascii) (nl : bool) :
  group1_word p -> no_newline w ->
  rewrite_zipball
    (string_of_list_ascii
       (p ++ chars_of "zipball" ++ "/"%char :: w
          ++ (if nl then [newline] else [])))
  = string_of_list_ascii
      (p ++ chars_of "zip" ++ "/"%char :: w ++ (if nl then [newline] else [])).
Proof.
  intros Hp Hw. unfold rewrite_zipball.
  rewrite list_ascii_of_string_of_list_ascii.
  set (q := chars_of "zipball" ++ "/"%char :: w ++ (if nl then [newline] else [])).
  assert (Hok : zipball_split_ok p q = true)
    by (apply split_ok_words; split; [assumption | now exists w, nl]).
  destruct (find_split zipball_split_ok [] (p ++ q)) as [[p' q'] |] eqn:F.
  - apply find_split_sound in F as [Hok' E]. simpl in E.
    apply split_ok_words in Hok' as [Hp' _].
    assert (p' = p) by (eapply group1_unique; eauto). subst p'.
    apply app_inv_head in E as ->. reflexivity.
  - pose proof (find_split_none _ _ _ F p q eq_refl) as N. simpl in N. congruence.
Qed.

(** A subject the pattern of line 232 does not match is returned as it is. *)
Lemma rewrite_zipball_unmatched (url : string) :
  search_bol_eol zipball_re url = false -> rewrite_zipball url = url.
Proof.
  intros H. unfold rewrite_zipball.
  destruct (find_split _ _ _) as [[p q] |] eqn:F; [| reflexivity].
  apply find_split_sound in F as [Hok E]. simpl in E.
  apply split_ok_words in Hok as [Hp (w & nl & Hw & ->)].
  assert (M : search_bol_eol zipball_re url = true).
  { unfold search_bol_eol. rewrite <- E. apply matches_lang.
    exists (p ++ chars_of zipball_literal ++ "/"%char :: w),
           (if nl then [newline] else []).
    split; [repeat rewrite <- app_assoc; reflexivity |].
    split; [| apply lang_opt_chr; now exists nl].
    unfold zipball_re. cbn [seq].
    exists p, (chars_of zipball_literal ++ "/"%char :: w).
    split; [reflexivity |]. split; [now apply group1_words |].
    exists (chars_of zipball_literal), ("/"%char :: w).
    split; [reflexivity |]. split; [now apply lang_lit |].
    exists ["/"%char], w. repeat split. now apply lang_star_dot. }
  congruence.
Qed.

(** A URL of the shape the rule of the specification describes,
    [https://nodeload.github.com/U/R/zipball/W] with [U] and [R] non-empty
    and free of slashes and [W] free of newlines, has [zipball] replaced by
    [zip]. *)
Lemma rewrite_zipball_legacy (u r w : list ascii) :
  u <> [] -> no_slash u -> r <> [] -> no_slash r -> no_newline w ->
  rewrite_zipball
    (string_of_list_ascii
       (chars_of "https://nodeload.github.com/" ++ u ++ "/"%char :: r
          ++ chars_of "/zipball/" ++ w))
  = string_of_list_ascii
      (chars_of "https://nodeload.github.com/" ++ u ++ "/"%char :: r
         ++ chars_of "/zip/" ++ w).
Proof.
  intros Hu1 Hu2 Hr1 Hr2 Hw.
  assert (Hp : group1_word
                 (chars_of "https://nodeload.github.com/" ++ u
                    ++ ["/"%char] ++ r ++ ["/"%char])).
  { exists "."%char, "."%char, u, r. repeat split; auto; discriminate. }
  pose proof (rewrite_zipball_split _ w false Hp Hw) as H.
  rewrite app_nil_r in H.
  repeat rewrite <- app_assoc in H. simpl in H.
  repeat rewrite <- app_assoc. simpl. exact H.
Qed.

(** C9, on a download URL of the host [nodeload-github.com]: the pattern of
    the rule, with its escaped dots, does not match it, yet the URL stored in
    the output has [zipball] replaced by [zip]. *)
Theorem lookalike_host_rewritten :
  search_bol_eol SpecRule.legacy_url_re lookalike_url = false /\
  rewrite_zipball lookalike_url = "https://nodeload-github.com/u/r/zip/v1" /\
  snd (@get_packages (plain_world lookalike_docs) (init root_url PyNone)) =
    Ret (obj [("P",
               obj [("name", PyStr "P");
                    ("download",
                     obj [("url", PyStr "https://nodeload-github.com/u/r/zip/v1")]);
                    ("url", PyStr root_url)])]).
Proof. repeat split; vm_compute; reflexivity. Qed.

End RewriteFacts.

(** ** Closed runs for the loop and for repeated calls *)

Module Runs.

Import Py Trace PackageProvider Script Cases LoopFacts CallFacts.


Definition fresh_1_2 : t := with_schema_version f1_2 (init root_url PyNone).











(** C5 at work: "A" offers Windows only, the selector for Linux returns
    [False], and the name lands in the unavailable list. *)
Lemma unavailable_when_nothing_selected_witness :
  @package_loop (plain_world []) [a_windows_only] [] fresh_1_2 =
  (with_unavailable [PyStr "A"] fresh_1_2, [], Ret []).
Proof.
  rewrite (proj1 (@unavailable_when_nothing_selected (plain_world []))
             fresh_1_2 a_windows_only [] [] [] (PyBool false) (PyStr "A"));
    vm_compute; reflexivity.
Defined.

(** Against C5: with the name "A" listed twice, once for every platform and
    once for Windows only, "A" is in the unavailable list and is a key of the
    returned map. *)
Lemma listed_twice_in_both :
  let '(self, _, r) :=
    @get_packages (plain_world twice_docs) (init root_url PyNone) in
  In (PyStr "A") (get_unavailable_packages self) /\
  exists output, r = Ret (PyDict output) /\ dict_mem (PyStr "A") output = true.
Proof.
  vm_compute. split; [now left |]. eexists. split; reflexivity.
Qed.

(** C6 at work, on the repository whose only package is for Windows. *)
Lemma second_call_repeats_witness :
  exists (delta : list pyval) (ev2 : list event) (s2 : t),
    let s1 := fst (@twice (plain_world windows_only_docs) (init root_url PyNone)) in
    get_unavailable_packages s1 = [] ++ delta /\
    @get_packages (plain_world windows_only_docs) s1 = (s2, ev2, Ret (PyDict [])) /\
    get_unavailable_packages s2 = get_unavailable_packages s1 ++ delta /\
    @get_renamed_packages s2 = get_renamed_packages s1.
Proof.
  apply (@second_call_repeats (plain_world windows_only_docs)
           (init root_url PyNone) _ [Download root_url] (PyDict [])).
  vm_compute. reflexivity.
Defined.

(** Against C6: after the second of two calls on one provider the
    unavailable list is not the list left by the first. *)
Lemma unavailable_list_grows :
  let '(first, second) :=
    @twice (plain_world windows_only_docs) (init root_url PyNone) in
  get_unavailable_packages first = [PyStr "A"] /\
  get_unavailable_packages second = [PyStr "A"; PyStr "A"] /\
  get_unavailable_packages second <> get_unavailable_packages first.
Proof.
  vm_compute. repeat split. discriminate.
Qed.

End Runs.

(** * The rest of the two files *)

(** ** [github_user_provider.py], [get_packages] *)

Module GitHubUserPackages.

Import Py Trace.
Local Open Scope py_scope.

(** [GitHubClient(settings).user_info(repo)], which lives outside the two
    files: a function of the URL, like the other collaborators. *)
Class UserClient : Type := {
  client_user_info : string -> pyval
}.

(** ['https://github.com/' + v]: only a string can be appended to a string. *)
Definition github_url_of (v : pyval) : result pyval :=
  match v with
  | PyStr s => Ret (PyStr ("https://github.com/" ++ s)%string)
  | _ => Raise TypeError
  end.

Section Methods.

Context {C : Collaborators} {U : UserClient}.

(** Lines 47-56: the dictionary appended for one repository. *)
Definition package_of (repo_info : pyval) : result pyval :=
  user_repo <- getitem_str repo_info "user_repo" ;;
  location <- github_url_of user_repo ;;
  let download := client_download_info GitHub location in
  name <- getitem_str repo_info "name" ;;
  description <- getitem_str repo_info "description" ;;
  url <- getitem_str repo_info "url" ;;
  author <- getitem_str repo_info "author" ;;
  last_modified <- get_str download "date" PyNone ;;
  ret (PyDict [(PyStr "name", name);
               (PyStr "description", description);
               (PyStr "url", url);
               (PyStr "author", author);
               (PyStr "last_modified", last_modified);
               (PyStr "download", download)]).

(** Lines 45-56: the loop over [user_repos]. *)
Fixpoint packages_of (user_repos : list pyval) (output : list pyval)
  : result (list pyval) :=
  match user_repos with
  | [] => ret output
  | repo_info :: rest =>
      package <- package_of repo_info ;;
      packages_of rest (output ++ [package])
  end.

(** [get_packages], lines 36-58. *)
Definition get_packages (self : GitHubUserProvider.t) : result pyval :=
  let user_repos := client_user_info (GitHubUserProvider.repo self) in
  if eq_False user_repos then ret (PyBool false)
  else
    user_repos <- iterate user_repos ;;
    output <- packages_of user_repos [] ;;
    ret (PyList output).

End Methods.

End GitHubUserPackages.

(** ** The packages of a GitHub user *)

Module GitHubUserFacts.

Import Py Trace GitHubUserPackages.

(** What [get_packages] appends for the repository [r]. *)
Definition entry_of {C : Collaborators} (r p : pyval) : Prop :=
  exists (user_repo : string) (name description url author : pyval)
         (download : dict),
    getitem_str r "user_repo" = Ret (PyStr user_repo) /\
    getitem_str r "name" = Ret name /\
    getitem_str r "description" = Ret description /\
    getitem_str r "url" = Ret url /\
    getitem_str r "author" = Ret author /\
    client_download_info GitHub
      (PyStr ("https://github.com/" ++ user_repo)%string) = PyDict download /\
    p = PyDict [(PyStr "name", name);
                (PyStr "description", description);
                (PyStr "url", url);
                (PyStr "author", author);
                (PyStr "last_modified",
                 match dict_lookup (PyStr "date") download with
                 | Some d => d
                 | None => PyNone
                 end);
                (PyStr "download", PyDict download)].

Section Facts.

Context {C : Collaborators} {U : UserClient}.

Lemma package_of_entry (r p : pyval) : package_of r = Ret p -> entry_of r p.
Proof.
  unfold package_of. cbn [bind ret Monad_result].
  destruct (getitem_str r "user_repo") as [ur | e] eqn:E1; [| discriminate].
  cbn [result_bind].
  destruct ur as [| | | | s | |]; try discriminate. cbn [github_url_of result_bind].
  destruct (getitem_str r "name") as [name | e] eqn:E2; [| discriminate].
  destruct (getitem_str r "description") as [description | e] eqn:E3;
    [| discriminate].
  destruct (getitem_str r "url") as [url | e] eqn:E4; [| discriminate].
  destruct (getitem_str r "author") as [author | e] eqn:E5; [| discriminate].
  cbn [result_bind].
  destruct (client_download_info GitHub _) as [| | | | | | download] eqn:E6;
    try discriminate.
  cbn [get_str result_bind]. intros [= <-].
  exists s, name, description, url, author, download. repeat split; auto.
Qed.

Lemma packages_of_entries (repos : list pyval) :
  forall output output',
    packages_of repos output = Ret output' ->
    exists added, output' = output ++ added /\ Forall2 entry_of repos added.
Proof.
  induction repos as [| r rest IH]; intros output output'; simpl.
  - intros [= <-]. exists []. now rewrite app_nil_r.
  - destruct (package_of r) as [p | e] eqn:E; [| discriminate]. simpl.
    intros H. apply IH in H as (added & -> & F).
    exists (p :: added). rewrite <- app_assoc. split; [reflexivity |].
    constructor; [now apply package_of_entry | assumption].
Qed.

(** X20. [False] comes back exactly when the user lookup answered something equal
    to [False]; an account without repositories gives the empty list. *)
Theorem false_only_for_failed_lookup (self : GitHubUserProvider.t) :
  get_packages self = Ret (PyBool false) <->
  eq_False (client_user_info (GitHubUserProvider.repo self)) = true.
Proof.
  unfold get_packages. destruct (eq_False _) eqn:E.
  - split; reflexivity.
  - split; [| discriminate]. cbn [bind ret Monad_result].
    destruct (iterate _) as [repos | e]; [| discriminate]. cbn [result_bind].
    destruct (packages_of repos []) as [out | e]; discriminate.
Qed.

Lemma get_packages_entries (self : GitHubUserProvider.t) (v : pyval) :
  get_packages self = Ret v ->
  v <> PyBool false ->
  exists repos output,
    iterate (client_user_info (GitHubUserProvider.repo self)) = Ret repos /\
    v = PyList output /\
    Forall2 entry_of repos output.
Proof.
  unfold get_packages. destruct (eq_False _); [intros [= <-] N; now elim N |].
  cbn [bind ret Monad_result].
  destruct (iterate _) as [repos | e]; [| discriminate]. cbn [result_bind].
  destruct (packages_of repos []) as [out | e] eqn:E; [| discriminate].
  intros [= <-] _. apply packages_of_entries in E as (added & -> & F).
  exists repos, added. auto.
Qed.

(** X21. A call that returns a value other than [False] returns a list with
    one dictionary per repository, in the order of the lookup's answer; each
    carries the four fields of its repository, the download information of
    [https://github.com/] followed by the repository's [user_repo], and that
    download's date as [last_modified]. *)
Theorem one_entry_per_repository (self : GitHubUserProvider.t) (v : pyval) :
  get_packages self = Ret v ->
  v <> PyBool false ->
  exists repos output,
    iterate (client_user_info (GitHubUserProvider.repo self)) = Ret repos /\
    v = PyList output /\
    Forall2 entry_of repos output.
Proof. apply get_packages_entries. Qed.

Lemma packages_of_raises (repos : list pyval) :
  forall output,
    (exists r e, In r repos /\ package_of r = Raise e) ->
    exists e, packages_of repos output = Raise e.
Proof.
  induction repos as [| r rest IH]; intros output (r0 & e0 & Hin & Hr).
  - destruct Hin.
  - simpl. destruct (package_of r) as [p | e] eqn:E; simpl; [| eauto].
    destruct Hin as [-> | Hin]; [congruence |].
    apply IH. eauto.
Qed.

(** X23. When the download information of one repository is not a dictionary
    (the client's [False], say), no list is returned: the call raises. *)
Theorem failed_download_lookup_raises (self : GitHubUserProvider.t)
    (repos : list pyval) (r : pyval) (user_repo : string) :
  eq_False (client_user_info (GitHubUserProvider.repo self)) = false ->
  iterate (client_user_info (GitHubUserProvider.repo self)) = Ret repos ->
  In r repos ->
  getitem_str r "user_repo" = Ret (PyStr user_repo) ->
  (forall d, client_download_info GitHub
               (PyStr ("https://github.com/" ++ user_repo)%string) <> PyDict d) ->
  exists e, get_packages self = Raise e.
Proof.
  intros Hf Hi Hin Hu Hd. unfold get_packages. rewrite Hf, Hi.
  cbn [bind ret Monad_result result_bind].
  assert (R : exists e, package_of r = Raise e).
  { unfold package_of. rewrite Hu.
    cbn [bind ret Monad_result result_bind github_url_of].
    destruct (getitem_str r "name"); cbn [result_bind]; [| eauto].
    destruct (getitem_str r "description"); cbn [result_bind]; [| eauto].
    destruct (getitem_str r "url"); cbn [result_bind]; [| eauto].
    destruct (getitem_str r "author"); cbn [result_bind]; [| eauto].
    destruct (client_download_info GitHub _) as [| | | | | | d] eqn:E;
      cbn [get_str result_bind]; eauto.
    now elim (Hd d). }
  destruct R as [e0 R].
  destruct (packages_of_raises repos []) as [e ->]; [eauto |].
  exists e. reflexivity.
Qed.

(** X22. In every dictionary of a returned list, [last_modified] is the date of
    the download stored beside it, [None] when the download has no date. *)
Theorem last_modified_is_download_date (self : GitHubUserProvider.t)
    (output : list pyval) (p : pyval) :
  get_packages self = Ret (PyList output) ->
  In p output ->
  exists download,
    getitem_str p "download" = Ret (PyDict download) /\
    getitem_str p "last_modified" = get_str (PyDict download) "date" PyNone.
Proof.
  intros H Hin.
  destruct (get_packages_entries self _ H) as (repos & out & _ & E & F);
    [discriminate |].
  injection E as <-.
  assert (G : exists r, entry_of r p).
  { clear - F Hin. induction F as [| r q rs qs Hq _ IH]; [destruct Hin |].
    destruct Hin as [<- | Hin]; eauto. }
  destruct G as (r & ur & n & d & u & a & download & _ & _ & _ & _ & _ & _ & ->).
  exists download. split; reflexivity.
Qed.

End Facts.

End GitHubUserFacts.

(** ** A call of [get_packages], branch by branch *)

Module CallShape.

Import Py Trace PackageProvider LoopFacts CallFacts.

(** The documents requested in a list of events. *)
Definition downloads (ev : list event) : list string :=
  flat_map (fun e => match e with Download url => [url] | _ => [] end) ev.

(** An event that is not a question to a hosting client. *)
Definition no_lookup (e : event) : Prop :=
  match e with
  | RepoInfoLookup _ _ | DownloadInfoLookup _ _ => False
  | _ => True
  end.

Definition is_console (e : event) : Prop :=
  match e with Console _ => True | _ => False end.

Definition not_download (e : event) : Prop :=
  match e with Download _ => False | _ => True end.

(** Every event of an expression satisfies [P]. *)
Definition emits {A : Type} (P : event -> Prop) (w : W A) : Prop :=
  Forall P (fst w).

Section Shape.

Context {C : Collaborators}.

Ltac run_method :=
  cbv beta iota delta [bind ret Monad_M mbind get_self liftR liftW
                       set_repo_info set_schema_version console_write emit
                       fst snd].

Lemma fetch_repo_unfold (self : t) :
  fetch_repo self =
  if negb (is_None (repo_info self)) then (self, [], Ret PyNone)
  else
    match fetch_url (repo self) with
    | (ev, Raise e) => (self, ev, Raise e)
    | (ev, Ret info) =>
        let self1 := with_repo_info info self in
        if eq_False info then (self1, ev, Ret (PyBool false))
        else match contains_str "includes" info with
             | Raise e => (self1, ev, Raise e)
             | Ret false => (self1, ev, Ret PyNone)
             | Ret true =>
                 match urlparse (repo self) with
                 | Raise e => (self1, ev, Raise e)
                 | Ret _ => (self1, ev, Raise TypeError)
                 end
             end
    end.
Proof.
  unfold fetch_repo. run_method.
  destruct (negb (is_None (repo_info self))); [reflexivity |].
  destruct (fetch_url (repo self)) as [ev [info | e]]; [| reflexivity].
  cbn [app]. destruct (eq_False info); [now rewrite app_nil_r |].
  destruct (contains_str "includes" info) as [[|] | e]; cbn [negb app];
    rewrite ?app_nil_r; try reflexivity.
  destruct (urlparse (repo self)); cbn; now rewrite app_nil_r.
Qed.

Lemma get_packages_unfold (self : t) :
  get_packages self =
  match fetch_repo self with
  | (self1, ev, Raise e) => (self1, ev, Raise e)
  | (self1, ev, Ret _) =>
      if eq_False (repo_info self1) then (self1, ev, Ret (PyBool false))
      else let '(self2, ev', r) := validate_and_resolve self1 in
           (self2, ev ++ ev', r)
  end.
Proof.
  unfold get_packages. run_method.
  destruct (fetch_repo self) as [[self1 ev] [x | e]]; [| reflexivity].
  cbn [app]. destruct (eq_False (repo_info self1)); [now rewrite app_nil_r |].
  destruct (validate_and_resolve self1) as [[s e] r]. reflexivity.
Qed.

Lemma validate_unfold (self : t) :
  validate_and_resolve self =
  match contains_str "schema_version" (repo_info self) with
  | Raise e => (self, [], Raise e)
  | Ret false =>
      (self, [Console (MsgSchemaMissing (repo self))], Ret (PyBool false))
  | Ret true =>
      match get_str (repo_info self) "schema_version" PyNone with
      | Raise e => (self, [], Raise e)
      | Ret version =>
          match py_float version with
          | Raise ValueError =>
              (self, [Console (MsgSchemaNotNumber (repo self))],
               Ret (PyBool false))
          | Raise e => (self, [], Raise e)
          | Ret f =>
              let self1 := with_schema_version f self in
              if negb (float_in f supported_versions) then
                (self1, [Console (MsgSchemaUnknown (repo self))],
                 Ret (PyBool false))
              else
                match contains_str "packages" (repo_info self) with
                | Raise e => (self1, [], Raise e)
                | Ret false =>
                    (self1, [Console (MsgPackagesMissing (repo self))],
                     Ret (PyBool false))
                | Ret true =>
                    match getitem_str (repo_info self) "packages" with
                    | Raise e => (self1, [], Raise e)
                    | Ret packages =>
                        match iterate packages with
                        | Raise e => (self1, [], Raise e)
                        | Ret pending =>
                            let '(self2, ev, r) :=
                              package_loop pending [] self1 in
                            (self2, ev,
                             match r with
                             | Ret output => Ret (PyDict output)
                             | Raise e => Raise e
                             end)
                        end
                    end
                end
          end
      end
  end.
Proof.
  unfold validate_and_resolve. run_method.
  destruct (contains_str "schema_version" (repo_info self)) as [[|] | e];
    cbn [negb app]; try reflexivity.
  destruct (get_str (repo_info self) "schema_version" PyNone) as [version | e];
    cbn [app]; [| reflexivity].
  destruct (py_float version) as [f | []]; cbn [app]; try reflexivity.
  destruct (float_in f supported_versions); cbn [negb app]; [| reflexivity].
  destruct (contains_str "packages" (repo_info self)) as [[|] | e];
    cbn [negb app]; try reflexivity.
  destruct (getitem_str (repo_info self) "packages") as [packages | e];
    cbn [app]; [| reflexivity].
  destruct (iterate packages) as [pending | e]; cbn [app]; [| reflexivity].
  destruct (package_loop pending [] (with_schema_version f self))
    as [[self2 ev] [output | e]]; [now rewrite app_nil_r | reflexivity].
Qed.

Lemma emits_pure {A : Type} (P : event -> Prop) (r : result A) :
  emits P (pure r).
Proof. constructor. Qed.

Lemma emits_nil {A : Type} (P : event -> Prop) (r : result A) :
  emits P (([], r) : W A).
Proof. constructor. Qed.

Lemma emits_emit (P : event -> Prop) (e : event) : P e -> emits P (emit e).
Proof. intros H. constructor; [assumption | constructor]. Qed.

Lemma emits_bind {A B : Type} (P : event -> Prop) (c : W A) (k : A -> W B) :
  emits P c -> (forall a, emits P (k a)) -> emits P (wbind c k).
Proof.
  unfold emits, wbind. destruct c as [ev [a | e]]; simpl; intros Hc Hk; auto.
  specialize (Hk a). destruct (k a) as [ev' r]. simpl in *.
  apply Forall_app. auto.
Qed.

Lemma emits_weaken {A : Type} (P Q : event -> Prop) (w : W A) :
  (forall e, P e -> Q e) -> emits P w -> emits Q w.
Proof. intros H. apply Forall_impl. exact H. Qed.

Ltac emits_step :=
  match goal with
  | |- emits _ (wbind _ _) => apply emits_bind; [| intros ?]
  | |- emits _ (pure _) => apply emits_pure
  | |- emits _ ([], _) => apply emits_nil
  | |- emits _ (emit _) => apply emits_emit; exact I
  | |- emits _ (if ?b then _ else _) => destruct b
  | |- emits _ (match ?x with _ => _ end) => destruct x
  end.

Ltac emits_all :=
  cbv beta iota delta [bind ret Monad_W console_write]; repeat emits_step.

Lemma enrich_repo_no_download (rp : string) (details info : pyval) :
  emits not_download (enrich_repo rp details info).
Proof. unfold enrich_repo. emits_all. Qed.

Lemma release_body_no_download (rp : string) (releases release : pyval)
    (st : pyval * pyval) :
  emits not_download (release_body rp releases release st).
Proof. unfold release_body. destruct st. emits_all. Qed.

Lemma release_loop_no_download (rp : string) (releases : pyval)
    (pending : list pyval) :
  forall st, emits not_download (release_loop rp releases pending st).
Proof.
  induction pending as [| r rest IH]; intros st; cbn [release_loop].
  - emits_all.
  - cbv beta iota delta [bind Monad_W]. apply emits_bind.
    + apply release_body_no_download.
    + apply IH.
Qed.

Lemma build_releases_no_download (rp : string) (package info : pyval) :
  emits not_download (build_releases rp package info).
Proof.
  unfold build_releases. cbv beta iota delta [bind ret Monad_W].
  apply emits_bind; [apply emits_pure | intros details].
  apply emits_bind; [apply emits_pure | intros releases].
  apply emits_bind; [apply enrich_repo_no_download | intros [enriched |]];
    [| apply emits_nil].
  apply emits_bind; [apply emits_pure | intros info'].
  apply emits_bind; [apply emits_pure | intros pending].
  apply emits_bind; [apply release_loop_no_download | intros st].
  apply emits_nil.
Qed.

(** Lines 216-217 write nothing and ask nobody. *)
Lemma build_platforms_silent (P : event -> Prop) (package info : pyval) :
  emits P (build_platforms package info).
Proof. unfold build_platforms. emits_all. Qed.

Lemma finish_console (rp : string) (package info : pyval) :
  emits is_console (finish rp package info).
Proof. unfold finish. emits_all. Qed.

Lemma process_package_no_download (sv : spec_float) (rp : string)
    (package : pyval) :
  emits not_download (process_package sv rp package).
Proof.
  unfold process_package, selected_info.
  cbv beta iota delta [bind ret Monad_W].
  apply emits_bind.
  - apply emits_bind; [apply emits_pure | intros info].
    destruct (float_geb sv f2_0);
      [apply build_releases_no_download | apply build_platforms_silent].
  - intros [info |]; [| apply emits_nil].
    apply (emits_weaken is_console); [now intros [] | apply finish_console].
Qed.

(** Below schema 2.0 the pass over a package only ever writes to the
    console. *)
Lemma process_package_console (sv : spec_float) (rp : string)
    (package : pyval) :
  float_geb sv f2_0 = false ->
  emits is_console (process_package sv rp package).
Proof.
  intros Hv. unfold process_package, selected_info.
  cbv beta iota delta [bind ret Monad_W]. rewrite Hv.
  apply emits_bind.
  - apply emits_bind; [apply emits_pure | intros info].
    apply build_platforms_silent.
  - intros [info |]; [apply finish_console | apply emits_nil].
Qed.

(** The events of the loop are events of its passes. *)
Lemma package_loop_emits (P : event -> Prop) (packages : list pyval) :
  forall (output : dict) (self : t),
    (forall p, emits P (process_package (schema_version self) (repo self) p)) ->
    Forall P (snd (fst (package_loop packages output self))).
Proof.
  induction packages as [| package rest IH]; intros output self H.
  - constructor.
  - rewrite package_loop_cons. specialize (H package) as Hp. unfold emits in Hp.
    destruct (process_package (schema_version self) (repo self) package)
      as [ev [a | e]]; cbn [fst snd] in *; [| assumption].
    destruct a as [| name | name info].
    + specialize (IH output self H).
      destruct (package_loop rest output self) as [[s e'] r].
      apply Forall_app. auto.
    + specialize (IH output
                    (with_unavailable (unavailable_packages self ++ [name]) self)
                    H).
      destruct (package_loop rest output _) as [[s e'] r].
      apply Forall_app. auto.
    + destruct (dict_setitem output name info) as [output' | e];
        [| assumption].
      specialize (IH output' self H).
      destruct (package_loop rest output' self) as [[s e'] r].
      apply Forall_app. auto.
Qed.

(** The loop leaves the version it was started with. *)
Lemma package_loop_version (packages : list pyval) (output : dict) (self : t) :
  schema_version (fst (fst (package_loop packages output self)))
  = schema_version self.
Proof.
  destruct (package_loop_frame packages output (schema_version self) (repo self))
    as (delta & ev & r & H).
  now rewrite (H self eq_refl eq_refl).
Qed.



Lemma downloads_app (a b : list event) :
  downloads (a ++ b) = downloads a ++ downloads b.
Proof. unfold downloads. apply flat_map_app. Qed.

Lemma downloads_none (ev : list event) :
  Forall not_download ev -> downloads ev = [].
Proof.
  induction 1 as [| e ev He _ IH]; [reflexivity |].
  destruct e; simpl in *; [contradiction | assumption ..].
Qed.

Lemma fetch_url_events (url : string) :
  downloads (fst (fetch_url url)) = [url] /\
  Forall no_lookup (fst (fetch_url url)).
Proof.
  unfold fetch_url. cbv beta iota delta [bind ret Monad_W wbind emit console_write].
  destruct (download_url url) as [text |]; [| split; repeat constructor].
  destruct (json_loads text); split; repeat constructor.
Qed.

Lemma fetch_repo_events (self : t) :
  snd (fst (fetch_repo self)) =
  if is_None (repo_info self) then fst (fetch_url (repo self)) else [].
Proof.
  rewrite fetch_repo_unfold. destruct (is_None (repo_info self)); [| reflexivity].
  cbn [negb]. destruct (fetch_url (repo self)) as [ev [info | e]]; [| reflexivity].
  cbn [fst]. destruct (eq_False info); [reflexivity |].
  destruct (contains_str "includes" info) as [[|] | e]; try reflexivity.
  destruct (urlparse (repo self)); reflexivity.
Qed.

Lemma validate_events (P : event -> Prop) (self : t) :
  (forall m, P (Console m)) ->
  (forall f p, emits P (process_package f (repo self) p)) ->
  Forall P (snd (fst (validate_and_resolve self))).
Proof.
  intros Hc Hp. rewrite validate_unfold.
  destruct (contains_str "schema_version" (repo_info self)) as [[|] | e];
    try (repeat constructor; apply Hc).
  destruct (get_str (repo_info self) "schema_version" PyNone) as [version | e];
    [| constructor].
  destruct (py_float version) as [f | []]; try (repeat constructor; apply Hc).
  cbv zeta. destruct (float_in f supported_versions); cbn [negb];
    [| repeat constructor; apply Hc].
  destruct (contains_str "packages" (repo_info self)) as [[|] | e];
    try (repeat constructor; apply Hc).
  destruct (getitem_str (repo_info self) "packages") as [packages | e];
    [| constructor].
  destruct (iterate packages) as [pending | e]; [| constructor].
  pose proof (package_loop_emits P pending [] (with_schema_version f self)
                (fun p => Hp f p)) as H.
  destruct (package_loop pending [] (with_schema_version f self))
    as [[self2 ev] r]. exact H.
Qed.

(** X1. Whatever a call of [get_packages] ends with, the only document it
    requests is the repository's own manifest, once, and only when
    [self.repo_info] is still [None]: includes are never requested, and a
    provider that holds a manifest (or the [False] of a failed fetch) requests
    nothing. *)
Theorem only_the_manifest_is_downloaded (self : t) :
  downloads (snd (fst (get_packages self))) =
  if is_None (repo_info self) then [repo self] else [].
Proof.
  pose proof (fetch_repo_events self) as F.
  rewrite get_packages_unfold.
  destruct (fetch_repo self) as [[self1 ev] [x | e]] eqn:E; cbn [fst snd] in *.
  - assert (R : repo self1 = repo self).
    { apply fetch_repo_returns in E as [_ ->]. reflexivity. }
    assert (D : downloads ev = if is_None (repo_info self) then [repo self] else []).
    { rewrite F. destruct (is_None (repo_info self)); [| reflexivity].
      apply fetch_url_events. }
    destruct (eq_False (repo_info self1)); [exact D |].
    pose proof (validate_events not_download self1 (fun _ => I)
                  (fun f p => process_package_no_download f (repo self1) p)) as V.
    destruct (validate_and_resolve self1) as [[self2 ev'] r]. cbn [fst snd] in *.
    rewrite downloads_app, (downloads_none _ V), app_nil_r. exact D.
  - rewrite F. destruct (is_None (repo_info self)); [| reflexivity].
    apply fetch_url_events.
Qed.



Lemma package_loop_state (packages : list pyval) (output : dict) (self : t) :
  exists delta,
    fst (fst (package_loop packages output self)) =
    with_unavailable (unavailable_packages self ++ delta) self.
Proof.
  destruct (package_loop_frame packages output (schema_version self) (repo self))
    as (delta & ev & r & H).
  exists delta. now rewrite (H self eq_refl eq_refl).
Qed.

Lemma fetch_repo_state (self : t) :
  exists v, fst (fst (fetch_repo self)) = with_repo_info v self.
Proof.
  rewrite fetch_repo_unfold.
  destruct (is_None (repo_info self)); cbn [negb];
    [| exists (repo_info self); now rewrite with_repo_info_same].
  destruct (fetch_url (repo self)) as [ev [info | e]];
    [| exists (repo_info self); now rewrite with_repo_info_same].
  exists info. cbv zeta. destruct (eq_False info); [reflexivity |].
  destruct (contains_str "includes" info) as [[|] | e]; try reflexivity.
  destruct (urlparse (repo self)); reflexivity.
Qed.

(** X6. However a call of [get_packages] ends, it leaves [self.repo] and
    [self.settings] as they were and only ever appends to
    [self.unavailable_packages]: no name is removed or reordered. *)
Theorem get_packages_only_appends (self : t) :
  let after := fst (fst (get_packages self)) in
  repo after = repo self /\
  settings after = settings self /\
  exists delta,
    get_unavailable_packages after = get_unavailable_packages self ++ delta.
Proof.
  unfold get_unavailable_packages. cbv zeta. rewrite get_packages_unfold.
  destruct (fetch_repo_state self) as [v F].
  destruct (fetch_repo self) as [[self1 ev] [x | e]]; cbn [fst] in *; subst self1.
  - destruct (eq_False (repo_info (with_repo_info v self))).
    + repeat split. exists []. now rewrite app_nil_r.
    + destruct (validate_frame v (repo self)) as (assigned & delta & ev' & r & H).
      rewrite (H (with_repo_info v self) eq_refl eq_refl).
      destruct assigned; repeat split; exists delta; reflexivity.
  - repeat split. exists []. now rewrite app_nil_r.
Qed.

(** X5. [get_packages] returns [False] or a dictionary, and a dictionary only
    for a manifest whose version is one of the four supported ones and that
    has a [packages] key; the version is then the one left in
    [self.schema_version]. *)
Theorem map_only_for_supported_schema (self after : t) (ev : list event)
    (v : pyval) :
  get_packages self = (after, ev, Ret v) ->
  v = PyBool false \/
  exists output,
    v = PyDict output /\
    float_in (schema_version after) supported_versions = true /\
    contains_str "packages" (repo_info after) = Ret true.
Proof.
  rewrite get_packages_unfold.
  destruct (fetch_repo self) as [[self1 ev1] [x | e]]; [| discriminate].
  destruct (eq_False (repo_info self1)); [intros [= _ _ <-]; now left |].
  rewrite validate_unfold.
  destruct (contains_str "schema_version" (repo_info self1)) as [[|] | e];
    try discriminate; [| intros [= _ _ <-]; now left].
  destruct (get_str (repo_info self1) "schema_version" PyNone) as [version | e];
    [| discriminate].
  destruct (py_float version) as [f | []]; try discriminate;
    [| intros [= _ _ <-]; now left].
  cbv zeta. destruct (float_in f supported_versions) eqn:Es; cbn [negb];
    [| intros [= _ _ <-]; now left].
  destruct (contains_str "packages" (repo_info self1)) as [[|] | e] eqn:Ep;
    try discriminate; [| intros [= _ _ <-]; now left].
  destruct (getitem_str (repo_info self1) "packages") as [packages | e];
    [| discriminate].
  destruct (iterate packages) as [pending | e]; [| discriminate].
  destruct (package_loop_state pending [] (with_schema_version f self1))
    as [delta S].
  destruct (package_loop pending [] (with_schema_version f self1))
    as [[self2 ev2] [output | e]]; [| discriminate].
  cbn [fst] in S. intros [= <- _ <-]. right. exists output.
  rewrite S. auto.
Qed.

(** X7. When the version a call leaves in [self.schema_version] is below 2.0,
    the call has asked neither hosting client anything. *)
Theorem no_lookup_below_schema_2 (self after : t) (ev : list event)
    (r : result pyval) :
  get_packages self = (after, ev, r) ->
  float_geb (schema_version after) f2_0 = false ->
  Forall no_lookup ev.
Proof.
  pose proof (fetch_repo_events self) as F.
  assert (Fl : Forall no_lookup (snd (fst (fetch_repo self)))).
  { rewrite F. destruct (is_None (repo_info self)); [| constructor].
    apply fetch_url_events. }
  clear F. rewrite get_packages_unfold.
  destruct (fetch_repo self) as [[self1 ev1] [x | e]]; cbn [fst snd] in Fl;
    [| intros [= _ <- _] _; assumption].
  destruct (eq_False (repo_info self1)); [intros [= _ <- _] _; assumption |].
  rewrite validate_unfold.
  assert (Hc : forall m, Forall no_lookup (ev1 ++ [Console m]))
    by (intros m; apply Forall_app; split; [assumption | repeat constructor]).
  destruct (contains_str "schema_version" (repo_info self1)) as [[|] | e];
    [| intros [= _ <- _] _; apply Hc
     | intros [= _ <- _] _; now rewrite app_nil_r].
  destruct (get_str (repo_info self1) "schema_version" PyNone) as [version | e];
    [| intros [= _ <- _] _; now rewrite app_nil_r].
  destruct (py_float version) as [f | []];
    try (intros [= _ <- _] _; now rewrite app_nil_r);
    [| intros [= _ <- _] _; apply Hc].
  cbv zeta. destruct (float_in f supported_versions); cbn [negb];
    [| intros [= _ <- _] _; apply Hc].
  destruct (contains_str "packages" (repo_info self1)) as [[|] | e];
    [| intros [= _ <- _] _; apply Hc
     | intros [= _ <- _] _; now rewrite app_nil_r].
  destruct (getitem_str (repo_info self1) "packages") as [packages | e];
    [| intros [= _ <- _] _; now rewrite app_nil_r].
  destruct (iterate packages) as [pending | e];
    [| intros [= _ <- _] _; now rewrite app_nil_r].
  pose proof (package_loop_version pending [] (with_schema_version f self1)) as V.
  pose proof (package_loop_emits is_console pending []
                (with_schema_version f self1)) as L.
  destruct (package_loop pending [] (with_schema_version f self1))
    as [[self2 ev2] r2]. cbn [fst snd] in *.
  intros [= <- <- _] Hv. rewrite V in Hv. cbn in Hv.
  apply Forall_app. split; [assumption |].
  eapply Forall_impl; [| apply L; intros p; now apply process_package_console].
  now intros [].
Qed.



(** X2. A fetch that fails is remembered like one that succeeds.  When the
    manifest cannot be downloaded, or its text is not JSON, [get_packages]
    returns [False] and leaves [False] in [self.repo_info]; a second call then
    returns [False] at once, without any event: the download is not tried
    again. *)
Theorem failed_fetch_is_not_retried (self : t) :
  is_None (repo_info self) = true ->
  download_url (repo self) = None \/
  (exists text, download_url (repo self) = Some text /\ json_loads text = None) ->
  let failed := with_repo_info (PyBool false) self in
  (exists ev, get_packages self = (failed, ev, Ret (PyBool false))) /\
  get_packages failed = (failed, [], Ret (PyBool false)).
Proof.
  intros Hn Hd. cbv zeta. split.
  - rewrite get_packages_unfold, fetch_repo_unfold, Hn. cbn [negb].
    assert (F : exists ev, fetch_url (repo self) = (ev, Ret (PyBool false))).
    { unfold fetch_url.
      cbv beta iota delta [bind ret Monad_W wbind emit console_write].
      destruct Hd as [-> | (text & -> & ->)]; eauto. }
    destruct F as [ev ->]. cbn. eauto.
  - rewrite get_packages_known by reflexivity. reflexivity.
Qed.

(** X17. [get_renamed_packages] needs a manifest: on a provider that has fetched
    nothing yet, or whose fetch failed, it raises, [AttributeError] below
    version 2.0 (the state of a new provider) and [TypeError] from 2.0 on. *)
Theorem renamed_packages_need_a_manifest (self : t) :
  is_None (repo_info self) = true \/ eq_False (repo_info self) = true ->
  get_renamed_packages self =
  Raise (if float_ltb (schema_version self) f2_0 then AttributeError
         else TypeError).
Proof.
  unfold get_renamed_packages.
  intros [H | H]; destruct (repo_info self) as [| b | z | f | s | l | d];
    try discriminate; destruct (float_ltb (schema_version self) f2_0);
    reflexivity.
Qed.

End Shape.

End CallShape.

(** ** One pass over a package *)

Module PassFacts.

Import Py Trace PackageProvider LoopFacts MergeFacts.

Section Passes.

Context {C : Collaborators}.

Lemma package_loop_raises (packages : list pyval) :
  forall (output : dict) (self : t),
    (exists p e, In p packages /\ outcome self p = Raise e) ->
    exists e, snd (package_loop packages output self) = Raise e.
Proof.
  induction packages as [| package rest IH]; intros output self (p & e0 & Hin & Ho).
  - destruct Hin.
  - rewrite package_loop_cons. unfold outcome in *.
    destruct (process_package (schema_version self) (repo self) package)
      as [ev [a | e]] eqn:E; [| exists e; reflexivity].
    destruct Hin as [-> | Hin]; [rewrite E in Ho; discriminate |].
    destruct a as [| name | name info].
    + destruct (IH output self) as [e H]; [exists p, e0; auto |].
      destruct (package_loop rest output self) as [[s ev'] r]. eauto.
    + destruct (IH output
                  (with_unavailable (unavailable_packages self ++ [name]) self))
        as [e H]; [exists p, e0; auto |].
      destruct (package_loop rest output _) as [[s ev'] r]. eauto.
    + destruct (dict_setitem output name info) as [output' | e];
        [| exists e; reflexivity].
      destruct (IH output' self) as [e H]; [exists p, e0; auto |].
      destruct (package_loop rest output' self) as [[s ev'] r]. eauto.
Qed.

(** X8. There is no isolation between packages: when the list holds an entry
    that is not a JSON object, the loop over the packages raises and no map
    is returned, wherever the entry stands in the list. *)
Theorem non_object_entry_raises (packages : list pyval) (output : dict)
    (self : t) (p : pyval) :
  In p packages ->
  (forall d, p <> PyDict d) ->
  exists e, snd (package_loop packages output self) = Raise e.
Proof.
  intros Hin Hp. apply package_loop_raises. exists p, AttributeError.
  split; [assumption |].
  unfold outcome, process_package, selected_info, explicit_info.
  destruct p; try reflexivity. now elim (Hp d).
Qed.

(** X9. Under schema 2.0, a package with neither a details URL nor a [releases]
    key is not reported unavailable: the loop over its releases is a loop
    over [None], and the pass raises [TypeError]. *)
Theorem neither_details_nor_releases_raises (sv : spec_float) (rp : string)
    (d : dict) (details : pyval) :
  float_geb sv f2_0 = true ->
  get_str (PyDict d) "details" PyNone = Ret details ->
  truthy details = false ->
  get_str (PyDict d) "releases" PyNone = Ret PyNone ->
  process_package sv rp (PyDict d) = ([], Raise TypeError).
Proof.
  intros Hv Hd Ht Hr. unfold process_package, selected_info.
  destruct (explicit_info_dict d) as [i ->]. rewrite Hv.
  unfold build_releases, enrich_repo. rewrite Hd, Hr.
  cbv beta iota delta [bind ret Monad_W wbind pure]. rewrite Ht. reflexivity.
Qed.

Lemma unrecognised_details_pass (sv : spec_float) (rp : string)
    (d : dict) (details : pyval) :
  float_geb sv f2_0 = true ->
  get_str (PyDict d) "details" PyNone = Ret details ->
  truthy details = true ->
  truthy (client_repo_info GitHub details) = false ->
  truthy (client_repo_info BitBucket details) = false ->
  process_package sv rp (PyDict d) =
  ([RepoInfoLookup GitHub details; RepoInfoLookup BitBucket details;
    Console (MsgInvalidDetails rp)],
   Ret Continue).
Proof.
  intros Hv Hd Ht Hg Hb. unfold process_package, selected_info.
  destruct (explicit_info_dict d) as [i ->]. rewrite Hv.
  unfold build_releases, enrich_repo. rewrite Hd.
  cbv beta iota delta [bind ret Monad_W wbind pure]. rewrite Ht, Hg, Hb.
  reflexivity.
Qed.

(** X10. Under schema 2.0, a package whose details URL neither client
    recognises is passed over: both clients are asked, one line goes to the
    console, and the package is neither stored nor reported unavailable,
    whatever its [releases] are. *)
Theorem unrecognised_details_skipped (sv : spec_float) (rp : string)
    (d : dict) (details : pyval) :
  float_geb sv f2_0 = true ->
  get_str (PyDict d) "details" PyNone = Ret details ->
  truthy details = true ->
  truthy (client_repo_info GitHub details) = false ->
  truthy (client_repo_info BitBucket details) = false ->
  process_package sv rp (PyDict d) =
  ([RepoInfoLookup GitHub details; RepoInfoLookup BitBucket details;
    Console (MsgInvalidDetails rp)],
   Ret Continue).
Proof. apply unrecognised_details_pass. Qed.

(** X11. Under schema 2.0, a package that has a details URL is never stored in
    the map and never reported unavailable: its pass raises or passes it
    over. *)
Theorem details_never_resolved (sv : spec_float) (rp : string)
    (d : dict) (details : pyval) :
  float_geb sv f2_0 = true ->
  get_str (PyDict d) "details" PyNone = Ret details ->
  truthy details = true ->
  snd (process_package sv rp (PyDict d)) = Ret Continue \/
  exists e, snd (process_package sv rp (PyDict d)) = Raise e.
Proof.
  intros Hv Hd Ht.
  assert (Hl : dict_lookup (PyStr "details") d = Some details).
  { simpl in Hd. destruct (dict_lookup (PyStr "details") d).
    - now injection Hd as ->.
    - injection Hd as <-. discriminate. }
  destruct (truthy (client_repo_info GitHub details)) eqn:Hg.
  - right.
    destruct (details_merge_raises sv rp d details Hv Hl Ht (or_introl Hg))
      as (ev & e & ->).
    now exists e.
  - destruct (truthy (client_repo_info BitBucket details)) eqn:Hb.
    + right.
      destruct (details_merge_raises sv rp d details Hv Hl Ht (or_intror Hb))
        as (ev & e & ->).
      now exists e.
    + left. now rewrite (unrecognised_details_pass sv rp d details).
Qed.

End Passes.

End PassFacts.

(** ** What is stored in the map *)

Module StoreFacts.

Import Py Trace Re PackageProvider LoopFacts CallFacts CallShape RewriteFacts
       IncludeFacts.
Import ReFacts Shapes.

(** The shape of a value stored in the map: a dictionary with a name, a
    [url] and a [download] dictionary whose own [url] is a string that the
    rewrite of line 231 leaves as it is. *)
Definition resolved (v : pyval) : Prop :=
  exists (d dl : dict) (u : string),
    v = PyDict d /\
    dict_mem (PyStr "name") d = true /\
    dict_mem (PyStr "url") d = true /\
    dict_lookup (PyStr "download") d = Some (PyDict dl) /\
    dict_lookup (PyStr "url") dl = Some (PyStr u) /\
    rewrite_zipball u = u.

Lemma key_eqb_str (k0 : pyval) (k : string) :
  key_eqb k0 (PyStr k) = true -> k0 = PyStr k.
Proof.
  destruct k0 as [| b | z | f | s | l | d]; simpl; try discriminate.
  - destruct f; discriminate.
  - intros H. apply String.eqb_eq in H. now subst.
Qed.

Lemma dict_lookup_set_other (k k' : string) (v : pyval) (d : dict) :
  k <> k' ->
  dict_lookup (PyStr k') (dict_set (PyStr k) v d) = dict_lookup (PyStr k') d.
Proof.
  intros N. induction d as [| [k0 v0] d IH]; simpl.
  - destruct (String.eqb_spec k k'); [contradiction | reflexivity].
  - destruct (key_eqb k0 (PyStr k)) eqn:E; simpl.
    + apply key_eqb_str in E as ->. simpl.
      destruct (String.eqb_spec k k'); [contradiction | reflexivity].
    + destruct (key_eqb k0 (PyStr k')); [reflexivity | exact IH].
Qed.



Lemma rewrite_zipball_cases (url : string) :
  rewrite_zipball url = url \/
  exists p tail,
    group1_word p /\
    rewrite_zipball url =
    string_of_list_ascii (p ++ chars_of "zip" ++ "/"%char :: tail).
Proof.
  unfold rewrite_zipball.
  destruct (find_split zipball_split_ok [] (list_ascii_of_string url))
    as [[p q] |] eqn:F; [| now left].
  right. apply find_split_sound in F as [Hok E].
  apply split_ok_words in Hok as [Hp (w & nl & Hw & ->)].
  exists p, (w ++ (if nl then [newline] else [])). split; [assumption |].
  reflexivity.
Qed.

Lemma rewrite_zipball_rewritten (p tail : list ascii) :
  group1_word p ->
  rewrite_zipball (string_of_list_ascii (p ++ chars_of "zip" ++ "/"%char :: tail))
  = string_of_list_ascii (p ++ chars_of "zip" ++ "/"%char :: tail).
Proof.
  intros Hp. unfold rewrite_zipball. rewrite list_ascii_of_string_of_list_ascii.
  destruct (find_split zipball_split_ok []
              (p ++ chars_of "zip" ++ "/"%char :: tail))
    as [[p' q'] |] eqn:F; [| reflexivity].
  apply find_split_sound in F as [Hok E].
  apply split_ok_words in Hok as [Hp' (w' & nl' & Hw' & ->)].
  cbn [rev app] in E.
  assert (p' = p) by (eapply group1_unique; eauto). subst p'.
  apply app_inv_head in E. discriminate E.
Qed.

Lemma rewrite_zipball_twice (url : string) :
  rewrite_zipball (rewrite_zipball url) = rewrite_zipball url.
Proof.
  destruct (rewrite_zipball_cases url) as [H | (p & tail & Hp & H)].
  - now rewrite !H.
  - rewrite H. now apply rewrite_zipball_rewritten.
Qed.

(** X15. The rewrite of lines 231-233 is idempotent: a rewritten URL no
    longer matches the pattern, so rewriting twice is rewriting once. *)
Theorem rewrite_zipball_idempotent (url : string) :
  rewrite_zipball (rewrite_zipball url) = rewrite_zipball url.
Proof. apply rewrite_zipball_twice. Qed.



(** What line 235 stores, from the value the selector returned. *)
Lemma finish_store_inv (rp : string) (package info name stored : pyval)
    (ev : list event) :
  finish rp package info = (ev, Ret (Store name stored)) ->
  exists (d dl : dict) (u : string),
    info = PyDict d /\
    let d1 := if dict_mem (PyStr "url") d then d
              else dict_set (PyStr "url") (PyStr rp) d in
    dict_lookup (PyStr "download") d1 = Some (PyDict dl) /\
    dict_lookup (PyStr "url") dl = Some (PyStr u) /\
    stored =
      PyDict (dict_set (PyStr "download")
                (PyDict (dict_set (PyStr "url") (PyStr (rewrite_zipball u)) dl))
                d1) /\
    getitem_str stored "name" = Ret name.
Proof.
  unfold finish. destruct (truthy info); cbn [negb].
  2:{ cbv beta iota delta [bind ret Monad_W wbind pure].
      destruct (getitem_str package "name"); discriminate. }
  cbv beta iota delta [bind ret Monad_W wbind pure console_write emit].
  destruct (contains_str "download" info) as [[|] | e] eqn:Ed; cbn [negb];
    [| destruct (getitem_str info "name"); discriminate | discriminate].
  destruct (contains_str "url" info) as [has_url | e] eqn:Eu; [| discriminate].
  destruct info as [| | | | s | l | d];
    try (destruct has_url; discriminate).
  simpl in Eu. injection Eu as <-.
  destruct (dict_mem (PyStr "url") d) eqn:Em;
    cbn [negb setitem_str app getitem_str];
    match goal with
    | |- context [dict_lookup (PyStr "download") ?x] =>
        destruct (dict_lookup (PyStr "download") x) as [dlv |] eqn:El
    end; try discriminate;
    cbn [app]; destruct dlv as [| | | | | | dl]; try discriminate;
    cbn [getitem_str];
    (destruct (dict_lookup (PyStr "url") dl) as [uv |] eqn:Eul;
     [| discriminate]);
    cbn [app]; destruct uv as [| | | | u | |]; try discriminate;
    cbn [re_sub_zipball app setitem_str getitem_str];
    match goal with
    | |- context [dict_lookup (PyStr "name") ?x] =>
        destruct (dict_lookup (PyStr "name") x) as [n |] eqn:En
    end; try discriminate;
    intros [= _ <- <-];
    exists d, dl, u; cbv zeta; rewrite Em;
    (split; [reflexivity |]); (split; [exact El |]); (split; [exact Eul |]);
    (split; [reflexivity |]); cbn [getitem_str]; now rewrite En.
Qed.



Lemma float_eqb_refl (f : spec_float) : f <> S754_nan -> float_eqb f f = true.
Proof.
  unfold float_eqb, SFeqb, SFcompare. destruct f as [s | s | | s m e]; intros N.
  - reflexivity.
  - now destruct s.
  - now elim N.
  - destruct s; rewrite Z.compare_refl, ?Pos.compare_refl; reflexivity.
Qed.

(** A key that can be stored is equal to itself. *)
Lemma key_eqb_refl (k : pyval) : hashable k = true -> key_eqb k k = true.
Proof.
  destruct k as [| b | z | f | s | l | d]; simpl; try discriminate; intros _.
  - reflexivity.
  - destruct b; reflexivity.
  - apply Z.eqb_refl.
  - destruct f as [s | s | | s m e]; try reflexivity.
    + now destruct s.
    + apply (float_eqb_refl (S754_finite s m e)). discriminate.
  - apply String.eqb_refl.
Qed.

Section Stored.

Context {C : Collaborators}.

Lemma finish_resolved (rp : string) (package info name stored : pyval)
    (ev : list event) :
  finish rp package info = (ev, Ret (Store name stored)) ->
  resolved stored /\ getitem_str stored "name" = Ret name.
Proof.
  intros H. apply finish_store_inv in H
    as (d & dl & u & -> & Hd & Hu & -> & Hn).
  split; [| assumption].
  eexists _, _, (rewrite_zipball u). split; [reflexivity |].
  repeat split.
  - simpl in Hn. unfold dict_mem.
    destruct (dict_lookup (PyStr "name") _); [reflexivity | discriminate].
  - destruct (dict_mem (PyStr "url") d) eqn:Em; unfold dict_mem in *;
      rewrite dict_lookup_set_other by discriminate.
    + exact Em.
    + now rewrite dict_lookup_set.
  - apply dict_lookup_set.
  - apply dict_lookup_set.
  - apply rewrite_zipball_twice.
Qed.

Lemma process_package_store (sv : spec_float) (rp : string)
    (package name stored : pyval) (ev : list event) :
  process_package sv rp package = (ev, Ret (Store name stored)) ->
  exists info ev', finish rp package info = (ev', Ret (Store name stored)).
Proof.
  unfold process_package. cbv beta iota delta [bind ret Monad_W wbind].
  destruct (selected_info sv rp package) as [ev0 [[info |] | e]];
    try discriminate.
  destruct (finish rp package info) as [ev' r] eqn:F.
  intros [= _ ->]. eauto.
Qed.

(** A value in the map: it has the shape of a resolved package and stands
    under its own name. *)
Definition entry_ok (kv : pyval * pyval) : Prop :=
  resolved (snd kv) /\
  exists name, getitem_str (snd kv) "name" = Ret name /\
               key_eqb (fst kv) name = true.

Lemma dict_set_entries (name stored : pyval) (d : dict) :
  key_eqb name name = true ->
  entry_ok (name, stored) ->
  Forall entry_ok d ->
  (forall k, key_eqb k name = true -> entry_ok (k, stored)) ->
  Forall entry_ok (dict_set name stored d).
Proof.
  intros Hr Hn Hd Hk. induction Hd as [| [k v] d Hkv Hd IH]; simpl.
  - constructor; [assumption | constructor].
  - destruct (key_eqb k name) eqn:E.
    + constructor; [now apply Hk | assumption].
    + constructor; assumption.
Qed.

Lemma package_loop_entries (packages : list pyval) :
  forall (output : dict) (self after : t) (ev : list event) (output' : dict),
    package_loop packages output self = (after, ev, Ret output') ->
    Forall entry_ok output ->
    Forall entry_ok output'.
Proof.
  induction packages as [| package rest IH];
    intros output self after ev output' H Ho.
  - injection H as _ _ <-. assumption.
  - rewrite package_loop_cons in H.
    destruct (process_package (schema_version self) (repo self) package)
      as [evp [a | e]] eqn:E; [| discriminate].
    destruct a as [| name | name stored].
    + destruct (package_loop rest output self) as [[s e'] r] eqn:L.
      injection H as _ _ ->. eapply IH; eauto.
    + destruct (package_loop rest output _) as [[s e'] r] eqn:L.
      injection H as _ _ ->. eapply IH; eauto.
    + unfold dict_setitem in H. destruct (hashable name) eqn:Hh; [| discriminate].
      destruct (package_loop rest _ self) as [[s e'] r] eqn:L.
      injection H as _ _ ->.
      apply process_package_store in E as (info & ev' & F).
      apply finish_resolved in F as [Hres Hname].
      eapply IH; [exact L |].
      apply dict_set_entries.
      * now apply key_eqb_refl.
      * split; [assumption |]. exists name. split; [assumption |].
        now apply key_eqb_refl.
      * assumption.
      * intros k Hk. split; [assumption |]. exists name. auto.
Qed.

(** X12. Every entry of a map that [get_packages] returns is a dictionary with a
    [name], a [url] and a [download] dictionary; the download's own [url] is
    a string on which the rewrite of line 231 has nothing left to do; and
    the entry stands in the map under its own name. *)
Theorem returned_entries_are_resolved (self after : t) (ev : list event)
    (output : dict) :
  get_packages self = (after, ev, Ret (PyDict output)) ->
  Forall entry_ok output.
Proof.
  rewrite get_packages_unfold.
  destruct (fetch_repo self) as [[self1 ev1] [x | e]]; [| discriminate].
  destruct (eq_False (repo_info self1)); [discriminate |].
  rewrite validate_unfold.
  destruct (contains_str "schema_version" (repo_info self1)) as [[|] | e];
    try discriminate.
  destruct (get_str (repo_info self1) "schema_version" PyNone) as [version | e];
    [| discriminate].
  destruct (py_float version) as [f | []]; try discriminate.
  cbv zeta. destruct (float_in f supported_versions); cbn [negb];
    [| discriminate].
  destruct (contains_str "packages" (repo_info self1)) as [[|] | e];
    try discriminate.
  destruct (getitem_str (repo_info self1) "packages") as [packages | e];
    [| discriminate].
  destruct (iterate packages) as [pending | e]; [| discriminate].
  destruct (package_loop pending [] (with_schema_version f self1))
    as [[self2 ev2] [out | e]] eqn:L; [| discriminate].
  intros [= _ _ <-]. eapply package_loop_entries; [exact L | constructor].
Qed.

(** X13. The [url] of a stored package is the one the selector's result carried,
    and the repository's own URL when it carried none. *)
Theorem stored_url_defaults_to_repo (rp : string) (package name stored : pyval)
    (d : dict) (ev : list event) :
  finish rp package (PyDict d) = (ev, Ret (Store name stored)) ->
  getitem_str stored "url" =
  Ret (match dict_lookup (PyStr "url") d with
       | Some url => url
       | None => PyStr rp
       end).
Proof.
  intros H. apply finish_store_inv in H
    as (d' & dl & u & [= <-] & Hd & Hu & -> & Hn).
  cbn [getitem_str]. rewrite dict_lookup_set_other by discriminate.
  unfold dict_mem. destruct (dict_lookup (PyStr "url") d) as [url |] eqn:E.
  - now rewrite E.
  - now rewrite dict_lookup_set.
Qed.

End Stored.

End StoreFacts.

(** ** Renamed packages *)

Module RenamedFacts.

Import Py Trace PackageProvider StoreFacts.

(** The previous names a package declares: the elements of a list, or the
    one value that stands in its place. *)
Definition declared (previous_names : pyval) : list pyval :=
  match previous_names with
  | PyList l => l
  | v => [v]
  end.

Lemma dict_lookup_set_refl (k v : pyval) (d : dict) :
  key_eqb k k = true -> dict_lookup k (dict_set k v d) = Some v.
Proof.
  intros Hr. induction d as [| [k' v'] d IH]; simpl.
  - now rewrite Hr.
  - destruct (key_eqb k' k) eqn:E; simpl; now rewrite E.
Qed.

Lemma dict_lookup_set_keep (o k v : pyval) (d : dict) :
  dict_lookup o d = Some v -> dict_lookup o (dict_set k v d) = Some v.
Proof.
  induction d as [| [k' v'] d IH]; simpl; [discriminate |].
  destruct (key_eqb k' k); simpl; destruct (key_eqb k' o); auto.
Qed.

Lemma dict_lookup_set_inv (o k v x : pyval) (d : dict) :
  dict_lookup o (dict_set k v d) = Some x ->
  x = v \/ dict_lookup o d = Some x.
Proof.
  induction d as [| [k' v'] d IH]; simpl.
  - destruct (key_eqb k o); [intros [= <-]; now left | discriminate].
  - destruct (key_eqb k' k); simpl; destruct (key_eqb k' o); auto.
    intros [= <-]. now left.
Qed.

Lemma rename_each_sets (names : list pyval) (name : pyval) :
  forall output output',
    rename_each names name output = Ret output' ->
    (forall o, In o names -> dict_lookup o output' = Some name) /\
    (forall o, dict_lookup o output = Some name ->
               dict_lookup o output' = Some name) /\
    (forall o x, dict_lookup o output' = Some x ->
                 x = name \/ dict_lookup o output = Some x).
Proof.
  induction names as [| n rest IH]; intros output output'; simpl.
  - intros [= <-]. repeat split; auto. intros o [].
  - unfold dict_setitem. destruct (hashable n) eqn:Hh; [| discriminate]. simpl.
    intros H. apply IH in H as (Hin & Hkeep & Hinv). repeat split.
    + intros o [<- | Ho]; [| auto].
      apply Hkeep. apply dict_lookup_set_refl. now apply key_eqb_refl.
    + intros o Ho. apply Hkeep. now apply dict_lookup_set_keep.
    + intros o x Hx. destruct (Hinv o x Hx) as [? | Hx']; [now left |].
      now apply dict_lookup_set_inv in Hx'.
Qed.

Lemma renamed_loop_app (a b : list pyval) :
  forall output,
    renamed_loop (a ++ b) output =
    match renamed_loop a output with
    | Ret output' => renamed_loop b output'
    | Raise e => Raise e
    end.
Proof.
  induction a as [| p a IH]; intros output; [reflexivity |].
  cbn [app renamed_loop]. cbn [bind ret Monad_result].
  destruct (contains_str "previous_names" p) as [[|] | e]; cbn [result_bind negb];
    try reflexivity; [| apply IH].
  destruct (getitem_str p "previous_names") as [names | e]; cbn [result_bind];
    [| reflexivity].
  destruct (iterate _) as [l | e]; cbn [result_bind]; [| reflexivity].
  destruct l as [| n l]; cbn [result_bind]; [apply IH |].
  destruct (getitem_str p "name") as [name | e]; cbn [result_bind];
    [| reflexivity].
  destruct (rename_each (n :: l) name output) as [o | e]; cbn [result_bind];
    [apply IH | reflexivity].
Qed.



Lemma iterate_declared (names : pyval) :
  iterate (if negb (is_list names) then PyList [names] else names)
  = Ret (declared names).
Proof. destruct names; reflexivity. Qed.

(** One pass of the loop of lines 246-255 over a package that declares
    previous names. *)
Lemma renamed_loop_declaring (d : dict) (rest : list pyval) (names : pyval)
    (output : dict) :
  dict_lookup (PyStr "previous_names") d = Some names ->
  renamed_loop (PyDict d :: rest) output =
  match declared names with
  | [] => renamed_loop rest output
  | _ =>
      match getitem_str (PyDict d) "name" with
      | Ret name =>
          match rename_each (declared names) name output with
          | Ret output' => renamed_loop rest output'
          | Raise e => Raise e
          end
      | Raise e => Raise e
      end
  end.
Proof.
  intros Hp. cbn [renamed_loop contains_str getitem_str bind ret Monad_result].
  unfold dict_mem. rewrite Hp. cbn [result_bind negb].
  rewrite iterate_declared. cbn [result_bind].
  destruct (declared names) as [| n l]; [reflexivity |].
  destruct (dict_lookup (PyStr "name") d); cbn [result_bind]; [| reflexivity].
  destruct (rename_each (n :: l) p output); reflexivity.
Qed.

(** X18. From schema 2.0 on, every previous name declared by the last package of
    the manifest, as a list or as a single value, is mapped to that
    package's name in the map [get_renamed_packages] returns. *)
Theorem previous_names_of_last_package (self : t) (before : list pyval)
    (d : dict) (names name : pyval) (output : dict) :
  float_ltb (schema_version self) f2_0 = false ->
  getitem_str (repo_info self) "packages" = Ret (PyList (before ++ [PyDict d])) ->
  dict_lookup (PyStr "previous_names") d = Some names ->
  dict_lookup (PyStr "name") d = Some name ->
  get_renamed_packages self = Ret (PyDict output) ->
  forall o, In o (declared names) -> dict_lookup o output = Some name.
Proof.
  intros Hv Hp Hn Hname. unfold get_renamed_packages. rewrite Hv, Hp.
  cbn [bind ret Monad_result iterate result_bind].
  rewrite renamed_loop_app.
  destruct (renamed_loop before []) as [o1 | e]; [| discriminate].
  rewrite (renamed_loop_declaring d [] names o1 Hn).
  cbn [getitem_str]. rewrite Hname.
  destruct (declared names) as [| n l] eqn:El; [intros _ o [] |].
  destruct (rename_each (n :: l) name o1) as [o2 | e] eqn:Er; [| discriminate].
  cbn [renamed_loop ret Monad_result result_bind]. intros [= <-] o Ho.
  destruct (rename_each_sets _ _ _ _ Er) as (Hin & _ & _). now apply Hin.
Qed.

Lemma renamed_loop_inv (packages : list pyval) :
  forall output output',
    renamed_loop packages output = Ret output' ->
    forall o x,
      dict_lookup o output' = Some x ->
      dict_lookup o output = Some x \/
      exists p, In p packages /\ getitem_str p "name" = Ret x /\
                contains_str "previous_names" p = Ret true.
Proof.
  induction packages as [| p rest IH]; intros output output'.
  - intros [= <-]. auto.
  - cbn [renamed_loop bind ret Monad_result].
    destruct (contains_str "previous_names" p) as [[|] | e] eqn:Ec;
      cbn [result_bind negb]; [| | discriminate].
    + destruct (getitem_str p "previous_names") as [names | e];
        cbn [result_bind]; [| discriminate].
      destruct (iterate _) as [l | e]; cbn [result_bind]; [| discriminate].
      destruct l as [| n l]; cbn [result_bind].
      * intros H o x Hx. destruct (IH _ _ H o x Hx) as [? | (q & ? & ?)]; auto.
        right. exists q. simpl. tauto.
      * destruct (getitem_str p "name") as [name | e] eqn:En;
          cbn [result_bind]; [| discriminate].
        destruct (rename_each (n :: l) name output) as [o1 | e] eqn:Er;
          cbn [result_bind]; [| discriminate].
        intros H o x Hx. destruct (IH _ _ H o x Hx) as [Hx' | (q & ? & ?)].
        -- destruct (rename_each_sets _ _ _ _ Er) as (_ & _ & Hinv).
           destruct (Hinv o x Hx') as [-> | ?]; auto.
           right. exists p. simpl. auto.
        -- right. exists q. simpl. tauto.
    + intros H o x Hx. destruct (IH _ _ H o x Hx) as [? | (q & ? & ?)]; auto.
      right. exists q. simpl. tauto.
Qed.

(** X19. From schema 2.0 on, the map [get_renamed_packages] returns only ever
    leads to names of packages of the manifest that declare previous
    names. *)
Theorem renamed_targets_are_package_names (self : t) (output : dict)
    (o x : pyval) :
  float_ltb (schema_version self) f2_0 = false ->
  get_renamed_packages self = Ret (PyDict output) ->
  dict_lookup o output = Some x ->
  exists packages pending p,
    getitem_str (repo_info self) "packages" = Ret packages /\
    iterate packages = Ret pending /\
    In p pending /\
    getitem_str p "name" = Ret x /\
    contains_str "previous_names" p = Ret true.
Proof.
  intros Hv. unfold get_renamed_packages. rewrite Hv.
  cbn [bind ret Monad_result].
  destruct (getitem_str (repo_info self) "packages") as [packages | e] eqn:Ep;
    cbn [result_bind]; [| discriminate].
  destruct (iterate packages) as [pending | e] eqn:Ei; cbn [result_bind];
    [| discriminate].
  destruct (renamed_loop pending []) as [out | e] eqn:E; cbn [result_bind];
    [| discriminate].
  intros [= <-] Hx.
  destruct (renamed_loop_inv _ _ _ E o x Hx) as [F | (p & Hin & Hn & Hc)];
    [discriminate |].
  exists packages, pending, p. repeat split; assumption.
Qed.

(** Below schema 2.0 the packages are not looked at: the answer is the
    manifest's [renamed_packages], and the empty dictionary when it has
    none, whatever previous names its packages declare. *)
Lemma renamed_below_schema_2 (self : t) (d : dict) :
  float_ltb (schema_version self) f2_0 = true ->
  repo_info self = PyDict d ->
  get_renamed_packages self =
  Ret (match dict_lookup (PyStr "renamed_packages") d with
       | Some renamed => renamed
       | None => PyDict []
       end).
Proof.
  intros Hv Hi. unfold get_renamed_packages. now rewrite Hv, Hi.
Qed.

End RenamedFacts.

(** ** Packages listed more than once *)

Module OrderFacts.

Import Py Trace PackageProvider LoopFacts CallFacts CallShape StoreFacts
       RenamedFacts.

Section Order.

Context {C : Collaborators}.

Lemma package_loop_app (a b : list pyval) :
  forall (output : dict) (self : t),
    package_loop (a ++ b) output self =
    match package_loop a output self with
    | (self1, ev1, Ret output1) =>
        let '(self2, ev2, r) := package_loop b output1 self1 in
        (self2, ev1 ++ ev2, r)
    | (self1, ev1, Raise e) => (self1, ev1, Raise e)
    end.
Proof.
  induction a as [| p a IH]; intros output self.
  - cbn [app package_loop ret Monad_M].
    destruct (package_loop b output self) as [[s e] r]. reflexivity.
  - cbn [app]. rewrite !package_loop_cons.
    destruct (process_package (schema_version self) (repo self) p)
      as [evp [act | e]]; [| reflexivity].
    destruct act as [| name | name info].
    + rewrite IH. destruct (package_loop a output self) as [[s1 e1] [o1 | e]];
        [| reflexivity].
      destruct (package_loop b o1 s1) as [[s2 e2] r]. now rewrite app_assoc.
    + rewrite IH. destruct (package_loop a output _) as [[s1 e1] [o1 | e]];
        [| reflexivity].
      destruct (package_loop b o1 s1) as [[s2 e2] r]. now rewrite app_assoc.
    + destruct (dict_setitem output name info) as [output' | e]; [| reflexivity].
      rewrite IH. destruct (package_loop a output' self) as [[s1 e1] [o1 | e]];
        [| reflexivity].
      destruct (package_loop b o1 s1) as [[s2 e2] r]. now rewrite app_assoc.
Qed.

(** X16. The last package of the list wins: what its pass stores is what the
    returned map holds under its name, whatever earlier packages stored
    there. *)
Theorem last_package_wins (self after : t) (before : list pyval)
    (package name stored : pyval) (evp ev : list event) (output output' : dict) :
  process_package (schema_version self) (repo self) package
    = (evp, Ret (Store name stored)) ->
  package_loop (before ++ [package]) output self = (after, ev, Ret output') ->
  dict_lookup name output' = Some stored.
Proof.
  intros Hp. rewrite package_loop_app.
  destruct (package_loop_state before output self) as [delta S].
  destruct (package_loop before output self) as [[s1 e1] [o1 | e]];
    [| discriminate].
  cbn [fst] in S. subst s1. rewrite package_loop_cons.
  cbn [with_unavailable schema_version repo]. rewrite Hp.
  unfold dict_setitem. destruct (hashable name) eqn:Hh; [| discriminate].
  cbn [package_loop ret Monad_M]. intros [= _ _ <-].
  apply dict_lookup_set_refl. now apply key_eqb_refl.
Qed.

End Order.

End OrderFacts.

(** ** A manifest that is not processed *)

Module ManifestFacts.

Import Py Trace Re PackageProvider CallFacts SchemaFacts IncludeFacts
       RewriteFacts StoreFacts.
Import ReFacts Shapes.

Section Manifests.

Context {C : Collaborators}.

(** X3. An [includes] key stops the first call only.  The call raises after
    the download of the manifest, which it leaves in [self.repo_info]; a
    second call fetches nothing and goes on to validate that manifest and
    to process its own packages, the includes forgotten. *)
Theorem includes_stop_the_first_call_only (self : t) (ev : list event)
    (d : dict) :
  is_None (repo_info self) = true ->
  fetch_url (repo self) = (ev, Ret (PyDict d)) ->
  dict_mem (PyStr "includes") d = true ->
  let loaded := with_repo_info (PyDict d) self in
  (exists e, get_packages self = (loaded, ev, Raise e)) /\
  get_packages loaded = validate_and_resolve loaded.
Proof.
  intros Hn Hf Hi loaded. split.
  - destruct (includes_raise self ev (PyDict d) Hn Hf eq_refl) as (e & _ & H).
    + cbn [contains_str]. now rewrite Hi.
    + now exists e.
  - now rewrite get_packages_known.
Qed.

(** X4. A manifest that is rejected is kept.  On a fresh provider whose
    manifest is an object without includes and fails one of the four checks
    of lines 125-141, the call returns [False] after one console line, with
    the manifest left in [self.repo_info] and the unavailable list as it
    was; a second call writes the same line and returns [False] again
    without a download. *)
Theorem rejected_manifest_is_kept (self : t) (ev : list event) (d : dict) :
  is_None (repo_info self) = true ->
  fetch_url (repo self) = (ev, Ret (PyDict d)) ->
  dict_lookup (PyStr "includes") d = None ->
  dict_lookup (PyStr "schema_version") d = None \/
  (exists s, dict_lookup (PyStr "schema_version") d = Some (PyStr s) /\
             float_of_str s = None) \/
  (exists v f, dict_lookup (PyStr "schema_version") d = Some v /\
               py_float v = Ret f /\
               (float_in f supported_versions = false \/
                dict_lookup (PyStr "packages") d = None)) ->
  exists (after : t) (line : message),
    get_packages self = (after, ev ++ [Console line], Ret (PyBool false)) /\
    repo_info after = PyDict d /\
    get_unavailable_packages after = get_unavailable_packages self /\
    get_packages after = (after, [Console line], Ret (PyBool false)).
Proof.
  intros Hn Hf Hi H. rewrite (get_packages_without_includes _ _ _ Hn Hf Hi).
  set (self1 := with_repo_info (PyDict d) self).
  assert (R : repo_info self1 = PyDict d) by reflexivity.
  assert (K : forall f, get_packages (with_schema_version f self1)
                        = validate_and_resolve (with_schema_version f self1))
    by (intros f; now rewrite get_packages_known).
  assert (K1 : get_packages self1 = validate_and_resolve self1)
    by now rewrite get_packages_known.
  destruct H as [H | [(s & H & Hs) | (v & f & H & Hv & Hc)]].
  - exists self1, (MsgSchemaMissing (repo self)).
    rewrite K1, (version_missing _ _ R H). auto.
  - exists self1, (MsgSchemaNotNumber (repo self)).
    rewrite K1, (version_not_a_number _ _ _ R H Hs). auto.
  - destruct (float_in f supported_versions) eqn:Es.
    + destruct Hc as [Hc | Hp]; [discriminate |].
      exists (with_schema_version f self1), (MsgPackagesMissing (repo self)).
      rewrite K, (packages_missing self1 _ _ _ R H Hv Es Hp).
      rewrite (packages_missing (with_schema_version f self1) _ _ _ R H Hv Es Hp).
      auto.
    + exists (with_schema_version f self1), (MsgSchemaUnknown (repo self)).
      rewrite K, (version_not_supported self1 _ _ _ R H Hv Es).
      rewrite (version_not_supported (with_schema_version f self1) _ _ _ R H Hv Es).
      auto.
Qed.

(** X14. What line 235 stores as [download] is the selected download with its
    [url] rewritten by lines 230-233 and every other field as it was. *)
Theorem stored_download_is_rewritten (rp : string)
    (package name stored : pyval) (d : dict) (ev : list event) :
  finish rp package (PyDict d) = (ev, Ret (Store name stored)) ->
  exists (dl : dict) (u : string),
    dict_lookup (PyStr "download") d = Some (PyDict dl) /\
    dict_lookup (PyStr "url") dl = Some (PyStr u) /\
    getitem_str stored "download" =
    Ret (PyDict (dict_set (PyStr "url") (PyStr (rewrite_zipball u)) dl)).
Proof.
  intros H. apply finish_store_inv in H
    as (d' & dl & u & [= <-] & Hd & Hu & -> & _).
  exists dl, u. repeat split.
  - destruct (dict_mem (PyStr "url") d); [exact Hd |].
    now rewrite dict_lookup_set_other in Hd by discriminate.
  - exact Hu.
  - cbn [getitem_str]. now rewrite dict_lookup_set.
Qed.

End Manifests.

(** X24. The rewrite changes nothing but URLs of one shape: [https://nodeload],
    any character but a newline, [github], any such character, [com/], two
    non-empty segments without a slash, [/zipball/], a rest without newlines
    and at most one final newline; there it replaces [zipball] by [zip]. *)
Theorem rewrite_changes_legacy_shape_only (url : string) :
  rewrite_zipball url <> url ->
  exists (p w : list ascii) (nl : bool),
    group1_word p /\ no_newline w /\
    url = string_of_list_ascii
            (p ++ chars_of "zipball" ++ "/"%char :: w
               ++ (if nl then [newline] else [])) /\
    rewrite_zipball url =
    string_of_list_ascii
      (p ++ chars_of "zip" ++ "/"%char :: w ++ (if nl then [newline] else [])).
Proof.
  intros N.
  assert (F : exists p q,
             find_split zipball_split_ok [] (list_ascii_of_string url)
             = Some (p, q)).
  { destruct (find_split zipball_split_ok [] (list_ascii_of_string url))
      as [[p q] |] eqn:F; [eauto |].
    elim N. unfold rewrite_zipball. now rewrite F. }
  destruct F as (p & q & F).
  destruct (find_split_sound _ _ _ _ _ F) as [Hok E]. cbn [rev app] in E.
  apply split_ok_words in Hok as [Hp (w & nl & Hw & ->)].
  assert (U : url = string_of_list_ascii
                      (p ++ chars_of "zipball" ++ "/"%char :: w
                         ++ (if nl then [newline] else [])))
    by (rewrite <- (string_of_list_ascii_of_string url), <- E; reflexivity).
  exists p, w, nl. repeat split; try assumption.
  rewrite U at 1. now apply rewrite_zipball_split.
Qed.

End ManifestFacts.

(** ** Closed runs for the rest of the two files *)

Module MoreRuns.

Import GitHubUserPackages GitHubUserFacts.
Import Py Trace PackageProvider Script Cases Runs.
Import CallShape PassFacts StoreFacts RenamedFacts OrderFacts ManifestFacts.

(** The value of a call, and the parts of what a pass stores. *)
Definition value_of (r : result pyval) : pyval :=
  match r with Ret v => v | Raise _ => PyNone end.

Definition dict_of (r : result pyval) : dict :=
  match r with Ret (PyDict d) => d | _ => [] end.

Definition list_of (r : result pyval) : list pyval :=
  match r with Ret (PyList l) => l | _ => [] end.

Definition loop_output (r : result dict) : dict :=
  match r with Ret d => d | Raise _ => [] end.

Definition stored_of (w : W action) : pyval :=
  match snd w with Ret (Store _ stored) => stored | _ => PyNone end.

(** *** A manifest of a version that is not supported *)

Definition future_manifest : dict :=
  [(PyStr "schema_version", PyStr "3.0"); (PyStr "packages", PyList [])].

Definition future_docs : list document :=
  [manifest root_url "{'schema_version': '3.0', 'packages': []}"
     (PyDict future_manifest)].

(** *** The manifest with two includes *)

Definition two_includes_manifest : dict :=
  [(PyStr "schema_version", PyStr "1.2"); (PyStr "packages", PyList []);
   (PyStr "includes", PyList [PyStr "https://example.com/gone.json";
                              PyStr "https://example.com/b.json"])].

(** *** A provider that holds a schema 2.0 manifest with a renamed package *)

Definition renamed_package : dict :=
  [(PyStr "name", PyStr "New");
   (PyStr "previous_names", PyList [PyStr "Old"; PyStr "Older"])].

Definition renamed_provider : t :=
  with_schema_version f2_0
    (with_repo_info
       (obj [("schema_version", PyStr "2.0");
             ("packages", PyList [a_everywhere; PyDict renamed_package])])
       (init root_url PyNone)).

(** *** What the platform selector hands back for "A" *)

Definition a_selected : dict :=
  [(PyStr "name", PyStr "A");
   (PyStr "download", obj [("url", PyStr "https://example.com/a.zip")])].

(** *** A GitHub user with one repository *)

Definition user_url : string := "https://github.com/u".

Definition user_repository : pyval :=
  obj [("name", PyStr "p"); ("description", PyStr "D");
       ("url", PyStr "https://github.com/u/p"); ("author", PyStr "u");
       ("user_repo", PyStr "u/p")].

Definition user_client : UserClient :=
  {| client_user_info := fun url =>
       if url =? user_url then PyList [user_repository] else PyBool false |}.

Definition user_download : pyval :=
  obj [("version", PyStr "2013.01.02.03.04.05");
       ("url", PyStr "https://nodeload.github.com/u/p/zip/master");
       ("date", PyStr "2013-01-02 03:04:05")].

Definition user_world : Collaborators :=
  collaborators [] [] [] [("https://github.com/u/p", user_download)] []
    select_nothing linux.

Definition user_provider : GitHubUserProvider.t :=
  GitHubUserProvider.init user_url PyNone.

(** X2 at work: nothing is served at the repository's URL. *)
Lemma failed_fetch_is_not_retried_witness :
  let failed := with_repo_info (PyBool false) (init root_url PyNone) in
  (exists ev,
     @get_packages (plain_world []) (init root_url PyNone)
     = (failed, ev, Ret (PyBool false))) /\
  @get_packages (plain_world []) failed = (failed, [], Ret (PyBool false)).
Proof.
  apply (@failed_fetch_is_not_retried (plain_world []) (init root_url PyNone));
    [reflexivity | left; reflexivity].
Defined.

(** X3 at work, on the manifest with two includes. *)
Lemma includes_stop_the_first_call_only_witness :
  let loaded := with_repo_info (PyDict two_includes_manifest)
                  (init root_url PyNone) in
  (exists e,
     @get_packages (plain_world two_includes_docs) (init root_url PyNone)
     = (loaded, [Download root_url], Raise e)) /\
  @get_packages (plain_world two_includes_docs) loaded
  = @validate_and_resolve (plain_world two_includes_docs) loaded.
Proof.
  apply (@includes_stop_the_first_call_only (plain_world two_includes_docs)
           (init root_url PyNone) [Download root_url] two_includes_manifest);
    vm_compute; reflexivity.
Defined.

(** X4 at work, on a manifest of version 3.0. *)
Lemma rejected_manifest_is_kept_witness :
  exists (after : t) (line : message),
    @get_packages (plain_world future_docs) (init root_url PyNone)
    = (after, [Download root_url] ++ [Console line], Ret (PyBool false)) /\
    repo_info after = PyDict future_manifest /\
    get_unavailable_packages after
    = get_unavailable_packages (init root_url PyNone) /\
    @get_packages (plain_world future_docs) after
    = (after, [Console line], Ret (PyBool false)).
Proof.
  apply (@rejected_manifest_is_kept (plain_world future_docs)
           (init root_url PyNone) [Download root_url] future_manifest);
    [reflexivity | vm_compute; reflexivity | reflexivity |].
  right. right. exists (PyStr "3.0"), (float_lit 3 1).
  repeat split; try reflexivity. left. vm_compute. reflexivity.
Defined.

(** X5 at work, on the repository with the look-alike download. *)
Lemma map_only_for_supported_schema_witness :
  let run := @get_packages (plain_world lookalike_docs) (init root_url PyNone) in
  value_of (snd run) = PyBool false \/
  exists output,
    value_of (snd run) = PyDict output /\
    float_in (schema_version (fst (fst run))) supported_versions = true /\
    contains_str "packages" (repo_info (fst (fst run))) = Ret true.
Proof.
  intros run.
  apply (@map_only_for_supported_schema (plain_world lookalike_docs)
           (init root_url PyNone) (fst (fst run)) (snd (fst run))
           (value_of (snd run))).
  vm_compute. reflexivity.
Defined.

(** X7 at work, on the same repository, of schema 1.2. *)
Lemma no_lookup_below_schema_2_witness :
  Forall no_lookup
    (snd (fst (@get_packages (plain_world lookalike_docs)
                 (init root_url PyNone)))).
Proof.
  set (run := @get_packages (plain_world lookalike_docs) (init root_url PyNone)).
  apply (@no_lookup_below_schema_2 (plain_world lookalike_docs)
           (init root_url PyNone) (fst (fst run)) (snd (fst run)) (snd run));
    vm_compute; reflexivity.
Defined.

(** X8 at work: a string after a good package. *)
Lemma non_object_entry_raises_witness :
  exists e,
    snd (@package_loop (plain_world []) [a_everywhere; PyStr "B"] [] fresh_1_2)
    = Raise e.
Proof.
  apply (@non_object_entry_raises (plain_world []) [a_everywhere; PyStr "B"] []
           fresh_1_2 (PyStr "B")).
  - right. left. reflexivity.
  - intros d. discriminate.
Defined.

(** X9 at work: a package that is a name and nothing else. *)
Lemma neither_details_nor_releases_raises_witness :
  @process_package releases_world f2_0 root_url (obj [("name", PyStr "P")])
  = ([], Raise TypeError).
Proof.
  apply (@neither_details_nor_releases_raises releases_world f2_0 root_url
           [(PyStr "name", PyStr "P")] PyNone);
    vm_compute; reflexivity.
Defined.

(** X10 at work: the details URL of "P" with clients that know no URL. *)
Lemma unrecognised_details_skipped_witness :
  @process_package releases_world f2_0 root_url merge_package =
  ([RepoInfoLookup GitHub (PyStr "https://github.com/u/p");
    RepoInfoLookup BitBucket (PyStr "https://github.com/u/p");
    Console (MsgInvalidDetails root_url)],
   Ret Continue).
Proof.
  apply (@unrecognised_details_skipped releases_world f2_0 root_url
           [(PyStr "name", PyStr "P"); (PyStr "author", PyStr "Y");
            (PyStr "details", PyStr "https://github.com/u/p")]
           (PyStr "https://github.com/u/p"));
    vm_compute; reflexivity.
Defined.

(** X11 at work: the same package with a client that knows its URL. *)
Lemma details_never_resolved_witness :
  snd (@process_package merge_world f2_0 root_url merge_package) = Ret Continue \/
  exists e,
    snd (@process_package merge_world f2_0 root_url merge_package) = Raise e.
Proof.
  apply (@details_never_resolved merge_world f2_0 root_url
           [(PyStr "name", PyStr "P"); (PyStr "author", PyStr "Y");
            (PyStr "details", PyStr "https://github.com/u/p")]
           (PyStr "https://github.com/u/p"));
    vm_compute; reflexivity.
Defined.

(** X12 at work, on the repository with the look-alike download. *)
Lemma returned_entries_are_resolved_witness :
  Forall entry_ok
    (dict_of (snd (@get_packages (plain_world lookalike_docs)
                     (init root_url PyNone)))).
Proof.
  set (run := @get_packages (plain_world lookalike_docs) (init root_url PyNone)).
  apply (@returned_entries_are_resolved (plain_world lookalike_docs)
           (init root_url PyNone) (fst (fst run)) (snd (fst run))
           (dict_of (snd run))).
  vm_compute. reflexivity.
Defined.

(** X13 at work: the selector's result for "A" carries no [url]. *)
Lemma stored_url_defaults_to_repo_witness :
  getitem_str (stored_of (finish root_url a_everywhere (PyDict a_selected))) "url"
  = Ret (PyStr root_url).
Proof.
  apply (stored_url_defaults_to_repo root_url a_everywhere (PyStr "A")
           (stored_of (finish root_url a_everywhere (PyDict a_selected)))
           a_selected []).
  vm_compute. reflexivity.
Defined.

(** X14 at work, on the same pass. *)
Lemma stored_download_is_rewritten_witness :
  exists (dl : dict) (u : string),
    dict_lookup (PyStr "download") a_selected = Some (PyDict dl) /\
    dict_lookup (PyStr "url") dl = Some (PyStr u) /\
    getitem_str (stored_of (finish root_url a_everywhere (PyDict a_selected)))
      "download"
    = Ret (PyDict (dict_set (PyStr "url") (PyStr (rewrite_zipball u)) dl)).
Proof.
  apply (stored_download_is_rewritten root_url a_everywhere (PyStr "A")
           (stored_of (finish root_url a_everywhere (PyDict a_selected)))
           a_selected []).
  vm_compute. reflexivity.
Defined.

(** X16 at work: "A" for Windows only, then "A" for every platform. *)
Lemma last_package_wins_witness :
  dict_lookup (PyStr "A")
    (loop_output
       (snd (@package_loop (plain_world []) ([a_windows_only] ++ [a_everywhere])
               [] fresh_1_2)))
  = Some (stored_of (@process_package (plain_world []) f1_2 root_url a_everywhere)).
Proof.
  set (run := @package_loop (plain_world []) ([a_windows_only] ++ [a_everywhere])
                [] fresh_1_2).
  apply (@last_package_wins (plain_world []) fresh_1_2 (fst (fst run))
           [a_windows_only] a_everywhere (PyStr "A")
           (stored_of (@process_package (plain_world []) f1_2 root_url a_everywhere))
           [] (snd (fst run)) [] (loop_output (snd run)));
    vm_compute; reflexivity.
Defined.

(** X17 at work, on a new provider. *)
Lemma renamed_packages_need_a_manifest_witness :
  get_renamed_packages (init root_url PyNone) = Raise AttributeError.
Proof.
  apply (renamed_packages_need_a_manifest (init root_url PyNone)).
  left. reflexivity.
Defined.

(** X18 at work: "Older" is a previous name of "New". *)
Lemma previous_names_of_last_package_witness :
  dict_lookup (PyStr "Older") (dict_of (get_renamed_packages renamed_provider))
  = Some (PyStr "New").
Proof.
  apply (previous_names_of_last_package renamed_provider [a_everywhere]
           renamed_package (PyList [PyStr "Old"; PyStr "Older"]) (PyStr "New")
           (dict_of (get_renamed_packages renamed_provider)));
    try (vm_compute; reflexivity).
  right. left. reflexivity.
Defined.

(** X19 at work: "Old" leads to a package of the manifest. *)
Lemma renamed_targets_are_package_names_witness :
  exists packages pending p,
    getitem_str (repo_info renamed_provider) "packages" = Ret packages /\
    iterate packages = Ret pending /\
    In p pending /\
    getitem_str p "name" = Ret (PyStr "New") /\
    contains_str "previous_names" p = Ret true.
Proof.
  apply (renamed_targets_are_package_names renamed_provider
           (dict_of (get_renamed_packages renamed_provider))
           (PyStr "Old") (PyStr "New"));
    vm_compute; reflexivity.
Defined.

(** X21 at work, on the user with one repository. *)
Lemma one_entry_per_repository_witness :
  exists repos output,
    iterate (@client_user_info user_client
               (GitHubUserProvider.repo user_provider)) = Ret repos /\
    value_of (@GitHubUserPackages.get_packages user_world user_client
                user_provider) = PyList output /\
    Forall2 (@entry_of user_world) repos output.
Proof.
  apply (@one_entry_per_repository user_world user_client user_provider
           (value_of (@GitHubUserPackages.get_packages user_world user_client
                        user_provider))).
  - vm_compute. reflexivity.
  - vm_compute. discriminate.
Defined.

(** X22 at work, on the same user. *)
Lemma last_modified_is_download_date_witness :
  let p := hd PyNone
             (list_of (@GitHubUserPackages.get_packages user_world user_client
                         user_provider)) in
  exists download,
    getitem_str p "download" = Ret (PyDict download) /\
    getitem_str p "last_modified" = get_str (PyDict download) "date" PyNone.
Proof.
  intros p.
  apply (@last_modified_is_download_date user_world user_client user_provider
           (list_of (@GitHubUserPackages.get_packages user_world user_client
                       user_provider)) p).
  - vm_compute. reflexivity.
  - left. reflexivity.
Defined.

(** X23 at work: the same user with a client that knows no download. *)
Lemma failed_download_lookup_raises_witness :
  exists e,
    @GitHubUserPackages.get_packages (plain_world []) user_client user_provider
    = Raise e.
Proof.
  apply (@failed_download_lookup_raises (plain_world []) user_client
           user_provider [user_repository] user_repository "u/p");
    try (vm_compute; reflexivity).
  - left. reflexivity.
  - intros d. vm_compute. discriminate.
Defined.

(** X24 at work, on the look-alike URL. *)
Lemma rewrite_changes_legacy_shape_only_witness :
  exists (p w : list ascii) (nl : bool),
    RewriteFacts.group1_word p /\ Shapes.no_newline w /\
    lookalike_url
    = string_of_list_ascii
        (p ++ Shapes.chars_of "zipball" ++ "/"%char :: w
           ++ (if nl then [Re.newline] else [])) /\
    rewrite_zipball lookalike_url =
    string_of_list_ascii
      (p ++ Shapes.chars_of "zip" ++ "/"%char :: w
         ++ (if nl then [Re.newline] else [])).
Proof.
  apply (rewrite_changes_legacy_shape_only lookalike_url).
  vm_compute. discriminate.
Defined.

End MoreRuns.
